(** * SaaS user-management automation: data processor, AI agent, browser
      handler, orchestrator

    A shallow embedding of [data_processor.py], [ai_agent.py], [config.py],
    [browser_automation.py] and the scrape / add / remove workflows of
    [main.py], with the properties of the resolution, extraction,
    validation and persistence layers.

    Modelling conventions.
    - A Python [str] is a Rocq [string] that holds its UTF-8 encoding.
      [len], the slice [s[:n]] and [list(s)] count code points, and
      [str.upper] is the full upper-case mapping of Unicode.  [str.strip],
      [str.split] and [str.lower] are embedded on the ASCII range, where
      Python's whitespace characters are the codes 9-13 and 28-32 and the
      upper-case letters are A-Z: a code point above 127 is taken as
      neither whitespace nor upper case.
    - A Python [dict] with string keys is an association list in insertion
      order with unique keys ([dict_get], [dict_set]).  [list(s)] of a set
      gives its elements in an order that is a parameter.
    - An exception is a value [Raise e] of the result type [Exc]; a
      [try / except Exception] block is a match on it.
    - The clock, the file store, the browser handler and the chat
      completion client are explicit: the clock is an argument or a call,
      the store is a finite map from paths to file contents, a write is
      given its outcome (done, refused, broken off), and a workflow is a
      tree of calls to the browser handler and the chat client that is run
      against an arbitrary handler, recording the trace of calls.  The
      methods of the browser handler are trees of calls to Playwright in
      the same way.
    - A file is held as the JSON document or the rows of cells it stands
      for; of the text level of the CSV reader, the newline translation of
      the text file and the limit on the length of a cell are kept.
    - JSON numbers are integers; a float has no counterpart.
    - Logging is left out, except where the log line itself can raise. *)

From Stdlib Require Import ZArith DecimalString Ascii.
From stdpp Require Import gmap strings list.

Open Scope string_scope.

(** ** Python strings *)

Module PyStr.

(** [c.isspace()] on the ASCII range: TAB, LF, VT, FF, CR, the four
    separators FS, GS, RS, US, and the space. *)
Definition is_space (c : ascii) : bool :=
  let n := nat_of_ascii c in
  ((9 <=? n)%nat && (n <=? 13)%nat) || ((28 <=? n)%nat && (n <=? 32)%nat).

Fixpoint lstrip (s : string) : string :=
  match s with
  | EmptyString => EmptyString
  | String c t => if is_space c then lstrip t else s
  end.

Fixpoint rstrip (s : string) : string :=
  match s with
  | EmptyString => EmptyString
  | String c t =>
      match rstrip t with
      | EmptyString => if is_space c then EmptyString else String c EmptyString
      | t' => String c t'
      end
  end.

(** [s.strip()] *)
Definition strip (s : string) : string := rstrip (lstrip s).

(** [s.replace(old, new)] for one-character [old] and [new]. *)
Fixpoint replace (old new : ascii) (s : string) : string :=
  match s with
  | EmptyString => EmptyString
  | String c t =>
      String (if bool_decide (c = old) then new else c) (replace old new t)
  end.

(** [s.split()]: the maximal runs of non-whitespace characters. *)
Fixpoint split (s : string) : list string :=
  match s with
  | EmptyString => []
  | String c t =>
      if is_space c then split t
      else match t with
           | EmptyString => [String c EmptyString]
           | String d _ =>
               if is_space d then String c EmptyString :: split t
               else match split t with
                    | w :: ws => String c w :: ws
                    | [] => [String c EmptyString]
                    end
           end
  end.

(** [sep.join(parts)] *)
Definition join (sep : string) (parts : list string) : string :=
  String.concat sep parts.

(** [needle in hay] *)
Fixpoint contains (needle hay : string) : bool :=
  String.prefix needle hay ||
  match hay with
  | EmptyString => false
  | String _ t => contains needle t
  end.

(** [s.endswith(suffix)]: some tail of [s] is [suffix]. *)
Fixpoint endswith (s suffix : string) : bool :=
  bool_decide (s = suffix) ||
  match s with
  | EmptyString => false
  | String _ t => endswith t suffix
  end.

(** [s.startswith(p)] *)
Definition startswith (s p : string) : bool := String.prefix p s.

(** [s.lower()] on the ASCII range. *)
Definition lower_char (c : ascii) : ascii :=
  let n := nat_of_ascii c in
  if ((65 <=? n)%nat && (n <=? 90)%nat) then ascii_of_nat (n + 32) else c.

Fixpoint lower (s : string) : string :=
  match s with
  | EmptyString => EmptyString
  | String c t => String (lower_char c) (lower t)
  end.

(** The letters a-z as A-Z, the other bytes as they are. *)
Definition ascii_upper_char (c : ascii) : ascii :=
  let n := nat_of_ascii c in
  if ((97 <=? n)%nat && (n <=? 122)%nat) then ascii_of_nat (n - 32) else c.

Fixpoint ascii_upper (s : string) : string :=
  match s with
  | EmptyString => EmptyString
  | String c t => String (ascii_upper_char c) (ascii_upper t)
  end.

(** *** Code points

    A [str] is held as its UTF-8 encoding (a lone surrogate is encoded
    like any other code point).  A code point starts at each byte that is
    not a continuation byte. *)
Definition is_continuation (c : ascii) : bool :=
  let n := nat_of_ascii c in (128 <=? n)%nat && (n <? 192)%nat.

(** The bits a leading byte gives to its code point. *)
Definition lead_bits (b : N) : N :=
  (if b <? 128 then b
   else if b <? 224 then b - 192
   else if b <? 240 then b - 224
   else b - 240)%N.

Fixpoint points_from (point : N) (s : string) : list N :=
  match s with
  | EmptyString => [point]
  | String c t =>
      let b := N_of_ascii c in
      if is_continuation c then points_from (point * 64 + (b - 128))%N t
      else point :: points_from (lead_bits b) t
  end.

(** The code points of a text. *)
Definition points (s : string) : list N :=
  match s with
  | EmptyString => []
  | String c t => points_from (lead_bits (N_of_ascii c)) t
  end.

(** The UTF-8 encoding of a code point. *)
Definition utf8 (point : N) : string :=
  let byte (n : N) := ascii_of_N n in
  let low (n : N) := byte (128 + n mod 64)%N in
  (if point <? 128 then String (byte point) EmptyString
   else if point <? 2048 then
     String (byte (192 + point / 64)) (String (low point) EmptyString)
   else if point <? 65536 then
     String (byte (224 + point / 4096))
       (String (low (point / 64)) (String (low point) EmptyString))
   else
     String (byte (240 + point / 262144))
       (String (low (point / 4096))
          (String (low (point / 64)) (String (low point) EmptyString))))%N.

Definition of_points (l : list N) : string :=
  String.concat EmptyString (utf8 <$> l).

(** [len(s)] *)
Definition len (s : string) : nat := length (points s).

(** [list(s)]: the characters of a text, each as a text. *)
Definition chars (s : string) : list string := utf8 <$> points s.

Fixpoint take_points (n : nat) (s : string) : string :=
  match s with
  | EmptyString => EmptyString
  | String c t =>
      if is_continuation c then String c (take_points n t)
      else match n with
           | O => EmptyString
           | S m => String c (take_points m t)
           end
  end.

(** [s[:n]]: the first [n] characters. *)
Definition take (n : N) (s : string) : string :=
  take_points (N.to_nat n) s.

(** The code points that [str.upper] changes, each with the code points
    it becomes: the full upper-case mapping of the Unicode Character
    Database, version 14.0, which has no rule that depends on the
    neighbours of a character. *)
Definition upper_table : list (N * list N) :=
  [(97, [65]); (98, [66]); (99, [67]); (100, [68]); (101, [69]); (102, [70]);
   (103, [71]); (104, [72]); (105, [73]); (106, [74]); (107, [75]);
   (108, [76]); (109, [77]); (110, [78]); (111, [79]); (112, [80]);
   (113, [81]); (114, [82]); (115, [83]); (116, [84]); (117, [85]);
   (118, [86]); (119, [87]); (120, [88]); (121, [89]); (122, [90]);
   (181, [924]); (223, [83; 83]); (224, [192]); (225, [193]); (226, [194]);
   (227, [195]); (228, [196]); (229, [197]); (230, [198]); (231, [199]);
   (232, [200]); (233, [201]); (234, [202]); (235, [203]); (236, [204]);
   (237, [205]); (238, [206]); (239, [207]); (240, [208]); (241, [209]);
   (242, [210]); (243, [211]); (244, [212]); (245, [213]); (246, [214]);
   (248, [216]); (249, [217]); (250, [218]); (251, [219]); (252, [220]);
   (253, [221]); (254, [222]); (255, [376]); (257, [256]); (259, [258]);
   (261, [260]); (263, [262]); (265, [264]); (267, [266]); (269, [268]);
   (271, [270]); (273, [272]); (275, [274]); (277, [276]); (279, [278]);
   (281, [280]); (283, [282]); (285, [284]); (287, [286]); (289, [288]);
   (291, [290]); (293, [292]); (295, [294]); (297, [296]); (299, [298]);
   (301, [300]); (303, [302]); (305, [73]); (307, [306]); (309, [308]);
   (311, [310]); (314, [313]); (316, [315]); (318, [317]); (320, [319]);
   (322, [321]); (324, [323]); (326, [325]); (328, [327]); (329, [700; 78]);
   (331, [330]); (333, [332]); (335, [334]); (337, [336]); (339, [338]);
   (341, [340]); (343, [342]); (345, [344]); (347, [346]); (349, [348]);
   (351, [350]); (353, [352]); (355, [354]); (357, [356]); (359, [358]);
   (361, [360]); (363, [362]); (365, [364]); (367, [366]); (369, [368]);
   (371, [370]); (373, [372]); (375, [374]); (378, [377]); (380, [379]);
   (382, [381]); (383, [83]); (384, [579]); (387, [386]); (389, [388]);
   (392, [391]); (396, [395]); (402, [401]); (405, [502]); (409, [408]);
   (410, [573]); (414, [544]); (417, [416]); (419, [418]); (421, [420]);
   (424, [423]); (429, [428]); (432, [431]); (436, [435]); (438, [437]);
   (441, [440]); (445, [444]); (447, [503]); (453, [452]); (454, [452]);
   (456, [455]); (457, [455]); (459, [458]); (460, [458]); (462, [461]);
   (464, [463]); (466, [465]); (468, [467]); (470, [469]); (472, [471]);
   (474, [473]); (476, [475]); (477, [398]); (479, [478]); (481, [480]);
   (483, [482]); (485, [484]); (487, [486]); (489, [488]); (491, [490]);
   (493, [492]); (495, [494]); (496, [74; 780]); (498, [497]); (499, [497]);
   (501, [500]); (505, [504]); (507, [506]); (509, [508]); (511, [510]);
   (513, [512]); (515, [514]); (517, [516]); (519, [518]); (521, [520]);
   (523, [522]); (525, [524]); (527, [526]); (529, [528]); (531, [530]);
   (533, [532]); (535, [534]); (537, [536]); (539, [538]); (541, [540]);
   (543, [542]); (547, [546]); (549, [548]); (551, [550]); (553, [552]);
   (555, [554]); (557, [556]); (559, [558]); (561, [560]); (563, [562]);
   (572, [571]); (575, [11390]); (576, [11391]); (578, [577]); (583, [582]);
   (585, [584]); (587, [586]); (589, [588]); (591, [590]); (592, [11375]);
   (593, [11373]); (594, [11376]); (595, [385]); (596, [390]); (598, [393]);
   (599, [394]); (601, [399]); (603, [400]); (604, [42923]); (608, [403]);
   (609, [42924]); (611, [404]); (613, [42893]); (614, [42922]);
   (616, [407]); (617, [406]); (618, [42926]); (619, [11362]);
   (620, [42925]); (623, [412]); (625, [11374]); (626, [413]); (629, [415]);
   (637, [11364]); (640, [422]); (642, [42949]); (643, [425]);
   (647, [42929]); (648, [430]); (649, [580]); (650, [433]); (651, [434]);
   (652, [581]); (658, [439]); (669, [42930]); (670, [42928]); (837, [921]);
   (881, [880]); (883, [882]); (887, [886]); (891, [1021]); (892, [1022]);
   (893, [1023]); (912, [921; 776; 769]); (940, [902]); (941, [904]);
   (942, [905]); (943, [906]); (944, [933; 776; 769]); (945, [913]);
   (946, [914]); (947, [915]); (948, [916]); (949, [917]); (950, [918]);
   (951, [919]); (952, [920]); (953, [921]); (954, [922]); (955, [923]);
   (956, [924]); (957, [925]); (958, [926]); (959, [927]); (960, [928]);
   (961, [929]); (962, [931]); (963, [931]); (964, [932]); (965, [933]);
   (966, [934]); (967, [935]); (968, [936]); (969, [937]); (970, [938]);
   (971, [939]); (972, [908]); (973, [910]); (974, [911]); (976, [914]);
   (977, [920]); (981, [934]); (982, [928]); (983, [975]); (985, [984]);
   (987, [986]); (989, [988]); (991, [990]); (993, [992]); (995, [994]);
   (997, [996]); (999, [998]); (1001, [1000]); (1003, [1002]);
   (1005, [1004]); (1007, [1006]); (1008, [922]); (1009, [929]);
   (1010, [1017]); (1011, [895]); (1013, [917]); (1016, [1015]);
   (1019, [1018]); (1072, [1040]); (1073, [1041]); (1074, [1042]);
   (1075, [1043]); (1076, [1044]); (1077, [1045]); (1078, [1046]);
   (1079, [1047]); (1080, [1048]); (1081, [1049]); (1082, [1050]);
   (1083, [1051]); (1084, [1052]); (1085, [1053]); (1086, [1054]);
   (1087, [1055]); (1088, [1056]); (1089, [1057]); (1090, [1058]);
   (1091, [1059]); (1092, [1060]); (1093, [1061]); (1094, [1062]);
   (1095, [1063]); (1096, [1064]); (1097, [1065]); (1098, [1066]);
   (1099, [1067]); (1100, [1068]); (1101, [1069]); (1102, [1070]);
   (1103, [1071]); (1104, [1024]); (1105, [1025]); (1106, [1026]);
   (1107, [1027]); (1108, [1028]); (1109, [1029]); (1110, [1030]);
   (1111, [1031]); (1112, [1032]); (1113, [1033]); (1114, [1034]);
   (1115, [1035]); (1116, [1036]); (1117, [1037]); (1118, [1038]);
   (1119, [1039]); (1121, [1120]); (1123, [1122]); (1125, [1124]);
   (1127, [1126]); (1129, [1128]); (1131, [1130]); (1133, [1132]);
   (1135, [1134]); (1137, [1136]); (1139, [1138]); (1141, [1140]);
   (1143, [1142]); (1145, [1144]); (1147, [1146]); (1149, [1148]);
   (1151, [1150]); (1153, [1152]); (1163, [1162]); (1165, [1164]);
   (1167, [1166]); (1169, [1168]); (1171, [1170]); (1173, [1172]);
   (1175, [1174]); (1177, [1176]); (1179, [1178]); (1181, [1180]);
   (1183, [1182]); (1185, [1184]); (1187, [1186]); (1189, [1188]);
   (1191, [1190]); (1193, [1192]); (1195, [1194]); (1197, [1196]);
   (1199, [1198]); (1201, [1200]); (1203, [1202]); (1205, [1204]);
   (1207, [1206]); (1209, [1208]); (1211, [1210]); (1213, [1212]);
   (1215, [1214]); (1218, [1217]); (1220, [1219]); (1222, [1221]);
   (1224, [1223]); (1226, [1225]); (1228, [1227]); (1230, [1229]);
   (1231, [1216]); (1233, [1232]); (1235, [1234]); (1237, [1236]);
   (1239, [1238]); (1241, [1240]); (1243, [1242]); (1245, [1244]);
   (1247, [1246]); (1249, [1248]); (1251, [1250]); (1253, [1252]);
   (1255, [1254]); (1257, [1256]); (1259, [1258]); (1261, [1260]);
   (1263, [1262]); (1265, [1264]); (1267, [1266]); (1269, [1268]);
   (1271, [1270]); (1273, [1272]); (1275, [1274]); (1277, [1276]);
   (1279, [1278]); (1281, [1280]); (1283, [1282]); (1285, [1284]);
   (1287, [1286]); (1289, [1288]); (1291, [1290]); (1293, [1292]);
   (1295, [1294]); (1297, [1296]); (1299, [1298]); (1301, [1300]);
   (1303, [1302]); (1305, [1304]); (1307, [1306]); (1309, [1308]);
   (1311, [1310]); (1313, [1312]); (1315, [1314]); (1317, [1316]);
   (1319, [1318]); (1321, [1320]); (1323, [1322]); (1325, [1324]);
   (1327, [1326]); (1377, [1329]); (1378, [1330]); (1379, [1331]);
   (1380, [1332]); (1381, [1333]); (1382, [1334]); (1383, [1335]);
   (1384, [1336]); (1385, [1337]); (1386, [1338]); (1387, [1339]);
   (1388, [1340]); (1389, [1341]); (1390, [1342]); (1391, [1343]);
   (1392, [1344]); (1393, [1345]); (1394, [1346]); (1395, [1347]);
   (1396, [1348]); (1397, [1349]); (1398, [1350]); (1399, [1351]);
   (1400, [1352]); (1401, [1353]); (1402, [1354]); (1403, [1355]);
   (1404, [1356]); (1405, [1357]); (1406, [1358]); (1407, [1359]);
   (1408, [1360]); (1409, [1361]); (1410, [1362]); (1411, [1363]);
   (1412, [1364]); (1413, [1365]); (1414, [1366]); (1415, [1333; 1362]);
   (4304, [7312]); (4305, [7313]); (4306, [7314]); (4307, [7315]);
   (4308, [7316]); (4309, [7317]); (4310, [7318]); (4311, [7319]);
   (4312, [7320]); (4313, [7321]); (4314, [7322]); (4315, [7323]);
   (4316, [7324]); (4317, [7325]); (4318, [7326]); (4319, [7327]);
   (4320, [7328]); (4321, [7329]); (4322, [7330]); (4323, [7331]);
   (4324, [7332]); (4325, [7333]); (4326, [7334]); (4327, [7335]);
   (4328, [7336]); (4329, [7337]); (4330, [7338]); (4331, [7339]);
   (4332, [7340]); (4333, [7341]); (4334, [7342]); (4335, [7343]);
   (4336, [7344]); (4337, [7345]); (4338, [7346]); (4339, [7347]);
   (4340, [7348]); (4341, [7349]); (4342, [7350]); (4343, [7351]);
   (4344, [7352]); (4345, [7353]); (4346, [7354]); (4349, [7357]);
   (4350, [7358]); (4351, [7359]); (5112, [5104]); (5113, [5105]);
   (5114, [5106]); (5115, [5107]); (5116, [5108]); (5117, [5109]);
   (7296, [1042]); (7297, [1044]); (7298, [1054]); (7299, [1057]);
   (7300, [1058]); (7301, [1058]); (7302, [1066]); (7303, [1122]);
   (7304, [42570]); (7545, [42877]); (7549, [11363]); (7566, [42950]);
   (7681, [7680]); (7683, [7682]); (7685, [7684]); (7687, [7686]);
   (7689, [7688]); (7691, [7690]); (7693, [7692]); (7695, [7694]);
   (7697, [7696]); (7699, [7698]); (7701, [7700]); (7703, [7702]);
   (7705, [7704]); (7707, [7706]); (7709, [7708]); (7711, [7710]);
   (7713, [7712]); (7715, [7714]); (7717, [7716]); (7719, [7718]);
   (7721, [7720]); (7723, [7722]); (7725, [7724]); (7727, [7726]);
   (7729, [7728]); (7731, [7730]); (7733, [7732]); (7735, [7734]);
   (7737, [7736]); (7739, [7738]); (7741, [7740]); (7743, [7742]);
   (7745, [7744]); (7747, [7746]); (7749, [7748]); (7751, [7750]);
   (7753, [7752]); (7755, [7754]); (7757, [7756]); (7759, [7758]);
   (7761, [7760]); (7763, [7762]); (7765, [7764]); (7767, [7766]);
   (7769, [7768]); (7771, [7770]); (7773, [7772]); (7775, [7774]);
   (7777, [7776]); (7779, [7778]); (7781, [7780]); (7783, [7782]);
   (7785, [7784]); (7787, [7786]); (7789, [7788]); (7791, [7790]);
   (7793, [7792]); (7795, [7794]); (7797, [7796]); (7799, [7798]);
   (7801, [7800]); (7803, [7802]); (7805, [7804]); (7807, [7806]);
   (7809, [7808]); (7811, [7810]); (7813, [7812]); (7815, [7814]);
   (7817, [7816]); (7819, [7818]); (7821, [7820]); (7823, [7822]);
   (7825, [7824]); (7827, [7826]); (7829, [7828]); (7830, [72; 817]);
   (7831, [84; 776]); (7832, [87; 778]); (7833, [89; 778]);
   (7834, [65; 702]); (7835, [7776]); (7841, [7840]); (7843, [7842]);
   (7845, [7844]); (7847, [7846]); (7849, [7848]); (7851, [7850]);
   (7853, [7852]); (7855, [7854]); (7857, [7856]); (7859, [7858]);
   (7861, [7860]); (7863, [7862]); (7865, [7864]); (7867, [7866]);
   (7869, [7868]); (7871, [7870]); (7873, [7872]); (7875, [7874]);
   (7877, [7876]); (7879, [7878]); (7881, [7880]); (7883, [7882]);
   (7885, [7884]); (7887, [7886]); (7889, [7888]); (7891, [7890]);
   (7893, [7892]); (7895, [7894]); (7897, [7896]); (7899, [7898]);
   (7901, [7900]); (7903, [7902]); (7905, [7904]); (7907, [7906]);
   (7909, [7908]); (7911, [7910]); (7913, [7912]); (7915, [7914]);
   (7917, [7916]); (7919, [7918]); (7921, [7920]); (7923, [7922]);
   (7925, [7924]); (7927, [7926]); (7929, [7928]); (7931, [7930]);
   (7933, [7932]); (7935, [7934]); (7936, [7944]); (7937, [7945]);
   (7938, [7946]); (7939, [7947]); (7940, [7948]); (7941, [7949]);
   (7942, [7950]); (7943, [7951]); (7952, [7960]); (7953, [7961]);
   (7954, [7962]); (7955, [7963]); (7956, [7964]); (7957, [7965]);
   (7968, [7976]); (7969, [7977]); (7970, [7978]); (7971, [7979]);
   (7972, [7980]); (7973, [7981]); (7974, [7982]); (7975, [7983]);
   (7984, [7992]); (7985, [7993]); (7986, [7994]); (7987, [7995]);
   (7988, [7996]); (7989, [7997]); (7990, [7998]); (7991, [7999]);
   (8000, [8008]); (8001, [8009]); (8002, [8010]); (8003, [8011]);
   (8004, [8012]); (8005, [8013]); (8016, [933; 787]); (8017, [8025]);
   (8018, [933; 787; 768]); (8019, [8027]); (8020, [933; 787; 769]);
   (8021, [8029]); (8022, [933; 787; 834]); (8023, [8031]); (8032, [8040]);
   (8033, [8041]); (8034, [8042]); (8035, [8043]); (8036, [8044]);
   (8037, [8045]); (8038, [8046]); (8039, [8047]); (8048, [8122]);
   (8049, [8123]); (8050, [8136]); (8051, [8137]); (8052, [8138]);
   (8053, [8139]); (8054, [8154]); (8055, [8155]); (8056, [8184]);
   (8057, [8185]); (8058, [8170]); (8059, [8171]); (8060, [8186]);
   (8061, [8187]); (8064, [7944; 921]); (8065, [7945; 921]);
   (8066, [7946; 921]); (8067, [7947; 921]); (8068, [7948; 921]);
   (8069, [7949; 921]); (8070, [7950; 921]); (8071, [7951; 921]);
   (8072, [7944; 921]); (8073, [7945; 921]); (8074, [7946; 921]);
   (8075, [7947; 921]); (8076, [7948; 921]); (8077, [7949; 921]);
   (8078, [7950; 921]); (8079, [7951; 921]); (8080, [7976; 921]);
   (8081, [7977; 921]); (8082, [7978; 921]); (8083, [7979; 921]);
   (8084, [7980; 921]); (8085, [7981; 921]); (8086, [7982; 921]);
   (8087, [7983; 921]); (8088, [7976; 921]); (8089, [7977; 921]);
   (8090, [7978; 921]); (8091, [7979; 921]); (8092, [7980; 921]);
   (8093, [7981; 921]); (8094, [7982; 921]); (8095, [7983; 921]);
   (8096, [8040; 921]); (8097, [8041; 921]); (8098, [8042; 921]);
   (8099, [8043; 921]); (8100, [8044; 921]); (8101, [8045; 921]);
   (8102, [8046; 921]); (8103, [8047; 921]); (8104, [8040; 921]);
   (8105, [8041; 921]); (8106, [8042; 921]); (8107, [8043; 921]);
   (8108, [8044; 921]); (8109, [8045; 921]); (8110, [8046; 921]);
   (8111, [8047; 921]); (8112, [8120]); (8113, [8121]); (8114, [8122; 921]);
   (8115, [913; 921]); (8116, [902; 921]); (8118, [913; 834]);
   (8119, [913; 834; 921]); (8124, [913; 921]); (8126, [921]);
   (8130, [8138; 921]); (8131, [919; 921]); (8132, [905; 921]);
   (8134, [919; 834]); (8135, [919; 834; 921]); (8140, [919; 921]);
   (8144, [8152]); (8145, [8153]); (8146, [921; 776; 768]);
   (8147, [921; 776; 769]); (8150, [921; 834]); (8151, [921; 776; 834]);
   (8160, [8168]); (8161, [8169]); (8162, [933; 776; 768]);
   (8163, [933; 776; 769]); (8164, [929; 787]); (8165, [8172]);
   (8166, [933; 834]); (8167, [933; 776; 834]); (8178, [8186; 921]);
   (8179, [937; 921]); (8180, [911; 921]); (8182, [937; 834]);
   (8183, [937; 834; 921]); (8188, [937; 921]); (8526, [8498]);
   (8560, [8544]); (8561, [8545]); (8562, [8546]); (8563, [8547]);
   (8564, [8548]); (8565, [8549]); (8566, [8550]); (8567, [8551]);
   (8568, [8552]); (8569, [8553]); (8570, [8554]); (8571, [8555]);
   (8572, [8556]); (8573, [8557]); (8574, [8558]); (8575, [8559]);
   (8580, [8579]); (9424, [9398]); (9425, [9399]); (9426, [9400]);
   (9427, [9401]); (9428, [9402]); (9429, [9403]); (9430, [9404]);
   (9431, [9405]); (9432, [9406]); (9433, [9407]); (9434, [9408]);
   (9435, [9409]); (9436, [9410]); (9437, [9411]); (9438, [9412]);
   (9439, [9413]); (9440, [9414]); (9441, [9415]); (9442, [9416]);
   (9443, [9417]); (9444, [9418]); (9445, [9419]); (9446, [9420]);
   (9447, [9421]); (9448, [9422]); (9449, [9423]); (11312, [11264]);
   (11313, [11265]); (11314, [11266]); (11315, [11267]); (11316, [11268]);
   (11317, [11269]); (11318, [11270]); (11319, [11271]); (11320, [11272]);
   (11321, [11273]); (11322, [11274]); (11323, [11275]); (11324, [11276]);
   (11325, [11277]); (11326, [11278]); (11327, [11279]); (11328, [11280]);
   (11329, [11281]); (11330, [11282]); (11331, [11283]); (11332, [11284]);
   (11333, [11285]); (11334, [11286]); (11335, [11287]); (11336, [11288]);
   (11337, [11289]); (11338, [11290]); (11339, [11291]); (11340, [11292]);
   (11341, [11293]); (11342, [11294]); (11343, [11295]); (11344, [11296]);
   (11345, [11297]); (11346, [11298]); (11347, [11299]); (11348, [11300]);
   (11349, [11301]); (11350, [11302]); (11351, [11303]); (11352, [11304]);
   (11353, [11305]); (11354, [11306]); (11355, [11307]); (11356, [11308]);
   (11357, [11309]); (11358, [11310]); (11359, [11311]); (11361, [11360]);
   (11365, [570]); (11366, [574]); (11368, [11367]); (11370, [11369]);
   (11372, [11371]); (11379, [11378]); (11382, [11381]); (11393, [11392]);
   (11395, [11394]); (11397, [11396]); (11399, [11398]); (11401, [11400]);
   (11403, [11402]); (11405, [11404]); (11407, [11406]); (11409, [11408]);
   (11411, [11410]); (11413, [11412]); (11415, [11414]); (11417, [11416]);
   (11419, [11418]); (11421, [11420]); (11423, [11422]); (11425, [11424]);
   (11427, [11426]); (11429, [11428]); (11431, [11430]); (11433, [11432]);
   (11435, [11434]); (11437, [11436]); (11439, [11438]); (11441, [11440]);
   (11443, [11442]); (11445, [11444]); (11447, [11446]); (11449, [11448]);
   (11451, [11450]); (11453, [11452]); (11455, [11454]); (11457, [11456]);
   (11459, [11458]); (11461, [11460]); (11463, [11462]); (11465, [11464]);
   (11467, [11466]); (11469, [11468]); (11471, [11470]); (11473, [11472]);
   (11475, [11474]); (11477, [11476]); (11479, [11478]); (11481, [11480]);
   (11483, [11482]); (11485, [11484]); (11487, [11486]); (11489, [11488]);
   (11491, [11490]); (11500, [11499]); (11502, [11501]); (11507, [11506]);
   (11520, [4256]); (11521, [4257]); (11522, [4258]); (11523, [4259]);
   (11524, [4260]); (11525, [4261]); (11526, [4262]); (11527, [4263]);
   (11528, [4264]); (11529, [4265]); (11530, [4266]); (11531, [4267]);
   (11532, [4268]); (11533, [4269]); (11534, [4270]); (11535, [4271]);
   (11536, [4272]); (11537, [4273]); (11538, [4274]); (11539, [4275]);
   (11540, [4276]); (11541, [4277]); (11542, [4278]); (11543, [4279]);
   (11544, [4280]); (11545, [4281]); (11546, [4282]); (11547, [4283]);
   (11548, [4284]); (11549, [4285]); (11550, [4286]); (11551, [4287]);
   (11552, [4288]); (11553, [4289]); (11554, [4290]); (11555, [4291]);
   (11556, [4292]); (11557, [4293]); (11559, [4295]); (11565, [4301]);
   (42561, [42560]); (42563, [42562]); (42565, [42564]); (42567, [42566]);
   (42569, [42568]); (42571, [42570]); (42573, [42572]); (42575, [42574]);
   (42577, [42576]); (42579, [42578]); (42581, [42580]); (42583, [42582]);
   (42585, [42584]); (42587, [42586]); (42589, [42588]); (42591, [42590]);
   (42593, [42592]); (42595, [42594]); (42597, [42596]); (42599, [42598]);
   (42601, [42600]); (42603, [42602]); (42605, [42604]); (42625, [42624]);
   (42627, [42626]); (42629, [42628]); (42631, [42630]); (42633, [42632]);
   (42635, [42634]); (42637, [42636]); (42639, [42638]); (42641, [42640]);
   (42643, [42642]); (42645, [42644]); (42647, [42646]); (42649, [42648]);
   (42651, [42650]); (42787, [42786]); (42789, [42788]); (42791, [42790]);
   (42793, [42792]); (42795, [42794]); (42797, [42796]); (42799, [42798]);
   (42803, [42802]); (42805, [42804]); (42807, [42806]); (42809, [42808]);
   (42811, [42810]); (42813, [42812]); (42815, [42814]); (42817, [42816]);
   (42819, [42818]); (42821, [42820]); (42823, [42822]); (42825, [42824]);
   (42827, [42826]); (42829, [42828]); (42831, [42830]); (42833, [42832]);
   (42835, [42834]); (42837, [42836]); (42839, [42838]); (42841, [42840]);
   (42843, [42842]); (42845, [42844]); (42847, [42846]); (42849, [42848]);
   (42851, [42850]); (42853, [42852]); (42855, [42854]); (42857, [42856]);
   (42859, [42858]); (42861, [42860]); (42863, [42862]); (42874, [42873]);
   (42876, [42875]); (42879, [42878]); (42881, [42880]); (42883, [42882]);
   (42885, [42884]); (42887, [42886]); (42892, [42891]); (42897, [42896]);
   (42899, [42898]); (42900, [42948]); (42903, [42902]); (42905, [42904]);
   (42907, [42906]); (42909, [42908]); (42911, [42910]); (42913, [42912]);
   (42915, [42914]); (42917, [42916]); (42919, [42918]); (42921, [42920]);
   (42933, [42932]); (42935, [42934]); (42937, [42936]); (42939, [42938]);
   (42941, [42940]); (42943, [42942]); (42945, [42944]); (42947, [42946]);
   (42952, [42951]); (42954, [42953]); (42961, [42960]); (42967, [42966]);
   (42969, [42968]); (42998, [42997]); (43859, [42931]); (43888, [5024]);
   (43889, [5025]); (43890, [5026]); (43891, [5027]); (43892, [5028]);
   (43893, [5029]); (43894, [5030]); (43895, [5031]); (43896, [5032]);
   (43897, [5033]); (43898, [5034]); (43899, [5035]); (43900, [5036]);
   (43901, [5037]); (43902, [5038]); (43903, [5039]); (43904, [5040]);
   (43905, [5041]); (43906, [5042]); (43907, [5043]); (43908, [5044]);
   (43909, [5045]); (43910, [5046]); (43911, [5047]); (43912, [5048]);
   (43913, [5049]); (43914, [5050]); (43915, [5051]); (43916, [5052]);
   (43917, [5053]); (43918, [5054]); (43919, [5055]); (43920, [5056]);
   (43921, [5057]); (43922, [5058]); (43923, [5059]); (43924, [5060]);
   (43925, [5061]); (43926, [5062]); (43927, [5063]); (43928, [5064]);
   (43929, [5065]); (43930, [5066]); (43931, [5067]); (43932, [5068]);
   (43933, [5069]); (43934, [5070]); (43935, [5071]); (43936, [5072]);
   (43937, [5073]); (43938, [5074]); (43939, [5075]); (43940, [5076]);
   (43941, [5077]); (43942, [5078]); (43943, [5079]); (43944, [5080]);
   (43945, [5081]); (43946, [5082]); (43947, [5083]); (43948, [5084]);
   (43949, [5085]); (43950, [5086]); (43951, [5087]); (43952, [5088]);
   (43953, [5089]); (43954, [5090]); (43955, [5091]); (43956, [5092]);
   (43957, [5093]); (43958, [5094]); (43959, [5095]); (43960, [5096]);
   (43961, [5097]); (43962, [5098]); (43963, [5099]); (43964, [5100]);
   (43965, [5101]); (43966, [5102]); (43967, [5103]); (64256, [70; 70]);
   (64257, [70; 73]); (64258, [70; 76]); (64259, [70; 70; 73]);
   (64260, [70; 70; 76]); (64261, [83; 84]); (64262, [83; 84]);
   (64275, [1348; 1350]); (64276, [1348; 1333]); (64277, [1348; 1339]);
   (64278, [1358; 1350]); (64279, [1348; 1341]); (65345, [65313]);
   (65346, [65314]); (65347, [65315]); (65348, [65316]); (65349, [65317]);
   (65350, [65318]); (65351, [65319]); (65352, [65320]); (65353, [65321]);
   (65354, [65322]); (65355, [65323]); (65356, [65324]); (65357, [65325]);
   (65358, [65326]); (65359, [65327]); (65360, [65328]); (65361, [65329]);
   (65362, [65330]); (65363, [65331]); (65364, [65332]); (65365, [65333]);
   (65366, [65334]); (65367, [65335]); (65368, [65336]); (65369, [65337]);
   (65370, [65338]); (66600, [66560]); (66601, [66561]); (66602, [66562]);
   (66603, [66563]); (66604, [66564]); (66605, [66565]); (66606, [66566]);
   (66607, [66567]); (66608, [66568]); (66609, [66569]); (66610, [66570]);
   (66611, [66571]); (66612, [66572]); (66613, [66573]); (66614, [66574]);
   (66615, [66575]); (66616, [66576]); (66617, [66577]); (66618, [66578]);
   (66619, [66579]); (66620, [66580]); (66621, [66581]); (66622, [66582]);
   (66623, [66583]); (66624, [66584]); (66625, [66585]); (66626, [66586]);
   (66627, [66587]); (66628, [66588]); (66629, [66589]); (66630, [66590]);
   (66631, [66591]); (66632, [66592]); (66633, [66593]); (66634, [66594]);
   (66635, [66595]); (66636, [66596]); (66637, [66597]); (66638, [66598]);
   (66639, [66599]); (66776, [66736]); (66777, [66737]); (66778, [66738]);
   (66779, [66739]); (66780, [66740]); (66781, [66741]); (66782, [66742]);
   (66783, [66743]); (66784, [66744]); (66785, [66745]); (66786, [66746]);
   (66787, [66747]); (66788, [66748]); (66789, [66749]); (66790, [66750]);
   (66791, [66751]); (66792, [66752]); (66793, [66753]); (66794, [66754]);
   (66795, [66755]); (66796, [66756]); (66797, [66757]); (66798, [66758]);
   (66799, [66759]); (66800, [66760]); (66801, [66761]); (66802, [66762]);
   (66803, [66763]); (66804, [66764]); (66805, [66765]); (66806, [66766]);
   (66807, [66767]); (66808, [66768]); (66809, [66769]); (66810, [66770]);
   (66811, [66771]); (66967, [66928]); (66968, [66929]); (66969, [66930]);
   (66970, [66931]); (66971, [66932]); (66972, [66933]); (66973, [66934]);
   (66974, [66935]); (66975, [66936]); (66976, [66937]); (66977, [66938]);
   (66979, [66940]); (66980, [66941]); (66981, [66942]); (66982, [66943]);
   (66983, [66944]); (66984, [66945]); (66985, [66946]); (66986, [66947]);
   (66987, [66948]); (66988, [66949]); (66989, [66950]); (66990, [66951]);
   (66991, [66952]); (66992, [66953]); (66993, [66954]); (66995, [66956]);
   (66996, [66957]); (66997, [66958]); (66998, [66959]); (66999, [66960]);
   (67000, [66961]); (67001, [66962]); (67003, [66964]); (67004, [66965]);
   (68800, [68736]); (68801, [68737]); (68802, [68738]); (68803, [68739]);
   (68804, [68740]); (68805, [68741]); (68806, [68742]); (68807, [68743]);
   (68808, [68744]); (68809, [68745]); (68810, [68746]); (68811, [68747]);
   (68812, [68748]); (68813, [68749]); (68814, [68750]); (68815, [68751]);
   (68816, [68752]); (68817, [68753]); (68818, [68754]); (68819, [68755]);
   (68820, [68756]); (68821, [68757]); (68822, [68758]); (68823, [68759]);
   (68824, [68760]); (68825, [68761]); (68826, [68762]); (68827, [68763]);
   (68828, [68764]); (68829, [68765]); (68830, [68766]); (68831, [68767]);
   (68832, [68768]); (68833, [68769]); (68834, [68770]); (68835, [68771]);
   (68836, [68772]); (68837, [68773]); (68838, [68774]); (68839, [68775]);
   (68840, [68776]); (68841, [68777]); (68842, [68778]); (68843, [68779]);
   (68844, [68780]); (68845, [68781]); (68846, [68782]); (68847, [68783]);
   (68848, [68784]); (68849, [68785]); (68850, [68786]); (71872, [71840]);
   (71873, [71841]); (71874, [71842]); (71875, [71843]); (71876, [71844]);
   (71877, [71845]); (71878, [71846]); (71879, [71847]); (71880, [71848]);
   (71881, [71849]); (71882, [71850]); (71883, [71851]); (71884, [71852]);
   (71885, [71853]); (71886, [71854]); (71887, [71855]); (71888, [71856]);
   (71889, [71857]); (71890, [71858]); (71891, [71859]); (71892, [71860]);
   (71893, [71861]); (71894, [71862]); (71895, [71863]); (71896, [71864]);
   (71897, [71865]); (71898, [71866]); (71899, [71867]); (71900, [71868]);
   (71901, [71869]); (71902, [71870]); (71903, [71871]); (93792, [93760]);
   (93793, [93761]); (93794, [93762]); (93795, [93763]); (93796, [93764]);
   (93797, [93765]); (93798, [93766]); (93799, [93767]); (93800, [93768]);
   (93801, [93769]); (93802, [93770]); (93803, [93771]); (93804, [93772]);
   (93805, [93773]); (93806, [93774]); (93807, [93775]); (93808, [93776]);
   (93809, [93777]); (93810, [93778]); (93811, [93779]); (93812, [93780]);
   (93813, [93781]); (93814, [93782]); (93815, [93783]); (93816, [93784]);
   (93817, [93785]); (93818, [93786]); (93819, [93787]); (93820, [93788]);
   (93821, [93789]); (93822, [93790]); (93823, [93791]); (125218, [125184]);
   (125219, [125185]); (125220, [125186]); (125221, [125187]);
   (125222, [125188]); (125223, [125189]); (125224, [125190]);
   (125225, [125191]); (125226, [125192]); (125227, [125193]);
   (125228, [125194]); (125229, [125195]); (125230, [125196]);
   (125231, [125197]); (125232, [125198]); (125233, [125199]);
   (125234, [125200]); (125235, [125201]); (125236, [125202]);
   (125237, [125203]); (125238, [125204]); (125239, [125205]);
   (125240, [125206]); (125241, [125207]); (125242, [125208]);
   (125243, [125209]); (125244, [125210]); (125245, [125211]);
   (125246, [125212]); (125247, [125213]); (125248, [125214]);
   (125249, [125215]); (125250, [125216]); (125251, [125217])]%N.

Fixpoint upper_of (table : list (N * list N)) (point : N) : list N :=
  match table with
  | [] => [point]
  | (p, ps) :: table => if (p =? point)%N then ps else upper_of table point
  end.

(** [s.upper()] *)
Definition upper (s : string) : string :=
  of_points (points s ≫= upper_of upper_table).

End PyStr.

(** ** Python values, dictionaries and exceptions *)

(** The scalar values a decoded JSON document can hold (floats apart). *)
Inductive PyVal : Type :=
| PNone
| PBool (b : bool)
| PInt (z : Z)
| PStr (s : string).

(** Decoded JSON: scalars, arrays and objects. *)
#[warnings="-register-all"]
Inductive Json : Type :=
| JVal (v : PyVal)
| JList (l : list Json)
| JDict (d : list (string * Json)).

Inductive PyErr : Type :=
| AttributeError
| TypeError
| KeyError
| IndexError
| ValueError
| OSError
| CsvError.

Inductive Exc (A : Type) : Type :=
| Ok (a : A)
| Raise (e : PyErr).
Arguments Ok {A} a.
Arguments Raise {A} e.

#[global] Instance exc_ret : MRet Exc := fun A a => Ok a.
#[global] Instance exc_bind : MBind Exc := fun A B k m =>
  match m with
  | Ok a => k a
  | Raise e => Raise e
  end.

(** A dictionary: its items in insertion order. *)
Definition dict (K V : Type) : Type := list (K * V).

Section Dict.
Context {K V : Type} `{EqDecision K}.

(** [d.get(k)] as an option *)
Fixpoint dict_get (k : K) (d : dict K V) : option V :=
  match d with
  | [] => None
  | (k', v) :: rest => if bool_decide (k' = k) then Some v else dict_get k rest
  end.

(** [k in d] *)
Definition dict_has (k : K) (d : dict K V) : bool :=
  match dict_get k d with Some _ => true | None => false end.

(** [d.get(k, default)] *)
Definition dict_get_default (k : K) (default : V) (d : dict K V) : V :=
  match dict_get k d with Some v => v | None => default end.

(** [d[k] = v]: an existing key keeps its position. *)
Fixpoint dict_set (k : K) (v : V) (d : dict K V) : dict K V :=
  match d with
  | [] => [(k, v)]
  | (k', v') :: rest =>
      if bool_decide (k' = k) then (k, v) :: rest else (k', v') :: dict_set k v rest
  end.

(** [dict(items)] *)
Definition dict_of_items (items : list (K * V)) : dict K V :=
  fold_left (fun d kv => dict_set kv.1 kv.2 d) items [].

End Dict.

(** [str(v)] *)
Definition py_str (v : PyVal) : string :=
  match v with
  | PNone => "None"
  | PBool true => "True"
  | PBool false => "False"
  | PInt z => NilZero.string_of_int (Z.to_int z)
  | PStr s => s
  end.

(** [v == lit] for a string literal [lit]. *)
Definition py_eq_str (v : PyVal) (lit : string) : bool :=
  match v with
  | PStr s => bool_decide (s = lit)
  | _ => false
  end.

(** [v.strip()]: only [str] has the method. *)
Definition py_strip (v : PyVal) : Exc string :=
  match v with
  | PStr s => Ok (PyStr.strip s)
  | _ => Raise AttributeError
  end.

(** ** data_processor.py *)

(** The dataclass [UserRecord].  Its annotations are [str] for [email] and
    [Optional[str]] for the rest; the dataclass does not enforce them and
    the CSV loader stores [None] in any field, [email] included, so every
    field is an [option string] here. *)
Record UserRecord : Type := mkUserRecord {
  email : option string;
  name : option string;
  role : option string;
  last_login : option string;
  status : option string;
  extracted_at : option string;
  source_saas : option string
}.

Module DataProcessor.

(** [clean_text] *)
Definition clean_text (text : PyVal) : option string :=
  match text with
  | PNone => None
  | _ =>
    if py_eq_str text "null" || py_eq_str text "" then None
    else
      match text with
      | PStr s =>
          let cleaned :=
            PyStr.replace "009"%char " "%char
              (PyStr.replace "010"%char " "%char (PyStr.strip s)) in
          let cleaned := PyStr.join " " (PyStr.split cleaned) in
          if bool_decide (cleaned = "") then None else Some cleaned
      | _ =>
          let s := PyStr.strip (py_str text) in
          if bool_decide (s = "") then None else Some s
      end
  end.

(** The body of the loop of [process_raw_user_data] inside its [try]:
    [Ok None] is the [continue] on an invalid email. *)
Definition process_user (current_time saas_name : string)
    (user_data : dict string PyVal) : Exc (option UserRecord) :=
  email ← py_strip (dict_get_default "email" (PStr "") user_data);
  if bool_decide (email = "") || negb (PyStr.contains "@" email) then Ok None
  else
    Ok (Some {|
      email := Some email;
      name := clean_text (dict_get_default "name" PNone user_data);
      role := clean_text (dict_get_default "role" PNone user_data);
      last_login := clean_text (dict_get_default "last_login" PNone user_data);
      status := clean_text (dict_get_default "status" (PStr "Unknown") user_data);
      extracted_at := Some current_time;
      source_saas := Some saas_name
    |}).

(** [process_raw_user_data]: an entry that raises is logged and skipped. *)
Fixpoint process_raw_user_data (current_time : string)
    (raw_users : list (dict string PyVal)) (saas_name : string) : list UserRecord :=
  match raw_users with
  | [] => []
  | user_data :: rest =>
      match process_user current_time saas_name user_data with
      | Ok (Some user_record) =>
          user_record :: process_raw_user_data current_time rest saas_name
      | Ok None => process_raw_user_data current_time rest saas_name
      | Raise _ => process_raw_user_data current_time rest saas_name
      end
  end.

(** *** Persistence

    A file holds either a JSON document or rows of cells: [json.dump]
    stores the document it is given and [json.load] returns it, the CSV
    writer stores the rows it is given, and a text that is no JSON document
    is rows of cells to the CSV reader.  The reader sees the cells through
    the newline translation of the text file it reads, and refuses a cell
    that is too long. *)
Inductive File : Type :=
| JsonFile (doc : Json)
| CsvFile (rows : list (list string)).

(** What a write comes to.  It is done; or it is refused before the file
    is touched (the name is refused, the directory is gone); or it fails
    after the file was opened, and so emptied: when a text cannot be
    encoded (a lone surrogate) or the device fails, which leaves whatever
    part of the text was written. *)
Inductive WriteOutcome : Type :=
| Written
| Refused
| Torn (remains : File).

(** [os.path.join(a, b)] on POSIX. *)
Definition path_join (a b : string) : string :=
  if PyStr.startswith b "/" then b
  else if bool_decide (a = "") || PyStr.endswith a "/" then a +:+ b
  else a +:+ "/" +:+ b.

Definition fieldnames : list string :=
  ["email"; "name"; "role"; "last_login"; "status"; "extracted_at";
   "source_saas"].

(** [asdict(user)] *)
Definition asdict (user : UserRecord) : dict string (option string) :=
  [("email", email user); ("name", name user); ("role", role user);
   ("last_login", last_login user); ("status", status user);
   ("extracted_at", extracted_at user); ("source_saas", source_saas user)].

(** The constructor [UserRecord] applied to keyword arguments: an
    unexpected keyword or a missing [email] is a [TypeError]; the other
    fields default to [None]. *)
Definition UserRecord_of_kwargs (kwargs : dict string (option string))
    : Exc UserRecord :=
  if forallb (fun kv => bool_decide (kv.1 ∈ fieldnames)) kwargs
     && dict_has "email" kwargs
  then Ok {|
    email := dict_get_default "email" None kwargs;
    name := dict_get_default "name" None kwargs;
    role := dict_get_default "role" None kwargs;
    last_login := dict_get_default "last_login" None kwargs;
    status := dict_get_default "status" None kwargs;
    extracted_at := dict_get_default "extracted_at" None kwargs;
    source_saas := dict_get_default "source_saas" None kwargs
  |}
  else Raise TypeError.

Definition json_of_field (v : option string) : Json :=
  match v with
  | None => JVal PNone
  | Some s => JVal (PStr s)
  end.

(** A field read back from a JSON document.  The fields of a record are
    texts or [None] here, as [UserRecord] annotates them.  The dataclass
    itself checks no type: for a document with a number, a boolean or a
    container in a field, the program builds a record that holds it, while
    the model, which has no such record, lets the loader fail.  What is
    proved of the loader is stated for documents [save_to_json] wrote,
    which hold texts and [null] only, or holds on both readings (the load
    gives a record for every entry or none at all). *)
Definition field_of_json (j : Json) : Exc (option string) :=
  match j with
  | JVal PNone => Ok None
  | JVal (PStr s) => Ok (Some s)
  | _ => Raise TypeError
  end.

(** [save_to_json]; [stamp] is [datetime.now().strftime("%Y%m%d_%H%M%S")],
    [now] is [datetime.now().isoformat()], and [outcome] is what the write
    comes to: a failure is logged and answered by the empty string. *)
Definition save_to_json (output_dir stamp now : string)
    (users : list UserRecord) (filename : option string)
    (outcome : WriteOutcome) (fs : gmap string File)
    : string * gmap string File :=
  let filename :=
    match filename with
    | None => "users_data_" +:+ stamp +:+ ".json"
    | Some f => f
    end in
  let filepath := path_join output_dir filename in
  let users_dict := asdict <$> users in
  let doc :=
    JDict [
      ("metadata", JDict [
         ("total_users", JVal (PInt (Z.of_nat (length users))));
         ("extracted_at", JVal (PStr now));
         ("format_version", JVal (PStr "1.0"))]);
      ("users",
         JList ((fun d => JDict (prod_map id json_of_field <$> d)) <$> users_dict))
    ] in
  match outcome with
  | Written => (filepath, <[filepath := JsonFile doc]> fs)
  | Refused => ("", fs)
  | Torn remains => ("", <[filepath := remains]> fs)
  end.

(** The cell the CSV writer emits for a field: [None] is written empty. *)
Definition csv_cell (v : option string) : string :=
  match v with
  | None => ""
  | Some s => s
  end.

(** [save_to_csv]: nothing is written for the empty list. *)
Definition save_to_csv (output_dir stamp : string)
    (users : list UserRecord) (filename : option string)
    (outcome : WriteOutcome) (fs : gmap string File)
    : string * gmap string File :=
  let filename :=
    match filename with
    | None => "users_data_" +:+ stamp +:+ ".csv"
    | Some f => f
    end in
  let filepath := path_join output_dir filename in
  match users with
  | [] => ("", fs)
  | _ =>
      let rows :=
        (fun user =>
           (fun k => csv_cell (dict_get_default k None (asdict user)))
             <$> fieldnames) <$> users in
      match outcome with
      | Written => (filepath, <[filepath := CsvFile (fieldnames :: rows)]> fs)
      | Refused => ("", fs)
      | Torn remains => ("", <[filepath := remains]> fs)
      end
  end.

(** [for x in v] on a decoded JSON value. *)
Definition py_iter (v : Json) : Exc (list Json) :=
  match v with
  | JList l => Ok l
  | JDict d => Ok ((fun kv => JVal (PStr kv.1)) <$> d)
  | JVal (PStr s) =>
      Ok ((fun c => JVal (PStr c)) <$> PyStr.chars s)
  | JVal _ => Raise TypeError
  end.

(** [UserRecord] applied to the keywords [user_dict], a decoded JSON value. *)
Definition UserRecord_of_json (user_dict : Json) : Exc UserRecord :=
  match user_dict with
  | JDict d =>
      kwargs ← mapM (fun kv => v ← field_of_json kv.2; mret (kv.1, v)) d;
      UserRecord_of_kwargs kwargs
  | _ => Raise TypeError
  end.

(** A value of a row dictionary of [csv.DictReader]: a cell, the [restval]
    [None], or the list of surplus cells stored under the [restkey]. *)
Inductive CsvVal : Type :=
| CCell (s : string)
| CNone
| CRest (cells : list string).

(** One row of [csv.DictReader]: surplus cells go under the key [None],
    missing ones are [None]. *)
Definition dict_reader_row (fields row : list string)
    : dict (option string) CsvVal :=
  let d := dict_of_items (zip (Some <$> fields) (CCell <$> row)) in
  let lf := length fields in
  let lr := length row in
  if (lf <? lr)%nat then dict_set None (CRest (drop lf row)) d
  else if (lr <? lf)%nat then
    fold_left (fun d k => dict_set (Some k) CNone d) (drop lr fields) d
  else d.

(** What the text file hands to the CSV reader: opened without
    [newline=''], it turns a carriage return, with the line feed after it
    if there is one, into a line feed. *)
Fixpoint universal_newlines (s : string) : string :=
  match s with
  | EmptyString => EmptyString
  | String c t =>
      if bool_decide (c = "013"%char) then
        match t with
        | String d t' =>
            if bool_decide (d = "010"%char)
            then String "010"%char (universal_newlines t')
            else String "010"%char (universal_newlines t)
        | EmptyString => String "010"%char EmptyString
        end
      else String c (universal_newlines t)
  end.

(** [csv.field_size_limit()] *)
Definition csv_field_limit : N := 131072.

(** A cell the CSV reader accepts. *)
Definition within_field_limit (cell : string) : bool :=
  (N.of_nat (PyStr.len cell) <=? csv_field_limit)%N.

(** The rows [csv.reader] yields for a file: a cell of more characters
    than the limit raises [csv.Error]. *)
Definition csv_reader (rows : list (list string)) : Exc (list (list string)) :=
  let rows := (fun row : list string => universal_newlines <$> row) <$> rows in
  if forallb (forallb within_field_limit) rows then Ok rows
  else Raise CsvError.

(** The rows [csv.DictReader] yields: the first row of the file is the
    header, blank rows are skipped. *)
Definition dict_reader (rows : list (list string))
    : list (dict (option string) CsvVal) :=
  match rows with
  | [] => []
  | fields :: rest =>
      dict_reader_row fields <$> filter (fun row => row ≠ []) rest
  end.

(** The loop that turns the markers back into [None]. *)
Definition none_strings (row : dict (option string) CsvVal)
    : dict (option string) CsvVal :=
  (fun kv =>
     match kv.2 with
     | CCell s =>
         if bool_decide (s = "") || bool_decide (s = "None")
         then (kv.1, CNone) else kv
     | _ => kv
     end) <$> row.

(** The keyword argument a row value becomes: keywords must be strings,
    and a field holds a text or [None]. *)
Definition keyword_of (kv : option string * CsvVal)
    : Exc (string * option string) :=
  match kv.1, kv.2 with
  | Some k, CCell s => Ok (k, Some s)
  | Some k, CNone => Ok (k, None)
  | _, _ => Raise TypeError
  end.

(** [UserRecord] applied to the keywords [row], a CSV row. *)
Definition UserRecord_of_row (row : dict (option string) CsvVal)
    : Exc UserRecord :=
  kwargs ← mapM keyword_of row;
  UserRecord_of_kwargs kwargs.

(** The JSON branch of [load_existing_data]: a missing file, a file that
    is not JSON, a document that is not an object, or users that are not
    keyword dictionaries raise. *)
Definition load_json (fs : gmap string File) (filepath : string)
    : Exc (list UserRecord) :=
  match fs !! filepath with
  | None => Raise OSError
  | Some (CsvFile _) => Raise ValueError
  | Some (JsonFile data) =>
      match data with
      | JDict d =>
          users_data ← py_iter (dict_get_default "users" (JList []) d);
          mapM UserRecord_of_json users_data
      | _ => Raise AttributeError
      end
  end.

(** The CSV branch of [load_existing_data].  Read as CSV, the lines of a
    JSON document are rows under a header that is no field name, which the
    constructor rejects. *)
Definition load_csv (fs : gmap string File) (filepath : string)
    : Exc (list UserRecord) :=
  match fs !! filepath with
  | None => Raise OSError
  | Some (JsonFile _) => Raise TypeError
  | Some (CsvFile rows) =>
      rows ← csv_reader rows;
      mapM (fun row => UserRecord_of_row (none_strings row)) (dict_reader rows)
  end.

(** [load_existing_data] *)
Definition load_existing_data (fs : gmap string File) (filepath : string)
    : list UserRecord :=
  let result :=
    if PyStr.endswith filepath ".json" then load_json fs filepath
    else if PyStr.endswith filepath ".csv" then load_csv fs filepath
    else Ok [] in
  match result with
  | Ok users => users
  | Raise _ => []
  end.

(** *** Comparison *)

(** The dictionary [compare_datasets] returns. *)
Record Comparison : Type := mkComparison {
  dataset1_count : nat;
  dataset2_count : nat;
  added_users : list (option string);
  removed_users : list (option string);
  common_users_count : nat;
  comparison_date : string
}.

(** [set(user.email for user in dataset)] *)
Definition email_set (dataset : list UserRecord) : gset (option string) :=
  list_to_set (email <$> dataset).

(** [list(s)] of a set: its elements, once each, in an order that depends
    on the hashes of the elements and on how the set was built. *)
Record SetOrder : Type := mkSetOrder {
  listing :> gset (option string) -> list (option string);
  listing_elements : forall s, listing s ≡ₚ elements s
}.

(** [compare_datasets]; [added_order] and [removed_order] are the orders
    in which the two sets come out as lists. *)
Definition compare_datasets (added_order removed_order : SetOrder)
    (now : string) (dataset1 dataset2 : list UserRecord) : Comparison :=
  let emails1 := email_set dataset1 in
  let emails2 := email_set dataset2 in
  let added := emails2 ∖ emails1 in
  let removed := emails1 ∖ emails2 in
  let common := emails1 ∩ emails2 in
  {| dataset1_count := length dataset1;
     dataset2_count := length dataset2;
     added_users := added_order added;
     removed_users := removed_order removed;
     common_users_count := size common;
     comparison_date := now |}.

(** *** Report *)

(** The dictionaries [generate_report] returns. *)
Record Summary : Type := mkSummary {
  total_users : nat;
  unique_emails : nat;
  report_generated_at : string
}.

Record Breakdown : Type := mkBreakdown {
  by_saas : dict string nat;
  by_role : dict string nat;
  by_status : dict string nat
}.

Record Report : Type := mkReport {
  summary : Summary;
  breakdown : Breakdown;
  sample_users : list (dict string (option string))
}.

Inductive ReportResult : Type :=
| ReportError (error : string)
| ReportOk (report : Report).

(** [value or "Unknown"]: [None] and the empty string are falsy. *)
Definition or_unknown (value : option string) : string :=
  match value with
  | Some s => if bool_decide (s = EmptyString) then "Unknown" else s
  | None => "Unknown"
  end.

(** [counts[key] = counts.get(key, 0) + 1] *)
Definition count_key (key : string) (counts : dict string nat)
    : dict string nat :=
  dict_set key (dict_get_default key 0 counts + 1) counts.

(** [generate_report]: with records whose fields are texts or [None] the
    body raises nothing, so the [except] branch is not reached. *)
Definition generate_report (now : string) (users : list UserRecord)
    : ReportResult :=
  match users with
  | [] => ReportError "No user data available"
  | _ =>
      let counts :=
        fold_left
          (fun (counts : dict string nat * dict string nat * dict string nat)
               user =>
             let '(saas_counts, role_counts, status_counts) := counts in
             (count_key (or_unknown (source_saas user)) saas_counts,
              count_key (or_unknown (role user)) role_counts,
              count_key (or_unknown (status user)) status_counts))
          users ([], [], []) in
      ReportOk {|
        summary := {|
          total_users := length users;
          unique_emails := size (email_set users);
          report_generated_at := now |};
        breakdown := {|
          by_saas := counts.1.1;
          by_role := counts.1.2;
          by_status := counts.2 |};
        sample_users := asdict <$> take 5 users |}
  end.

(** *** Raw entries as the chat client returns them

    [process_raw_user_data] is written for a list of dictionaries of
    scalars, and is given whatever the chat client answered.  The functions
    below follow the same code on any decoded JSON value.  [str(v)] of a
    list or a dictionary is Python's [repr]; it is left abstract. *)
Section RawJson.
Variable repr : Json -> string.

(** [clean_text] on a decoded JSON value. *)
Definition clean_json (text : Json) : option string :=
  match text with
  | JVal v => clean_text v
  | _ =>
      let s := PyStr.strip (repr text) in
      if bool_decide (s = "") then None else Some s
  end.

(** [v.strip()] on a decoded JSON value. *)
Definition json_strip (v : Json) : Exc string :=
  match v with
  | JVal v => py_strip v
  | _ => Raise AttributeError
  end.

(** The body of the loop of [process_raw_user_data] on any entry: only a
    dictionary has [get]. *)
Definition process_json_user (current_time saas_name : string)
    (user_data : Json) : Exc (option UserRecord) :=
  match user_data with
  | JDict d =>
      email ← json_strip (dict_get_default "email" (JVal (PStr "")) d);
      if bool_decide (email = "") || negb (PyStr.contains "@" email)
      then Ok None
      else
        Ok (Some {|
          email := Some email;
          name := clean_json (dict_get_default "name" (JVal PNone) d);
          role := clean_json (dict_get_default "role" (JVal PNone) d);
          last_login :=
            clean_json (dict_get_default "last_login" (JVal PNone) d);
          status :=
            clean_json (dict_get_default "status" (JVal (PStr "Unknown")) d);
          extracted_at := Some current_time;
          source_saas := Some saas_name
        |})
  | _ => Raise AttributeError
  end.

(** [process_raw_user_data] on any decoded JSON value: iterating it may
    raise; an entry that raises is logged and skipped. *)
Definition process_raw_json (current_time : string) (raw_users : Json)
    (saas_name : string) : Exc (list UserRecord) :=
  entries ← py_iter raw_users;
  mret (omap (M:=list) (fun user_data =>
                match process_json_user current_time saas_name user_data with
                | Ok (Some user_record) => Some user_record
                | _ => None
                end) (entries : list Json)).

End RawJson.

(** A dictionary of scalars as a decoded JSON object. *)
Definition json_of_raw_user (user_data : dict string PyVal) : Json :=
  JDict ((fun kv => (kv.1, JVal kv.2)) <$> user_data).

End DataProcessor.

(** ** config.py *)

Module Config.

Record SaaSConfig : Type := mkSaaSConfig {
  name : string;
  login_url : string;
  username_selector : string;
  password_selector : string;
  login_button_selector : string;
  users_page_url : string;
  user_table_selector : string;
  add_user_button : string;
  user_form_selectors : dict string string
}.

Definition dropbox : SaaSConfig := {|
  name := "Dropbox Business";
  login_url := "https://www.dropbox.com/login";
  username_selector := "input[name='login_email']";
  password_selector := "input[name='login_password']";
  login_button_selector := "button[type='submit']";
  users_page_url := "https://www.dropbox.com/manage/admin/members";
  user_table_selector := "table.member-list";
  add_user_button := "button[data-testid='add-member']";
  user_form_selectors := [
    ("email", "input[name='memberEmail']");
    ("name", "input[name='memberName']");
    ("role", "select[name='memberRole']")]
|}.

Definition notion : SaaSConfig := {|
  name := "Notion Workspace";
  login_url := "https://www.notion.so/login";
  username_selector := "input[type='email']";
  password_selector := "input[type='password']";
  login_button_selector := "div[role='button']:has-text('Continue with password')";
  users_page_url := "https://www.notion.so/my-integrations";
  user_table_selector := "div[data-testid='members-table']";
  add_user_button := "button:has-text('Invite')";
  user_form_selectors := [
    ("email", "input[placeholder='Enter email address']");
    ("role", "select[data-testid='permission-select']")]
|}.

Definition SAAS_CONFIGS : dict string SaaSConfig :=
  [("dropbox", dropbox); ("notion", notion)].

Definition OPENAI_model : string := "gpt-4".

(** [SETTINGS] and [OPENAI_CONFIG] *)
Definition SETTINGS_browser_headless : bool := true.
Definition SETTINGS_page_timeout : N := 30000.
Definition SETTINGS_data_output_dir : string := "./scraped_data/".
Definition SETTINGS_logs_dir : string := "./logs/".
Definition OPENAI_max_tokens : N := 2000.

End Config.

(** ** Calls to the collaborators *)

(** A chat completion request: the model, the system message, the user
    prompt, the name of the function the model is forced to call, and the
    token limit (the sampling temperature is left out). *)
Record ChatRequest : Type := mkChatRequest {
  model : string;
  system_message : string;
  prompt : string;
  forced_function : option string;
  max_tokens : option nat
}.

(** [message.function_call]: [arguments] is the outcome of
    [json.loads(function_call.arguments)]. *)
Record FunctionCall : Type := mkFunctionCall {
  fc_name : string;
  arguments : Exc Json
}.

(** [response.choices[i].message] *)
Record Message : Type := mkMessage {
  content : option string;
  function_call : option FunctionCall
}.

(** A chat completion: the messages of [response.choices]. *)
Definition ChatResponse : Type := list Message.

(** The methods of [BrowserAutomationHandler] the workflows use, the
    [asyncio.sleep] of the event loop, and the chat completion client.
    The browser methods catch their own exceptions and answer [False] or
    the empty string; the chat client may raise. *)
Inductive Call : Type :=
| LoginToSaas (config : Config.SaaSConfig) (username password : string)
| NavigateToUsersPage (config : Config.SaaSConfig)
| ExtractPageContent
| ClickElement (selector : Json)
| FillForm (form_data : dict string PyVal)
| Sleep (seconds : nat)
| ChatCompletion (request : ChatRequest).

Definition Resp (c : Call) : Type :=
  match c with
  | LoginToSaas _ _ _ => bool
  | NavigateToUsersPage _ => bool
  | ExtractPageContent => string
  | ClickElement _ => bool
  | FillForm _ => bool
  | Sleep _ => unit
  | ChatCompletion _ => Exc ChatResponse
  end.

(** A workflow: a tree of calls, ending in a value or an exception. *)
Inductive Prog (A : Type) : Type :=
| Ret (a : A)
| Throw (e : PyErr)
| Do (c : Call) (k : Resp c -> Prog A).
Arguments Ret {A} a.
Arguments Throw {A} e.
Arguments Do {A} c k.

Fixpoint prog_bind_def {A B} (k : A -> Prog B) (p : Prog A) : Prog B :=
  match p with
  | Ret a => k a
  | Throw e => Throw e
  | Do c k' => Do c (fun r => prog_bind_def k (k' r))
  end.

#[global] Instance prog_ret : MRet Prog := fun A a => Ret a.
#[global] Instance prog_bind : MBind Prog := fun A B k p => prog_bind_def k p.

Definition call (c : Call) : Prog (Resp c) := Do c Ret.

Definition login_to_saas (config : Config.SaaSConfig)
    (username password : string) : Prog bool :=
  call (LoginToSaas config username password).
Definition navigate_to_users_page (config : Config.SaaSConfig) : Prog bool :=
  call (NavigateToUsersPage config).
Definition extract_page_content : Prog string := call ExtractPageContent.
Definition click_element (selector : Json) : Prog bool :=
  call (ClickElement selector).
Definition fill_form (form_data : dict string PyVal) : Prog bool :=
  call (FillForm form_data).
Definition sleep (seconds : nat) : Prog unit := call (Sleep seconds).
Definition chat_completion (request : ChatRequest) : Prog (Exc ChatResponse) :=
  call (ChatCompletion request).

Definition lift {A} (m : Exc A) : Prog A :=
  match m with
  | Ok a => Ret a
  | Raise e => Throw e
  end.

(** [try: p except Exception: return handler] *)
Fixpoint try_except {A} (p : Prog A) (handler : A) : Prog A :=
  match p with
  | Ret a => Ret a
  | Throw _ => Ret handler
  | Do c k => Do c (fun r => try_except (k r) handler)
  end.

(** One call with its answer. *)
Record Event : Type := Ev {
  ev_call : Call;
  ev_resp : Resp ev_call
}.

(** The collaborators: any state [W] and any answer to each call. *)
Definition Handler (W : Type) : Type := forall c : Call, W -> Resp c * W.

(** Running a workflow against a handler, from the state [w] and after the
    calls [past]: the result, the trace of calls, and the final state of
    the collaborators. *)
Fixpoint run_from {W A} (h : Handler W) (p : Prog A) (w : W)
    (past : list Event) : Exc A * list Event * W :=
  match p with
  | Ret a => (Ok a, past, w)
  | Throw e => (Raise e, past, w)
  | Do c k =>
      let '(r, w1) := h c w in
      run_from h (k r) w1 (past ++ [Ev c r])%list
  end.

Definition run {W A} (h : Handler W) (p : Prog A) (w : W)
    : Exc A * list Event * W :=
  run_from h p w [].

(** ** Call trees over any set of calls *)

Section FreeTrees.
Context {C : Type} {R : C -> Type}.

(** A computation that makes calls [c : C], each answered by a value of
    [R c], and ends in a value or an exception. *)
Inductive Free (A : Type) : Type :=
| FRet (a : A)
| FThrow (e : PyErr)
| FDo (c : C) (k : R c -> Free A).

Fixpoint free_bind {A B} (k : A -> Free B) (p : Free A) : Free B :=
  match p with
  | FRet _ a => k a
  | FThrow _ e => FThrow _ e
  | FDo _ c k' => FDo _ c (fun r => free_bind k (k' r))
  end.

(** [try: p except Exception: handler] *)
Fixpoint free_try {A} (p : Free A) (handler : Free A) : Free A :=
  match p with
  | FRet _ a => FRet _ a
  | FThrow _ _ => handler
  | FDo _ c k => FDo _ c (fun r => free_try (k r) handler)
  end.

(** One call with its answer. *)
Record FEvent : Type := FEv {
  fev_call : C;
  fev_resp : R fev_call
}.

(** Running a computation against a handler of its calls, after the calls
    [past]. *)
Fixpoint free_run_from {W A} (h : forall c : C, W -> R c * W) (p : Free A)
    (w : W) (past : list FEvent) : Exc A * list FEvent * W :=
  match p with
  | FRet _ a => (Ok a, past, w)
  | FThrow _ e => (Raise e, past, w)
  | FDo _ c k =>
      let '(r, w1) := h c w in
      free_run_from h (k r) w1 (past ++ [FEv c r])%list
  end.

Definition free_run {W A} (h : forall c : C, W -> R c * W) (p : Free A)
    (w : W) : Exc A * list FEvent * W :=
  free_run_from h p w [].

End FreeTrees.

Arguments Free C R A : clear implicits.
Arguments FRet {C R A} a.
Arguments FThrow {C R A} e.
Arguments FDo {C R A} c k.
Arguments FEvent C R : clear implicits.
Arguments FEv {C R} fev_call fev_resp.

#[global] Instance free_ret {C R} : MRet (Free C R) := fun A a => FRet a.
#[global] Instance free_mbind {C R} : MBind (Free C R) :=
  fun A B k p => free_bind k p.

(** ** Python operators on decoded JSON *)

(** [bool(v)] *)
Definition py_truthy (v : Json) : bool :=
  match v with
  | JVal PNone => false
  | JVal (PBool b) => b
  | JVal (PInt z) => negb (z =? 0)%Z
  | JVal (PStr s) => negb (bool_decide (s = EmptyString))
  | JList l => match l with [] => false | _ => true end
  | JDict d => match d with [] => false | _ => true end
  end.

(** [k in v] for a string [k] *)
Definition py_contains (k : string) (v : Json) : Exc bool :=
  match v with
  | JDict d => Ok (dict_has k d)
  | JList l =>
      Ok (existsb (fun x =>
            match x with
            | JVal (PStr s) => bool_decide (s = k)
            | _ => false
            end) l)
  | JVal (PStr s) => Ok (PyStr.contains k s)
  | JVal _ => Raise TypeError
  end.

(** [v[k]] for a string [k] *)
Definition py_getitem (v : Json) (k : string) : Exc Json :=
  match v with
  | JDict d =>
      match dict_get k d with
      | Some x => Ok x
      | None => Raise KeyError
      end
  | _ => Raise TypeError
  end.

(** [v.get(k, default)] *)
Definition py_get (v : Json) (k : string) (default : Json) : Exc Json :=
  match v with
  | JDict d => Ok (dict_get_default k default d)
  | _ => Raise AttributeError
  end.

(** [choices[0]] *)
Definition first_choice (choices : ChatResponse) : Exc Message :=
  match choices with
  | m :: _ => Ok m
  | [] => Raise IndexError
  end.

(** [len(v)] *)
Definition py_len (v : Json) : Exc nat :=
  match v with
  | JList l => Ok (length l)
  | JDict d => Ok (length d)
  | JVal (PStr s) => Ok (PyStr.len s)
  | JVal _ => Raise TypeError
  end.

(** ** ai_agent.py *)

Module AIAgent.

Definition nl : string := String "010"%char EmptyString.
Definition dq : string := String "034"%char EmptyString.
Definition indent : string := "            ".

Definition find_ui_elements_prompt (html_content task_description : string)
    : string :=
  nl +:+ indent +:+ "Analyze this HTML and find the UI element for: "
     +:+ task_description +:+ nl
  +:+ nl +:+ indent +:+ "HTML Content:" +:+ nl
  +:+ indent +:+ PyStr.take 10000%N html_content +:+ nl
  +:+ nl +:+ indent
     +:+ "Provide the best CSS selector to interact with this element." +:+ nl
  +:+ indent.

Definition find_ui_elements_request (html_content task_description : string)
    : ChatRequest :=
  {| model := Config.OPENAI_model;
     system_message :=
       "You are an expert at analyzing HTML and finding UI elements with CSS selectors.";
     prompt := find_ui_elements_prompt html_content task_description;
     forced_function := Some "find_ui_elements";
     max_tokens := None |}.

(** What [find_ui_elements] does with the answer of the chat client,
    inside its [try]. *)
Definition find_ui_elements_result (response : Exc ChatResponse) : Exc Json :=
  choices ← response;
  message ← first_choice choices;
  match function_call message with
  | Some fc =>
      result ← arguments fc;
      py_get result "elements" (JDict [])
  | None => Ok (JDict [])
  end.

(** [find_ui_elements]: any exception is logged and answered by [{}]. *)
Definition find_ui_elements (html_content task_description : string)
    : Prog Json :=
  response ← chat_completion
                (find_ui_elements_request html_content task_description);
  match find_ui_elements_result response with
  | Ok elements => mret elements
  | Raise _ => mret (JDict [])
  end.

Definition validate_action_success_prompt
    (before_html after_html action_type : string) : string :=
  nl +:+ indent
     +:+ "Determine if the following action was successful by comparing before and after HTML:"
     +:+ nl
  +:+ nl +:+ indent +:+ "Action Type: " +:+ action_type +:+ nl
  +:+ nl +:+ indent +:+ "BEFORE:" +:+ nl
  +:+ indent +:+ PyStr.take 5000%N before_html +:+ nl
  +:+ nl +:+ indent +:+ "AFTER:" +:+ nl
  +:+ indent +:+ PyStr.take 5000%N after_html +:+ nl
  +:+ nl +:+ indent +:+ "Was the action successful? Respond with only "
     +:+ dq +:+ "SUCCESS" +:+ dq +:+ " or " +:+ dq +:+ "FAILED" +:+ dq +:+ "." +:+ nl
  +:+ indent.

Definition validate_action_success_request
    (before_html after_html action_type : string) : ChatRequest :=
  {| model := Config.OPENAI_model;
     system_message :=
       "You are an expert at validating UI changes and action results.";
     prompt := validate_action_success_prompt before_html after_html action_type;
     forced_function := None;
     max_tokens := Some 100 |}.

(** What [validate_action_success] does with the answer of the chat
    client, inside its [try]: [content] is [None] when the message has no
    text, and [None.strip()] raises. *)
Definition validate_action_success_result (response : Exc ChatResponse)
    : Exc bool :=
  choices ← response;
  message ← first_choice choices;
  content ← match content message with
            | Some s => Ok s
            | None => Raise AttributeError
            end;
  let result := PyStr.upper (PyStr.strip content) in
  mret (PyStr.contains "SUCCESS" result).

(** [validate_action_success]: any exception is logged and answered by
    [False]. *)
Definition validate_action_success
    (before_html after_html action_type : string) : Prog bool :=
  response ← chat_completion
     (validate_action_success_request before_html after_html action_type);
  match validate_action_success_result response with
  | Ok verdict => mret verdict
  | Raise _ => mret false
  end.

(** *** [extract_users_from_html] *)

Definition extract_users_prompt (html_content saas_name : string) : string :=
  nl +:+ indent +:+ "Analyze the following HTML content from a " +:+ saas_name
     +:+ " admin portal and extract user information." +:+ nl
  +:+ indent
     +:+ "Look for tables, lists, or other structures containing user data."
     +:+ nl
  +:+ nl +:+ indent +:+ "HTML Content (truncated if too long):" +:+ nl
  +:+ indent +:+ PyStr.take 15000%N html_content
     +:+ "  # Limit to avoid token limits" +:+ nl
  +:+ nl +:+ indent
     +:+ "Extract all users you can find with their details. If some information is not available, "
     +:+ nl
  +:+ indent +:+ "set it to null or " +:+ dq +:+ "Unknown" +:+ dq
     +:+ ". Focus on finding:" +:+ nl
  +:+ indent +:+ "- User names" +:+ nl
  +:+ indent +:+ "- Email addresses  " +:+ nl
  +:+ indent +:+ "- Roles/permissions" +:+ nl
  +:+ indent +:+ "- Last login dates" +:+ nl
  +:+ indent +:+ "- Account status" +:+ nl
  +:+ indent.

Definition extract_users_request (html_content saas_name : string)
    : ChatRequest :=
  {| model := Config.OPENAI_model;
     system_message :=
       "You are an expert at analyzing HTML and extracting structured user data from SaaS admin portals.";
     prompt := extract_users_prompt html_content saas_name;
     forced_function := Some "extract_user_data";
     max_tokens := Some (N.to_nat Config.OPENAI_max_tokens) |}.

(** What [extract_users_from_html] does with the answer of the chat
    client, inside its [try]; the log line takes [len(users)], which
    raises for a value without length. *)
Definition extract_users_result (response : Exc ChatResponse) : Exc Json :=
  choices ← response;
  message ← first_choice choices;
  match function_call message with
  | Some fc =>
      if bool_decide (fc_name fc = "extract_user_data") then
        result ← arguments fc;
        users ← py_get result "users" (JList []);
        _ ← py_len users;
        mret users
      else Ok (JList [])
  | None => Ok (JList [])
  end.

(** [extract_users_from_html]: any exception is logged and answered by
    the empty list. *)
Definition extract_users_from_html (html_content saas_name : string)
    : Prog Json :=
  response ← chat_completion (extract_users_request html_content saas_name);
  match extract_users_result response with
  | Ok users => mret users
  | Raise _ => mret (JList [])
  end.

(** *** [generate_user_form_data] *)






(** *** [analyze_ui_changes] *)

(** The dictionary [analyze_ui_changes] returns; [confidence] is the
    decimal literal of the source. *)
Record UiChanges : Type := mkUiChanges {
  has_changes : bool;
  analysis : string;
  confidence : Decimal.decimal
}.

Definition analyze_ui_changes_prompt (old_html new_html : string) : string :=
  nl +:+ indent
     +:+ "Compare these two HTML snippets and identify significant changes in UI structure:"
     +:+ nl
  +:+ nl +:+ indent +:+ "OLD HTML:" +:+ nl
  +:+ indent +:+ PyStr.take 5000%N old_html +:+ nl
  +:+ nl +:+ indent +:+ "NEW HTML:" +:+ nl
  +:+ indent +:+ PyStr.take 5000%N new_html +:+ nl
  +:+ nl +:+ indent +:+ "Identify:" +:+ nl
  +:+ indent +:+ "1. Structural changes" +:+ nl
  +:+ indent +:+ "2. New elements" +:+ nl
  +:+ indent +:+ "3. Removed elements" +:+ nl
  +:+ indent +:+ "4. Changed selectors/IDs/classes" +:+ nl
  +:+ indent.

Definition analyze_ui_changes_request (old_html new_html : string)
    : ChatRequest :=
  {| model := Config.OPENAI_model;
     system_message :=
       "You are an expert at analyzing HTML changes and UI modifications.";
     prompt := analyze_ui_changes_prompt old_html new_html;
     forced_function := None;
     max_tokens := Some 1000 |}.

(** What [analyze_ui_changes] does with the answer of the chat client,
    inside its [try]. *)
Definition analyze_ui_changes_result (response : Exc ChatResponse)
    : Exc UiChanges :=
  choices ← response;
  message ← first_choice choices;
  changes_analysis ← match content message with
                     | Some s => Ok s
                     | None => Raise AttributeError
                     end;
  mret {| has_changes :=
            PyStr.contains "changes detected" (PyStr.lower changes_analysis);
          analysis := changes_analysis;
          confidence :=
            Decimal.Decimal (Decimal.Pos (Decimal.D0 Decimal.Nil))
                            (Decimal.D8 Decimal.Nil) |}.

(** [analyze_ui_changes]: any exception is logged and answered by no
    change, with confidence 0.0. *)
Definition analyze_ui_changes (old_html new_html : string) : Prog UiChanges :=
  response ← chat_completion (analyze_ui_changes_request old_html new_html);
  match analyze_ui_changes_result response with
  | Ok changes => mret changes
  | Raise _ =>
      mret {| has_changes := false;
              analysis := EmptyString;
              confidence :=
                Decimal.Decimal (Decimal.Pos (Decimal.D0 Decimal.Nil))
                                (Decimal.D0 Decimal.Nil) |}
  end.

End AIAgent.

(** ** browser_automation.py *)

Module BrowserAutomationHandler.

(** The handler object: which of its four Playwright resources are set
    ([None] is [false]). *)
Record Self : Type := mkSelf {
  playwright : bool;
  browser : bool;
  context : bool;
  page : bool
}.

(** [__init__] *)
Definition init : Self :=
  {| playwright := false; browser := false; context := false; page := false |}.

(** An element handle of the page. *)
Definition ElementHandle : Type := nat.

(** The calls the handler makes: to Playwright, and to the clock. *)
Inductive BrowserCall : Type :=
| Start
| Launch (headless : bool)
| NewContext (width height : N)
| NewPage
| SetDefaultTimeout (timeout : N)
| Goto (url : string)
| WaitForLoadState (state : string)
| Fill (selector : string) (value : PyVal)
| Click (selector : Json)
| Url
| Content
| QuerySelectorAll (selector : string)
| TextContent (element : ElementHandle)
| InnerHtml (element : ElementHandle)
| GetAttribute (element : ElementHandle) (attr : string)
| Screenshot (path : string) (full_page : bool)
| WaitForSelector (selector : string) (timeout : N)
| ClosePage
| CloseContext
| CloseBrowser
| Stop
| Strftime (format : string).

(** Every Playwright call may raise; reading [page.url] and the clock do
    not. *)
Definition BrowserResp (c : BrowserCall) : Type :=
  match c with
  | Url => string
  | Strftime _ => string
  | Content => Exc string
  | QuerySelectorAll _ => Exc (list ElementHandle)
  | TextContent _ => Exc (option string)
  | InnerHtml _ => Exc string
  | GetAttribute _ _ => Exc (option string)
  | _ => Exc unit
  end.

Definition BProg : Type -> Type := Free BrowserCall BrowserResp.

Definition attempt {A} (r : Exc A) : BProg A :=
  match r with
  | Ok a => FRet a
  | Raise e => FThrow e
  end.

(** [self.page.<method>]: an attribute of [None] when no page is set. *)
Definition on_page {A} (self : Self) (p : BProg A) : BProg A :=
  if page self then p else FThrow AttributeError.

Definition goto (self : Self) (url : string) : BProg unit :=
  on_page self (FDo (Goto url) attempt).
Definition wait_for_load_state (self : Self) (state : string) : BProg unit :=
  on_page self (FDo (WaitForLoadState state) attempt).
Definition fill (self : Self) (selector : string) (value : PyVal) : BProg unit :=
  on_page self (FDo (Fill selector value) attempt).
Definition click (self : Self) (selector : Json) : BProg unit :=
  on_page self (FDo (Click selector) attempt).
Definition url (self : Self) : BProg string :=
  on_page self (FDo Url FRet).
Definition content (self : Self) : BProg string :=
  on_page self (FDo Content attempt).
Definition screenshot (self : Self) (path : string) (full_page : bool)
    : BProg unit :=
  on_page self (FDo (Screenshot path full_page) attempt).
Definition wait_for_selector (self : Self) (selector : string) (timeout : N)
    : BProg unit :=
  on_page self (FDo (WaitForSelector selector timeout) attempt).
Definition query_selector_all (self : Self) (selector : string)
    : BProg (list ElementHandle) :=
  on_page self (FDo (QuerySelectorAll selector) attempt).
Definition text_content (element : ElementHandle) : BProg (option string) :=
  FDo (TextContent element) attempt.
Definition inner_html (element : ElementHandle) : BProg string :=
  FDo (InnerHtml element) attempt.
Definition get_attribute (element : ElementHandle) (attr : string)
    : BProg (option string) :=
  FDo (GetAttribute element attr) attempt.
Definition strftime (format : string) : BProg string :=
  FDo (Strftime format) FRet.

(** [initialize_browser]: the answer and the handler object afterwards.
    Each resource is stored as soon as it is created, so a failure leaves
    the earlier ones set. *)
Definition initialize_browser (self : Self) : BProg (bool * Self) :=
  FDo Start (fun r =>
    match r with
    | Raise _ => FRet (false, self)
    | Ok _ =>
      let self :=
        {| playwright := true; browser := browser self;
           context := context self; page := page self |} in
      FDo (Launch Config.SETTINGS_browser_headless) (fun r =>
        match r with
        | Raise _ => FRet (false, self)
        | Ok _ =>
          let self :=
            {| playwright := playwright self; browser := true;
               context := context self; page := page self |} in
          FDo (NewContext 1920 1080) (fun r =>
            match r with
            | Raise _ => FRet (false, self)
            | Ok _ =>
              let self :=
                {| playwright := playwright self; browser := browser self;
                   context := true; page := page self |} in
              FDo NewPage (fun r =>
                match r with
                | Raise _ => FRet (false, self)
                | Ok _ =>
                  let self :=
                    {| playwright := playwright self;
                       browser := browser self;
                       context := context self; page := true |} in
                  FDo (SetDefaultTimeout Config.SETTINGS_page_timeout)
                    (fun r =>
                      match r with
                      | Raise _ => FRet (false, self)
                      | Ok _ => FRet (true, self)
                      end)
                end)
            end)
        end)
    end).

Definition take_screenshot (self : Self) (name : option string)
    : BProg string :=
  free_try
    (name ← match name with
            | None =>
                stamp ← strftime "%Y%m%d_%H%M%S";
                mret ("screenshot_" +:+ stamp)
            | Some name => mret name
            end;
     let screenshot_path :=
       Config.SETTINGS_logs_dir +:+ "/" +:+ name +:+ ".png" in
     _ ← screenshot self screenshot_path true;
     mret screenshot_path)
    (mret "").

Definition login_to_saas (self : Self) (config : Config.SaaSConfig)
    (username password : string) : BProg bool :=
  free_try
    (_ ← goto self (Config.login_url config);
     _ ← wait_for_load_state self "networkidle";
     _ ← fill self (Config.username_selector config) (PStr username);
     _ ← fill self (Config.password_selector config) (PStr password);
     _ ← click self (JVal (PStr (Config.login_button_selector config)));
     _ ← wait_for_load_state self "networkidle";
     current_url ← url self;
     if negb (PyStr.contains "login" (PyStr.lower current_url))
     then mret true
     else
       _ ← take_screenshot self (Some "login_failed");
       mret false)
    (_ ← take_screenshot self (Some "login_error");
     mret false).

Definition navigate_to_users_page (self : Self) (config : Config.SaaSConfig)
    : BProg bool :=
  free_try
    (_ ← goto self (Config.users_page_url config);
     _ ← wait_for_load_state self "networkidle";
     mret true)
    (mret false).

Definition extract_page_content (self : Self) : BProg string :=
  free_try (content self) (mret "").

(** The properties read off one element. *)
Record ElementData : Type := mkElementData {
  text : option string;
  element_inner_html : string;
  attributes : dict string string
}.

Definition common_attributes : list string :=
  ["id"; "class"; "data-testid"; "role"].

(** The loop of [find_elements] over the common attributes: an attribute
    is kept when its value is not [None] and not empty. *)
Fixpoint element_attributes (element : ElementHandle) (attrs : list string)
    (attributes : dict string string) : BProg (dict string string) :=
  match attrs with
  | [] => mret attributes
  | attr :: attrs =>
      value ← get_attribute element attr;
      let attributes :=
        match value with
        | Some value =>
            if bool_decide (value = "") then attributes
            else dict_set attr value attributes
        | None => attributes
        end in
      element_attributes element attrs attributes
  end.

Definition element_data (element : ElementHandle) : BProg ElementData :=
  text ← text_content element;
  inner_html ← inner_html element;
  attributes ← element_attributes element common_attributes [];
  mret {| text := text; element_inner_html := inner_html;
          attributes := attributes |}.

Definition find_elements (self : Self) (selector : string)
    : BProg (list ElementData) :=
  free_try
    (elements ← query_selector_all self selector;
     mapM element_data elements)
    (mret []).

Definition click_element (self : Self) (selector : Json) : BProg bool :=
  free_try
    (_ ← click self selector;
     _ ← wait_for_load_state self "networkidle";
     mret true)
    (mret false).

(** The loop of [fill_form] over [form_data.items()]. *)
Fixpoint fill_all (self : Self) (items : list (string * PyVal)) : BProg unit :=
  match items with
  | [] => mret tt
  | (selector, value) :: items =>
      _ ← fill self selector value;
      fill_all self items
  end.

Definition fill_form (self : Self) (form_data : dict string PyVal)
    : BProg bool :=
  free_try
    (_ ← fill_all self form_data;
     mret true)
    (mret false).

Definition wait_for_element (self : Self) (selector : string) (timeout : N)
    : BProg bool :=
  free_try
    (_ ← wait_for_selector self selector timeout;
     mret true)
    (mret false).

Definition cleanup (self : Self) : BProg unit :=
  free_try
    (_ ← (if page self then FDo ClosePage attempt else mret tt);
     _ ← (if context self then FDo CloseContext attempt else mret tt);
     _ ← (if browser self then FDo CloseBrowser attempt else mret tt);
     _ ← (if playwright self then FDo Stop attempt else mret tt);
     mret tt)
    (mret tt).

End BrowserAutomationHandler.

(** ** main.py *)

Module SaaSAutomationOrchestrator.

Import AIAgent.

(** [v and "primary_selector" in v] *)
Definition has_primary_selector (v : Json) : Exc bool :=
  if py_truthy v then py_contains "primary_selector" v else Ok false.

(** The task given to the oracle when the add-user button is not found. *)
Definition add_user_task (saas_config : Config.SaaSConfig) : string :=
  "Find the button to add a new user in the "
    +:+ Config.name saas_config +:+ " admin portal".

(** The block of [provision_user] that finds and clicks the add-user
    button: the predefined selector first, the selector the chat client
    proposes when that click fails.  The value is [add_user_success]. *)
Definition click_add_user_button (saas_config : Config.SaaSConfig)
    : Prog bool :=
  add_user_success ←
    click_element (JVal (PStr (Config.add_user_button saas_config)));
  if negb add_user_success then
    page_content ← extract_page_content;
    ui_elements ← find_ui_elements page_content (add_user_task saas_config);
    found ← lift (has_primary_selector ui_elements);
    if (found : bool) then
      selector ← lift (py_getitem ui_elements "primary_selector");
      click_element selector
    else mret add_user_success
  else mret add_user_success.

(** The loop that builds [form_data] from the form selectors of the
    configuration. *)
Definition build_form_data (saas_config : Config.SaaSConfig)
    (user_details : dict string PyVal) : dict string PyVal :=
  fold_left
    (fun form_data item =>
       if dict_has item.1 user_details
       then dict_set item.2 (dict_get_default item.1 PNone user_details) form_data
       else form_data)
    (Config.user_form_selectors saas_config) [].

(** [provision_user] from the form on: fill, find and click the submit
    button, settle, take the after-snapshot and validate. *)
Definition fill_submit_validate (saas_config : Config.SaaSConfig)
    (user_details : dict string PyVal) (before_html : string) : Prog bool :=
  _ ← sleep (2);
  let form_data := build_form_data saas_config user_details in
  form_fill_success ← fill_form form_data;
  if negb form_fill_success then mret false
  else
    page_content ← extract_page_content;
    submit_ui ← find_ui_elements page_content
      "Find the submit or save button for the user form";
    found ← lift (has_primary_selector submit_ui);
    if (found : bool) then
      selector ← lift (py_getitem submit_ui "primary_selector");
      submit_success ← click_element selector;
      if negb submit_success then mret false
      else
        _ ← sleep (3);
        after_html ← extract_page_content;
        validate_action_success before_html after_html
          ("Adding user "
             +:+ py_str (dict_get_default "email" (PStr "unknown") user_details))
    else mret false.

(** [provision_user] *)
Definition provision_user (saas_id : string)
    (credentials : dict string string) (user_details : dict string PyVal)
    : Prog bool :=
  try_except
    (match dict_get saas_id Config.SAAS_CONFIGS with
     | None => mret false
     | Some saas_config =>
         login_success ← login_to_saas saas_config
           (dict_get_default "username" EmptyString credentials)
           (dict_get_default "password" EmptyString credentials);
         if negb login_success then mret false
         else
           nav_success ← navigate_to_users_page saas_config;
           if negb nav_success then mret false
           else
             before_html ← extract_page_content;
             add_user_success ← click_add_user_button saas_config;
             if negb add_user_success then mret false
             else fill_submit_validate saas_config user_details before_html
     end)
    false.

(** [deprovision_user] from the before-snapshot on. *)
Definition find_delete_validate (user_email before_html : string)
    : Prog bool :=
  user_row_info ← find_ui_elements before_html
    ("Find the row or entry for user with email " +:+ user_email);
  found_row ← lift (has_primary_selector user_row_info);
  if negb found_row then mret false
  else
    row_selector ← lift (py_getitem user_row_info "primary_selector");
    _ ← click_element row_selector;
    updated_html ← extract_page_content;
    delete_button_info ← find_ui_elements updated_html
      ("Find the delete, remove, or deactivate button for user " +:+ user_email);
    found_delete ← lift (has_primary_selector delete_button_info);
    if negb found_delete then mret false
    else
      delete_selector ← lift (py_getitem delete_button_info "primary_selector");
      delete_click_success ← click_element delete_selector;
      if negb delete_click_success then mret false
      else
        _ ← sleep (1);
        dialog_html ← extract_page_content;
        confirm_button_info ← find_ui_elements dialog_html
          "Find the confirm, yes, or ok button in the confirmation dialog";
        found_confirm ← lift (has_primary_selector confirm_button_info);
        _ ← (if (found_confirm : bool) then
               confirm_selector ←
                 lift (py_getitem confirm_button_info "primary_selector");
               _ ← click_element confirm_selector;
               mret tt
             else mret tt);
        _ ← sleep (3);
        after_html ← extract_page_content;
        validate_action_success before_html after_html
          ("Removing user " +:+ user_email).

(** [deprovision_user] *)
Definition deprovision_user (saas_id : string)
    (credentials : dict string string) (user_email : string) : Prog bool :=
  try_except
    (match dict_get saas_id Config.SAAS_CONFIGS with
     | None => mret false
     | Some saas_config =>
         login_success ← login_to_saas saas_config
           (dict_get_default "username" EmptyString credentials)
           (dict_get_default "password" EmptyString credentials);
         if negb login_success then mret false
         else
           nav_success ← navigate_to_users_page saas_config;
           if negb nav_success then mret false
           else
             before_html ← extract_page_content;
             find_delete_validate user_email before_html
     end)
    false.

(** *** [scrape_users]

    The scraping workflow also asks the browser handler for a screenshot
    and reads the clock (in [process_raw_user_data] and in
    [save_to_json]). *)
Inductive ScrapeCall : Type :=
| Base (c : Call)
| TakeScreenshot (name : string)
| Isoformat.

Definition ScrapeResp (c : ScrapeCall) : Type :=
  match c with
  | Base c => Resp c
  | TakeScreenshot _ => string
  | Isoformat => string
  end.

Definition SProg : Type -> Type := Free ScrapeCall ScrapeResp.

(** A workflow over the calls of the add / remove workflows. *)
Fixpoint embed {A} (p : Prog A) : SProg A :=
  match p with
  | Ret a => FRet a
  | Throw e => FThrow e
  | Do c k => FDo (Base c) (fun r => embed (k r))
  end.

Definition take_screenshot (name : string) : SProg string :=
  FDo (TakeScreenshot name) FRet.

Definition isoformat : SProg string := FDo Isoformat FRet.

Definition lift_exc {A} (m : Exc A) : SProg A :=
  match m with
  | Ok a => FRet a
  | Raise e => FThrow e
  end.

Section Scrape.
Variable repr : Json -> string.
Variables json_write csv_write : DataProcessor.WriteOutcome.

(** [scrape_users]: the records it returns and the file store afterwards.
    Both saves are given a file name, so neither generates one; what they
    return is not looked at.  [json_write] and [csv_write] are what the
    two writes come to. *)
Definition scrape_users (saas_id : string) (credentials : dict string string)
    (fs : gmap string DataProcessor.File)
    : SProg (list UserRecord * gmap string DataProcessor.File) :=
  free_try
    (match dict_get saas_id Config.SAAS_CONFIGS with
     | None => mret ([], fs)
     | Some saas_config =>
         login_success ← embed (login_to_saas saas_config
           (dict_get_default "username" EmptyString credentials)
           (dict_get_default "password" EmptyString credentials));
         if negb login_success then mret ([], fs)
         else
           nav_success ← embed (navigate_to_users_page saas_config);
           if negb nav_success then mret ([], fs)
           else
             html_content ← embed extract_page_content;
             if bool_decide (html_content = EmptyString) then mret ([], fs)
             else
               _ ← take_screenshot (saas_id +:+ "_users_page");
               raw_users ← embed (extract_users_from_html html_content
                                    (Config.name saas_config));
               if negb (py_truthy raw_users) then mret ([], fs)
               else
                 current_time ← isoformat;
                 processed_users ←
                   lift_exc (DataProcessor.process_raw_json repr current_time
                               raw_users (Config.name saas_config));
                 now ← isoformat;
                 let fs :=
                   (DataProcessor.save_to_json Config.SETTINGS_data_output_dir
                      EmptyString now processed_users
                      (Some (saas_id +:+ "_users.json")) json_write fs).2 in
                 let fs :=
                   (DataProcessor.save_to_csv Config.SETTINGS_data_output_dir
                      EmptyString processed_users
                      (Some (saas_id +:+ "_users.csv")) csv_write fs).2 in
                 mret (processed_users, fs)
     end)
    (mret ([], fs)).

End Scrape.

End SaaSAutomationOrchestrator.

(** ** Predicates used in the statements *)

Import DataProcessor.

(** A record whose email is a non-empty string that contains an at sign. *)
Definition valid_email (r : UserRecord) : Prop :=
  exists e, email r = Some e /\ e <> EmptyString /\ PyStr.contains "@" e = true.

(** A raw entry whose email is missing, empty, or has no at sign. *)
Definition email_missing_or_invalid (user_data : dict string PyVal) : Prop :=
  dict_get "email" user_data = None \/
  dict_get "email" user_data = Some (PStr EmptyString) \/
  exists s, dict_get "email" user_data = Some (PStr s) /\
            PyStr.contains "@" s = false.

(** The Python value of an optional string. *)
Definition py_of_option (v : option string) : PyVal :=
  match v with
  | Some s => PStr s
  | None => PNone
  end.

(** [clean_text(clean_text(x))] *)
Definition clean_text_twice (x : PyVal) : option string :=
  clean_text (py_of_option (clean_text x)).

(** A string without whitespace characters. *)
Fixpoint no_space (s : string) : bool :=
  match s with
  | EmptyString => true
  | String c t => negb (PyStr.is_space c) && no_space t
  end.

(** A word: a non-empty string without whitespace. *)
Definition is_word (s : string) : Prop :=
  s <> EmptyString /\ no_space s = true.

(** The character [c] occurs in [s]. *)
Fixpoint has_char (c : ascii) (s : string) : bool :=
  match s with
  | EmptyString => false
  | String d t => bool_decide (d = c) || has_char c t
  end.

(** The encoding does not start in the middle of a character, as that of
    every [str] does not. *)
Definition at_boundary (s : string) : bool :=
  match s with
  | EmptyString => true
  | String c _ => negb (PyStr.is_continuation c)
  end.

(** One order in which a set comes out as a list. *)
Definition sorted_order : SetOrder :=
  {| listing := elements; listing_elements := fun s => Permutation_refl _ |}.

(** Another one: the reverse. *)
Definition reverse_order : SetOrder :=
  {| listing := fun s => reverse (elements s);
     listing_elements := fun s => reverse_Permutation _ |}.

(** A record with an email and nothing else. *)
Definition user_with_email (e : string) : UserRecord :=
  {| email := Some e; name := None; role := None; last_login := None;
     status := None; extracted_at := None; source_saas := None |}.

(** What the CSV loader makes of a cell: the empty cell and the cell
    ["None"] are absence, any other cell is its text. *)
Definition absent_if_marker (cell : string) : option string :=
  if bool_decide (cell = EmptyString) || bool_decide (cell = "None")
  then None else Some cell.

(** The row value of a cell after the loop that restores [None]. *)
Definition csv_val_of_cell (cell : string) : CsvVal :=
  if bool_decide (cell = EmptyString) || bool_decide (cell = "None")
  then CNone else CCell cell.


(** *** Traces *)

Definition result_of {W A} (h : Handler W) (p : Prog A) (w : W) : Exc A :=
  (run h p w).1.1.

Definition trace_of {W A} (h : Handler W) (p : Prog A) (w : W) : list Event :=
  (run h p w).1.2.

Definition is_oracle_call (e : Event) : bool :=
  match ev_call e with
  | ChatCompletion _ => true
  | _ => false
  end.

Definition is_click (e : Event) : bool :=
  match ev_call e with
  | ClickElement _ => true
  | _ => false
  end.

Definition is_fill (e : Event) : bool :=
  match ev_call e with
  | FillForm _ => true
  | _ => false
  end.

(** A click or a form fill: the calls that change the page. *)
Definition is_mutating (e : Event) : bool := is_click e || is_fill e.

Definition is_snapshot (e : Event) : bool :=
  match ev_call e with
  | ExtractPageContent => true
  | _ => false
  end.

(** The chat request of [validate_action_success]: the one that forces no
    function call. *)
Definition is_validation (e : Event) : bool :=
  match ev_call e with
  | ChatCompletion request =>
      match forced_function request with
      | None => true
      | Some _ => false
      end
  | _ => false
  end.

(** A click that the browser handler answered with [True]. *)
Definition is_successful_click (e : Event) : bool :=
  match e with
  | Ev c r =>
      match c return Resp c -> bool with
      | ClickElement _ => fun ok => ok
      | _ => fun _ => false
      end r
  end.

(** The answers to the clicks of a trace, in order. *)
Fixpoint click_answers (tr : list Event) : list bool :=
  match tr with
  | [] => []
  | e :: rest =>
      if is_click e then is_successful_click e :: click_answers rest
      else click_answers rest
  end.

Fixpoint count_events (f : Event -> bool) (tr : list Event) : nat :=
  match tr with
  | [] => 0
  | e :: rest => (if f e then 1 else 0) + count_events f rest
  end.

(** Somewhere in the trace a page snapshot is taken and, later, the
    validation request is sent. *)
Fixpoint snapshot_then_validation (tr : list Event) : bool :=
  match tr with
  | [] => false
  | e :: rest =>
      (is_snapshot e && existsb is_validation rest)
      || snapshot_then_validation rest
  end.

(** Every mutating action of the trace is followed by a snapshot and a
    validation. *)
Fixpoint validated_after_mutation (tr : list Event) : bool :=
  match tr with
  | [] => true
  | e :: rest =>
      (if is_mutating e then snapshot_then_validation rest else true)
      && validated_after_mutation rest
  end.

(** A form fill is followed, later in the trace, by a successful click:
    in the add workflow that click is the submit click. *)
Fixpoint click_succeeded_after_fill (tr : list Event) : bool :=
  match tr with
  | [] => false
  | e :: rest =>
      (is_fill e && existsb is_successful_click rest)
      || click_succeeded_after_fill rest
  end.

(** The second click of the trace succeeded: in the remove workflow that
    click is the delete click. *)
Definition second_click_succeeded (tr : list Event) : bool :=
  match click_answers tr with
  | _ :: true :: _ => true
  | _ => false
  end.

(** The verdict [validate_action_success] draws from the last call of the
    trace. *)
Definition last_verdict (tr : list Event) : bool :=
  match last tr with
  | Some (Ev c r) =>
      match c return Resp c -> bool with
      | ChatCompletion _ => fun response =>
          match AIAgent.validate_action_success_result response with
          | Ok verdict => verdict
          | Raise _ => false
          end
      | _ => fun _ => false
      end r
  | None => false
  end.

(** Every answer to a request for a UI element decodes to a dictionary,
    as the schema of the request says, or to nothing. *)
Definition answers_are_dicts (tr : list Event) : bool :=
  forallb (fun e =>
    match e with
    | Ev c r =>
        match c return Resp c -> bool with
        | ChatCompletion request => fun response =>
            match forced_function request with
            | Some _ =>
                match AIAgent.find_ui_elements_result response with
                | Ok (JDict _) => true
                | Ok _ => false
                | Raise _ => true
                end
            | None => true
            end
        | _ => fun _ => true
        end r
    end) tr.

(** *** Resolution steps *)

(** The selector an answer of the chat client proposes: the
    [primary_selector] entry of the [elements] object in the decoded
    arguments of the function call of the first choice.  A failed call, an
    answer without choice or function call, arguments that do not decode to
    an object, and an [elements] entry that is missing or no object with
    that entry propose nothing. *)
Definition proposed_selector (response : Exc ChatResponse) : option Json :=
  match response with
  | Ok (message :: _) =>
      match function_call message with
      | Some fc =>
          match arguments fc with
          | Ok (JDict result) =>
              match dict_get "elements" result with
              | Some (JDict elements) => dict_get "primary_selector" elements
              | _ => None
              end
          | _ => None
          end
      | None => None
      end
  | _ => None
  end.

(** A chat request for a UI element, as opposed to a validation. *)
Definition is_resolution_request (request : ChatRequest) : bool :=
  match forced_function request with
  | Some name => String.eqb name "find_ui_elements"
  | None => false
  end.

(** How a workflow goes on from a resolution step.  At a [Needed] step
    (the add-user and submit buttons, the delete button) the run ends in
    [False] when no selector is proposed or the click on it fails.  At the
    [Unchecked] step (the row of the user) the run ends in [False] when no
    selector is proposed, and the answer of the click is not looked at.
    At the [Skippable] step (the confirmation button) the click is left
    out when no selector is proposed, and its answer is not looked at. *)
Inductive StepKind : Type :=
| Needed
| Unchecked
| Skippable.

(** What follows a resolution step of kind [kind] whose answer is
    [response], in a run that ends in [res]: [rest] is the trace after the
    chat request. *)
Definition step_followed (kind : StepKind) (response : Exc ChatResponse)
    (res : Exc bool) (rest : list Event) : Prop :=
  match proposed_selector response, kind with
  | Some selector, Needed =>
      exists clicked,
        head rest = Some (Ev (ClickElement selector) clicked) /\
        (clicked = false -> tail rest = [] /\ res = Ok false)
  | Some selector, Unchecked =>
      exists clicked page,
        take 2 rest
        = [Ev (ClickElement selector) clicked; Ev ExtractPageContent page]
  | Some selector, Skippable =>
      exists clicked,
        take 2 rest = [Ev (ClickElement selector) clicked; Ev (Sleep 3) tt]
  | None, Skippable =>
      (rest = [] /\ res = Ok false) \/ head rest = Some (Ev (Sleep 3) tt)
  | None, _ => rest = [] /\ res = Ok false
  end.

(** Every resolution step of the trace is followed as its kind says;
    [kind_of] gives the kind of the steps in their order, from the
    [n]-th on. *)
Fixpoint resolution_steps (kind_of : nat -> StepKind) (n : nat)
    (res : Exc bool) (tr : list Event) : Prop :=
  match tr with
  | [] => True
  | Ev c r :: rest =>
      match c return Resp c -> Prop with
      | ChatCompletion request => fun response =>
          if is_resolution_request request then
            step_followed (kind_of n) response res rest /\
            resolution_steps kind_of (S n) res rest
          else resolution_steps kind_of n res rest
      | _ => fun _ => resolution_steps kind_of n res rest
      end r
  end.

(** The resolution steps of [provision_user]: the add-user button, when
    the static selector failed, and the submit button. *)
Definition provision_steps (n : nat) : StepKind := Needed.

(** The resolution steps of [deprovision_user]: the row of the user, the
    delete button, the confirmation button. *)
Definition deprovision_steps (n : nat) : StepKind :=
  match n with
  | 0 => Unchecked
  | 1 => Needed
  | _ => Skippable
  end.

(** *** Scripted collaborators

    A handler that answers the clicks and the chat requests from two
    lists, in order, and everything else with fixed answers.  Its state
    counts the clicks and the chat requests served so far. *)
Definition scripted (click_script : list bool) (fill_answer : bool)
    (chat_script : list (Exc ChatResponse)) : Handler (nat * nat) :=
  fun c w =>
    match c return Resp c * (nat * nat) with
    | LoginToSaas _ _ _ => (true, w)
    | NavigateToUsersPage _ => (true, w)
    | ExtractPageContent => ("<html></html>", w)
    | ClickElement _ => (nth w.1 click_script false, (S w.1, w.2))
    | FillForm _ => (fill_answer, w)
    | Sleep _ => (tt, w)
    | ChatCompletion _ => (nth w.2 chat_script (Raise OSError), (w.1, S w.2))
    end.

(** A chat message with text only. *)
Definition text_message (text : string) : Message :=
  {| content := Some text; function_call := None |}.

(** The chat answer that calls [find_ui_elements] with [elements]. *)
Definition elements_answer (elements : Json) : Exc ChatResponse :=
  Ok [ {| content := None;
          function_call := Some {|
            fc_name := "find_ui_elements";
            arguments := Ok (JDict [("elements", elements)]) |} |} ].

(** An em dash, in UTF-8. *)
Definition em_dash : string :=
  String "226"%char (String "128"%char (String "148"%char EmptyString)).

(** The letters sharp s (U+00DF) and long s (U+017F), in UTF-8. *)
Definition sharp_s : string :=
  String "195"%char (String "159"%char EmptyString).
Definition long_s : string :=
  String "197"%char (String "191"%char EmptyString).

(** Every text of the record is one the CSV reader accepts: as the text
    file hands it over, it is within the field limit. *)
Definition fits_csv (r : UserRecord) : Prop :=
  forall k v, dict_get k (asdict r) = Some (Some v) ->
    within_field_limit (universal_newlines v) = true.

(** Every text of the record is one that the CSV loader reads back as it
    is: not empty, not ["None"], without a carriage return, which the
    newline translation rewrites, without a NUL character, which the [csv]
    library of some versions refuses, and within the field limit. *)
Definition csv_safe (r : UserRecord) : Prop :=
  forall k v, dict_get k (asdict r) = Some (Some v) ->
    v <> EmptyString /\ v <> "None" /\
    has_char "013"%char v = false /\ has_char "000"%char v = false /\
    within_field_limit v = true.

(** The counts a loop of [count_key] builds, from the key of each user. *)
Definition count_by (key : UserRecord -> string) (users : list UserRecord)
    (counts : dict string nat) : dict string nat :=
  fold_left (fun counts user => count_key (key user) counts) users counts.

(** A login that the browser handler answered with [True]. *)
Definition is_successful_login (e : Event) : bool :=
  match e with
  | Ev c r =>
      match c return Resp c -> bool with
      | LoginToSaas _ _ _ => fun ok => ok
      | _ => fun _ => false
      end r
  end.

(** A navigation to the users page that was answered with [True]. *)
Definition is_successful_navigation (e : Event) : bool :=
  match e with
  | Ev c r =>
      match c return Resp c -> bool with
      | NavigateToUsersPage _ => fun ok => ok
      | _ => fun _ => false
      end r
  end.

(** The trace starts with a successful login followed by a successful
    navigation to the users page. *)
Definition starts_on_users_page (tr : list Event) : bool :=
  match tr with
  | e1 :: e2 :: _ => is_successful_login e1 && is_successful_navigation e2
  | _ => false
  end.

(** A call that reads or changes the page, or consults the oracle. *)
Definition touches_page (e : Event) : bool :=
  is_mutating e || is_snapshot e || is_oracle_call e.

(** The page a snapshot call returned. *)
Definition snapshot_of (e : Event) : option string :=
  match e with
  | Ev c r =>
      match c return Resp c -> option string with
      | ExtractPageContent => fun page => Some page
      | _ => fun _ => None
      end r
  end.

(** The first and the last snapshot of a trace. *)
Fixpoint first_snapshot (tr : list Event) : option string :=
  match tr with
  | [] => None
  | e :: rest =>
      match snapshot_of e with
      | Some page => Some page
      | None => first_snapshot rest
      end
  end.

Fixpoint last_snapshot (tr : list Event) : option string :=
  match tr with
  | [] => None
  | e :: rest =>
      match last_snapshot rest with
      | Some page => Some page
      | None => snapshot_of e
      end
  end.

(** The request of the validation a trace ends with. *)
Definition validation_request (tr : list Event) : option ChatRequest :=
  match last tr with
  | Some e =>
      if is_validation e then
        match ev_call e with
        | ChatCompletion request => Some request
        | _ => None
        end
      else None
  | None => None
  end.

(** One round of the loop of [provision_user] that builds the form. *)
Definition form_data_step (user_details : dict string PyVal)
    (form_data : dict string PyVal) (item : string * string)
    : dict string PyVal :=
  if dict_has item.1 user_details
  then dict_set item.2 (dict_get_default item.1 PNone user_details) form_data
  else form_data.

(** *** The browser handler *)

Section BrowserPredicates.
Import BrowserAutomationHandler.

(** The call was answered by an exception. *)
Definition raised (e : FEvent BrowserCall BrowserResp) : bool :=
  match e with
  | FEv c r =>
      match c return BrowserResp c -> bool with
      | Url => fun _ => false
      | Strftime _ => fun _ => false
      | Content => fun r => if r is Raise _ then true else false
      | QuerySelectorAll _ => fun r => if r is Raise _ then true else false
      | TextContent _ => fun r => if r is Raise _ then true else false
      | InnerHtml _ => fun r => if r is Raise _ then true else false
      | GetAttribute _ _ => fun r => if r is Raise _ then true else false
      | Start => fun r => if r is Raise _ then true else false
      | Launch _ => fun r => if r is Raise _ then true else false
      | NewContext _ _ => fun r => if r is Raise _ then true else false
      | NewPage => fun r => if r is Raise _ then true else false
      | SetDefaultTimeout _ => fun r => if r is Raise _ then true else false
      | Goto _ => fun r => if r is Raise _ then true else false
      | WaitForLoadState _ => fun r => if r is Raise _ then true else false
      | Fill _ _ => fun r => if r is Raise _ then true else false
      | Click _ => fun r => if r is Raise _ then true else false
      | Screenshot _ _ => fun r => if r is Raise _ then true else false
      | WaitForSelector _ _ => fun r => if r is Raise _ then true else false
      | ClosePage => fun r => if r is Raise _ then true else false
      | CloseContext => fun r => if r is Raise _ then true else false
      | CloseBrowser => fun r => if r is Raise _ then true else false
      | Stop => fun r => if r is Raise _ then true else false
      end r
  end.

Definition BHandler (W : Type) : Type := forall c : BrowserCall, W -> BrowserResp c * W.

(** The [fill] calls of a form, in the order of its items. *)
Definition fills (form_data : dict string PyVal) : list BrowserCall :=
  (fun item => Fill item.1 item.2) <$> form_data.

(** A browser that does whatever it is asked, and shows [current_url]. *)
Definition obliging (current_url : string) : BHandler unit :=
  fun c w =>
    (match c return BrowserResp c with
     | Url => current_url
     | Strftime _ => "20240101_000000"
     | Content => Ok "<html></html>"
     | QuerySelectorAll _ => Ok [0; 1]
     | TextContent _ => Ok (Some "Invite")
     | InnerHtml _ => Ok "<b>Invite</b>"
     | GetAttribute _ attr =>
         Ok (if bool_decide (attr = "id") then Some "invite"
             else if bool_decide (attr = "class") then Some ""
             else None)
     | Start => Ok tt
     | Launch _ => Ok tt
     | NewContext _ _ => Ok tt
     | NewPage => Ok tt
     | SetDefaultTimeout _ => Ok tt
     | Goto _ => Ok tt
     | WaitForLoadState _ => Ok tt
     | Fill _ _ => Ok tt
     | Click _ => Ok tt
     | Screenshot _ _ => Ok tt
     | WaitForSelector _ _ => Ok tt
     | ClosePage => Ok tt
     | CloseContext => Ok tt
     | CloseBrowser => Ok tt
     | Stop => Ok tt
     end, w).

(** The handler object once [initialize_browser] has succeeded. *)
Definition ready : Self :=
  {| playwright := true; browser := true; context := true; page := true |}.

(** The calls of a login that meets no failure. *)
Definition login_calls (config : Config.SaaSConfig) (username password : string)
    : list BrowserCall :=
  [Goto (Config.login_url config);
   WaitForLoadState "networkidle";
   Fill (Config.username_selector config) (PStr username);
   Fill (Config.password_selector config) (PStr password);
   Click (JVal (PStr (Config.login_button_selector config)));
   WaitForLoadState "networkidle";
   Url].

(** What [cleanup] has to close: the resources that are set, innermost
    first. *)
Definition closes (self : Self) : list BrowserCall :=
  ((if page self then [ClosePage] else [])
   ++ (if context self then [CloseContext] else [])
   ++ (if browser self then [CloseBrowser] else [])
   ++ (if playwright self then [Stop] else []))%list.

(** The calls of [initialize_browser], from the settings. *)
Definition startup_calls : list BrowserCall :=
  [Start; Launch true; NewContext 1920 1080; NewPage; SetDefaultTimeout 30000].

(** What an element answered to the six calls [find_elements] makes on
    it: its text, its inner HTML, and the values of the common attributes
    in their order. *)
Record Reading : Type := mkReading {
  read_text : option string;
  read_html : string;
  read_values : list (option string)
}.

(** The six calls on [element], with the answers of the reading. *)
Definition reading_calls (element : ElementHandle) (r : Reading)
    : list (FEvent BrowserCall BrowserResp) :=
  FEv (TextContent element) (Ok (read_text r))
  :: FEv (InnerHtml element) (Ok (read_html r))
  :: zip_with (fun attr value => FEv (GetAttribute element attr) (Ok value))
       common_attributes (read_values r).

(** The attributes with a value that is neither [None] nor empty, in the
    order of the calls. *)
Definition kept_attributes (attrs : list string)
    (values : list (option string)) : dict string string :=
  omap (fun item : string * option string =>
          match item.2 with
          | Some value =>
              if bool_decide (value = EmptyString) then None
              else Some (item.1, value)
          | None => None
          end) (zip attrs values).

(** The entry of the result for an element with that reading. *)
Definition reading_data (r : Reading) : ElementData :=
  {| text := read_text r;
     element_inner_html := read_html r;
     attributes := kept_attributes common_attributes (read_values r) |}.

End BrowserPredicates.

(** *** The scraping workflow *)

Section ScrapePredicates.
Import AIAgent SaaSAutomationOrchestrator.

Definition SHandler (W : Type) : Type :=
  forall c : ScrapeCall, W -> ScrapeResp c * W.



(** The chat answer that calls [extract_user_data] with [users]. *)
Definition users_answer (users : Json) : Exc ChatResponse :=
  Ok [ {| content := None;
          function_call := Some {|
            fc_name := "extract_user_data";
            arguments := Ok (JDict [("users", users)]) |} |} ].

(** Collaborators of a scrape that let the workflow through, with the
    given page content and chat answer. *)
Definition scrape_scripted (html_content : string)
    (chat_answer : Exc ChatResponse) : SHandler unit :=
  fun c w =>
    (match c return ScrapeResp c with
     | Base c =>
         match c return Resp c with
         | LoginToSaas _ _ _ => true
         | NavigateToUsersPage _ => true
         | ExtractPageContent => html_content
         | ClickElement _ => true
         | FillForm _ => true
         | Sleep _ => tt
         | ChatCompletion _ => chat_answer
         end
     | TakeScreenshot name => "./logs//" +:+ name +:+ ".png"
     | Isoformat => "2024-01-01T00:00:00"
     end, w).

End ScrapePredicates.

(** ** Symbolic execution of workflows *)

Import AIAgent.
Import SaaSAutomationOrchestrator.

(** Unfold the workflow up to its next call. *)
Ltac run_cbn :=
  cbn [run_from mbind mret prog_bind prog_ret prog_bind_def try_except
       call lift click_element extract_page_content fill_form sleep
       chat_completion login_to_saas navigate_to_users_page
       fst snd negb app].

(** Name the answer of the handler to the next call, or use the
    hypothesis that gives it. *)
Ltac run_step h :=
  run_cbn;
  lazymatch goal with
  | H : h ?c ?w = _ |- context [h ?c ?w] => rewrite H
  | |- context [h ?c ?w] =>
      let r := fresh "answer" in
      let w' := fresh "w" in
      destruct (h c w) as [r w'] eqn:?
  end;
  run_cbn.

(** Follow every path of a workflow: the answers of the handler and the
    outcomes of the steps that may raise. *)
Ltac run_paths h :=
  repeat first
    [ progress run_cbn
    | lazymatch goal with
      | |- context [h ?c ?w] =>
          let r := fresh "answer" in
          let w' := fresh "w" in
          destruct (h c w) as [r w'] eqn:?
      end
    | match goal with
      | |- context [find_ui_elements_result ?r] =>
          is_var r;
          let e := fresh "elements" in
          destruct (find_ui_elements_result r) as [e|?] eqn:?
      | |- context [validate_action_success_result ?r] =>
          is_var r;
          destruct (validate_action_success_result r) as [?|?] eqn:?
      | |- context [has_primary_selector ?e] =>
          destruct (has_primary_selector e) as [[|]|?] eqn:?
      | |- context [py_getitem ?e ?k] =>
          let s := fresh "selector" in
          destruct (py_getitem e k) as [s|?] eqn:?
      | |- context [if negb ?b then _ else _] => is_var b; destruct b
      | |- context [if ?b then _ else _] => is_var b; destruct b
      end ].

(** Replace each answer of the oracle by what the path says of it;
    [spec] relates the selector an answer proposes to the path. *)
Ltac use_answers spec :=
  rewrite ?spec;
  repeat match goal with
         | H : find_ui_elements_result _ = _ |- _ => rewrite ?H; clear H
         end;
  repeat match goal with
         | H : has_primary_selector _ = _ |- _ =>
             first [ discriminate H | rewrite ?H; clear H ]
         end;
  repeat match goal with
         | H : py_getitem _ _ = _ |- _ => rewrite ?H; clear H
         end.

(** Close the description of the steps on a path. *)
Ltac close_steps :=
  repeat match goal with
         | u : Resp (Sleep _) |- _ => destruct u
         end;
  repeat match goal with
         | |- True => exact I
         | |- _ /\ _ => split
         | |- exists _, _ => eexists
         | |- _ -> _ => intros ?
         | |- _ \/ _ =>
             first [ left; solve [close_steps] | right; solve [close_steps] ]
         | |- _ => first [ reflexivity | discriminate | done ]
         end.

(** The same for the methods of the browser handler. *)
Ltac brun_cbn :=
  cbn [free_run free_run_from free_bind free_try mbind mret free_mbind free_ret
       BrowserAutomationHandler.attempt BrowserAutomationHandler.on_page
       BrowserAutomationHandler.goto
       BrowserAutomationHandler.wait_for_load_state
       BrowserAutomationHandler.fill BrowserAutomationHandler.click
       BrowserAutomationHandler.url BrowserAutomationHandler.content
       BrowserAutomationHandler.screenshot
       BrowserAutomationHandler.wait_for_selector
       BrowserAutomationHandler.query_selector_all
       BrowserAutomationHandler.text_content
       BrowserAutomationHandler.inner_html
       BrowserAutomationHandler.get_attribute
       BrowserAutomationHandler.strftime
       BrowserAutomationHandler.take_screenshot
       BrowserAutomationHandler.login_to_saas
       BrowserAutomationHandler.navigate_to_users_page
       BrowserAutomationHandler.extract_page_content
       BrowserAutomationHandler.click_element
       BrowserAutomationHandler.wait_for_element
       BrowserAutomationHandler.cleanup
       BrowserAutomationHandler.initialize_browser
       BrowserAutomationHandler.playwright BrowserAutomationHandler.browser
       BrowserAutomationHandler.context BrowserAutomationHandler.page
       fst snd app negb].

Ltac brun_paths h :=
  repeat first
    [ progress brun_cbn
    | lazymatch goal with
      | |- context [h ?c ?w] =>
          let r := fresh "answer" in
          let w' := fresh "w" in
          destruct (h c w) as [r w'] eqn:?;
          let T := eval cbn in (BrowserAutomationHandler.BrowserResp c) in
          lazymatch T with
          | Exc _ => destruct r as [?|?]
          | _ => idtac
          end
      end
    | match goal with
      | |- context [if negb ?b then _ else _] => destruct b eqn:?
      end ].



(** ** Examples *)

Example strip_example : PyStr.strip "  a b  " = "a b".
Proof. reflexivity. Qed.

Example split_example : PyStr.split "  ab   c d " = ["ab"; "c"; "d"].
Proof. reflexivity. Qed.

Example upper_example : PyStr.upper "Success!" = "SUCCESS!".
Proof. reflexivity. Qed.

Example clean_text_example :
  clean_text (PStr ("  John" +:+ nl +:+ "  Doe ")) = Some "John Doe".
Proof. reflexivity. Qed.

Example clean_text_int : clean_text (PInt (-12)) = Some "-12".
Proof. reflexivity. Qed.

Example path_join_example :
  path_join "./scraped_data/" "dropbox_users.json"
  = "./scraped_data/dropbox_users.json".
Proof. reflexivity. Qed.

(** Three rows with distinct emails and one malformed row, whose email has
    no at sign, give exactly three records, in the order of the rows. *)
Example process_raw_user_data_example :
  email <$> process_raw_user_data "2024-01-15T10:00:00"
    [ [("name", PStr "John Doe"); ("email", PStr "john.doe@example.com");
       ("role", PStr "Admin"); ("status", PStr "Active")];
      [("name", PStr "Broken Row"); ("email", PStr "not-an-email")];
      [("name", PStr "Jane Smith"); ("email", PStr "jane.smith@example.com")];
      [("name", PStr "Bob Wilson"); ("email", PStr " bob.wilson@example.com ");
       ("status", PNone)] ]
    "Demo SaaS"
  = [Some "john.doe@example.com"; Some "jane.smith@example.com";
     Some "bob.wilson@example.com"].
Proof. reflexivity. Qed.

(** The remove workflow stops after the row click when no delete control
    is found. *)
Example deprovision_user_no_delete_button :
  let row := elements_answer (JDict [("primary_selector", JVal (PStr "#row"))]) in
  let h := scripted [true] true [row; elements_answer (JDict [])] in
  result_of h (deprovision_user "notion" [] "a@x.com") (0, 0) = Ok false /\
  click_answers (trace_of h (deprovision_user "notion" [] "a@x.com") (0, 0))
  = [true] /\
  existsb is_validation
    (trace_of h (deprovision_user "notion" [] "a@x.com") (0, 0)) = false.
Proof. vm_compute. split_and!; reflexivity. Qed.

(** An unknown portal fails before any call. *)
Example provision_user_unknown_portal :
  run (scripted [] true []) (provision_user "slack" [] []) (0, 0)
  = (Ok false, [], (0, 0)).
Proof. reflexivity. Qed.

(** ** Strings *)

Section StringFacts.

Lemma contains_at_cons c t :
  PyStr.contains "@" (String c t)
  = bool_decide (c = "@"%char) || PyStr.contains "@" t.
Proof.
  cbn [PyStr.contains String.prefix]. destruct (ascii_dec "@" c) as [<-|Hne].
  - rewrite bool_decide_eq_true_2 by done. by destruct t.
  - rewrite bool_decide_eq_false_2 by congruence. done.
Qed.

Lemma contains_at_nil : PyStr.contains "@" EmptyString = false.
Proof. reflexivity. Qed.

Lemma contains_at_lstrip s :
  PyStr.contains "@" (PyStr.lstrip s) = true -> PyStr.contains "@" s = true.
Proof.
  induction s as [|c t IH]; [done|].
  cbn [PyStr.lstrip]. destruct (PyStr.is_space c); [|done].
  intros H. rewrite contains_at_cons, (IH H). apply orb_true_r.
Qed.

Lemma contains_at_rstrip s :
  PyStr.contains "@" (PyStr.rstrip s) = true -> PyStr.contains "@" s = true.
Proof.
  induction s as [|c t IH]; [done|].
  cbn [PyStr.rstrip]. destruct (PyStr.rstrip t) as [|d t'] eqn:Ht.
  - destruct (PyStr.is_space c); [done|].
    rewrite !contains_at_cons, contains_at_nil, orb_false_r.
    intros ->. done.
  - rewrite !(contains_at_cons c). intros [->| H]%orb_true_iff; [done|].
    rewrite (IH H). apply orb_true_r.
Qed.

Lemma contains_at_strip s :
  PyStr.contains "@" s = false -> PyStr.contains "@" (PyStr.strip s) = false.
Proof.
  intros Hs. destruct (PyStr.contains "@" (PyStr.strip s)) eqn:H; [|done].
  apply contains_at_rstrip, contains_at_lstrip in H. congruence.
Qed.

Lemma endswith_refl s : PyStr.endswith s s = true.
Proof. destruct s; cbn [PyStr.endswith]; by rewrite bool_decide_eq_true_2. Qed.

Lemma endswith_app a b suffix :
  PyStr.endswith b suffix = true -> PyStr.endswith (a +:+ b) suffix = true.
Proof.
  intros H. induction a as [|c a IH]; [done|].
  change (String c a +:+ b) with (String c (a +:+ b)).
  cbn [PyStr.endswith]. rewrite IH. apply orb_true_r.
Qed.

End StringFacts.

(** ** The extraction pipeline *)

Section Extraction.

Variables current_time saas_name : string.

Lemma process_raw_user_data_app l1 l2 :
  process_raw_user_data current_time (l1 ++ l2)%list saas_name
  = (process_raw_user_data current_time l1 saas_name
     ++ process_raw_user_data current_time l2 saas_name)%list.
Proof.
  induction l1 as [|u l1 IH]; [done|]. simpl.
  destruct (process_user current_time saas_name u) as [[r|]|e]; simpl;
    by rewrite IH.
Qed.

Lemma process_user_valid u r :
  process_user current_time saas_name u = Ok (Some r) -> valid_email r.
Proof.
  unfold process_user.
  destruct (py_strip _) as [e|err]; simpl; [|done].
  destruct (bool_decide (e = "")) eqn:He; simpl; [done|].
  destruct (PyStr.contains "@" e) eqn:Hat; simpl; [|done].
  intros [= <-]. exists e. simpl. split_and!; [done| |done].
  by apply bool_decide_eq_false in He.
Qed.

Lemma process_user_invalid u :
  email_missing_or_invalid u ->
  process_user current_time saas_name u = Ok None.
Proof.
  unfold process_user, dict_get_default.
  intros [-> | [-> | (s & -> & Hs)]]; simpl; [done..|].
  rewrite (contains_at_strip _ Hs). by rewrite orb_true_r.
Qed.

End Extraction.

(** C1.  Every record returned by [process_raw_user_data] has a non-empty
    email that contains an at sign, and a raw entry whose email is missing,
    empty or without an at sign contributes no record: the output is the
    output on the entries before it followed by the output on the entries
    after it. *)
Theorem process_raw_user_data_valid_emails
    (current_time saas_name : string) (raw_users : list (dict string PyVal)) :
  Forall valid_email (process_raw_user_data current_time raw_users saas_name) /\
  forall before user_data after,
    raw_users = (before ++ user_data :: after)%list ->
    email_missing_or_invalid user_data ->
    process_raw_user_data current_time raw_users saas_name
    = (process_raw_user_data current_time before saas_name
       ++ process_raw_user_data current_time after saas_name)%list.
Proof.
  split.
  - induction raw_users as [|u l IH]; simpl; [constructor|].
    destruct (process_user current_time saas_name u) as [[r|]|e] eqn:Hu;
      [|done..].
    constructor; [|done]. eapply process_user_valid, Hu.
  - intros before u after -> Hu.
    rewrite process_raw_user_data_app. f_equal. simpl.
    by rewrite (process_user_invalid _ _ _ Hu).
Qed.

Lemma process_raw_user_data_valid_emails_witness :
  let good := [("name", PStr "John Doe"); ("email", PStr "john.doe@example.com")] in
  let bad := [("name", PStr "Bob Wilson"); ("email", PStr "bob.wilson")] in
  Forall valid_email
    (process_raw_user_data "2024-01-15T10:00:00" [good; bad; good] "Demo SaaS") /\
  process_raw_user_data "2024-01-15T10:00:00" [good; bad; good] "Demo SaaS"
  = (process_raw_user_data "2024-01-15T10:00:00" [good] "Demo SaaS"
     ++ process_raw_user_data "2024-01-15T10:00:00" [good] "Demo SaaS")%list.
Proof.
  intros good bad.
  destruct (process_raw_user_data_valid_emails "2024-01-15T10:00:00"
              "Demo SaaS" [good; bad; good]) as [Hvalid Hdrop].
  split; [exact Hvalid|].
  apply (Hdrop [good] bad [good]).
  - reflexivity.
  - right. right. exists "bob.wilson". split; reflexivity.
Defined.

(** C9.  For a raw entry with a valid email, the record's status is
    ["Unknown"] when the entry has no [status] key, and absent when the key
    is there with the value [None], the empty string or ["null"]; a missing
    [name], [role] or [last_login] is absent, with no default. *)
Theorem status_defaults_to_unknown
    (current_time saas_name : string) (user_data : dict string PyVal)
    (e : string) :
  dict_get "email" user_data = Some (PStr e) ->
  PyStr.strip e <> EmptyString ->
  PyStr.contains "@" (PyStr.strip e) = true ->
  exists r,
    process_raw_user_data current_time [user_data] saas_name = [r] /\
    (dict_get "status" user_data = None -> status r = Some "Unknown") /\
    (forall v, dict_get "status" user_data = Some v ->
               v = PNone \/ v = PStr EmptyString \/ v = PStr "null" ->
               status r = None) /\
    (dict_get "name" user_data = None -> name r = None) /\
    (dict_get "role" user_data = None -> role r = None) /\
    (dict_get "last_login" user_data = None -> last_login r = None).
Proof.
  intros He Hne Hat. eexists.
  cbn [process_raw_user_data]. unfold process_user.
  unfold dict_get_default. rewrite He. cbn [py_strip mbind exc_bind].
  rewrite bool_decide_eq_false_2, Hat by done. cbn [orb negb].
  split; [reflexivity|]. cbn [status name role last_login]. split_and!.
  - by intros ->.
  - intros v -> [->|[->| ->]]; reflexivity.
  - by intros ->.
  - by intros ->.
  - by intros ->.
Qed.

Lemma status_defaults_to_unknown_witness :
  exists r,
    process_raw_user_data "2024-01-15T10:00:00"
      [[("email", PStr " john.doe@example.com "); ("name", PStr "John Doe")]]
      "Demo SaaS" = [r] /\
    status r = Some "Unknown" /\ role r = None.
Proof.
  destruct (status_defaults_to_unknown "2024-01-15T10:00:00" "Demo SaaS"
              [("email", PStr " john.doe@example.com "); ("name", PStr "John Doe")]
              " john.doe@example.com ")
    as (r & Hr & Hstatus & _ & _ & Hrole & _).
  - reflexivity.
  - vm_compute. discriminate.
  - vm_compute. reflexivity.
  - exists r. split; [exact Hr|]. split; [apply Hstatus|apply Hrole]; reflexivity.
Defined.

(** C4, at the input of a padded ["null"]: the first cleaning yields the
    string ["null"], the second one yields [None], so [clean_text] is not
    idempotent there. *)
Theorem clean_text_padded_null :
  clean_text (PStr " null") = Some "null" /\
  clean_text_twice (PStr " null") = None /\
  clean_text_twice (PStr " null") <> clean_text (PStr " null").
Proof. vm_compute. split_and!; [reflexivity..|discriminate]. Qed.

Lemma lstrip_spaces s :
  forallb PyStr.is_space (String.list_ascii_of_string s) = true ->
  PyStr.lstrip s = EmptyString.
Proof.
  induction s as [|c t IH]; [done|]. cbn [String.list_ascii_of_string forallb PyStr.lstrip].
  intros [-> Ht]%andb_true_iff. auto.
Qed.

(** The part of C4 on absence: the empty string, the literal ["null"] and a
    string of whitespace only are cleaned to [None]. *)
Lemma clean_text_absent s :
  s = EmptyString \/ s = "null" \/
  forallb PyStr.is_space (String.list_ascii_of_string s) = true ->
  clean_text (PStr s) = None.
Proof.
  intros [->|[->|Hs]]; [reflexivity..|].
  unfold clean_text. destruct (py_eq_str _ _ || py_eq_str _ _); [done|].
  unfold PyStr.strip. rewrite (lstrip_spaces _ Hs). reflexivity.
Qed.

(** ** Idempotence of [clean_text] away from ["null"] *)

Section CleanText.

Lemma is_word_cons c t :
  is_word (String c t) <-> PyStr.is_space c = false /\ no_space t = true.
Proof.
  unfold is_word. cbn [no_space]. rewrite andb_true_iff, negb_true_iff.
  split; [by intros [_ ?]|by intros ?].
Qed.

Lemma split_words s : Forall is_word (PyStr.split s).
Proof.
  induction s as [|c t IH]; [constructor|]. cbn [PyStr.split].
  destruct (PyStr.is_space c) eqn:Hc; [done|].
  destruct t as [|d t'].
  - constructor; [by apply is_word_cons|constructor].
  - destruct (PyStr.is_space d) eqn:Hd.
    + constructor; [by apply is_word_cons|done].
    + destruct (PyStr.split (String d t')) as [|w ws].
      * constructor; [by apply is_word_cons|constructor].
      * apply Forall_cons in IH as [[_ Hw] Hws].
        constructor; [by apply is_word_cons|done].
Qed.

Lemma split_word_space w t :
  is_word w -> PyStr.split (w +:+ String " " t) = w :: PyStr.split t.
Proof.
  induction w as [|c w IH]; [by intros [? _]|].
  intros [Hc Hw]%is_word_cons.
  change (String c w +:+ String " " t) with (String c (w +:+ String " " t)).
  cbn [PyStr.split]. rewrite Hc. destruct w as [|d w'].
  - reflexivity.
  - change (String d w' +:+ String " " t)
      with (String d (w' +:+ String " " t)) in *.
    assert (is_word (String d w')) as Hdw by done.
    apply is_word_cons in Hdw as Hd. destruct Hd as [Hd _].
    rewrite Hd. by rewrite (IH Hdw).
Qed.

Lemma split_word w : is_word w -> PyStr.split w = [w].
Proof.
  induction w as [|c w IH]; [by intros [? _]|].
  intros [Hc Hw]%is_word_cons. cbn [PyStr.split]. rewrite Hc.
  destruct w as [|d w']; [done|].
  assert (is_word (String d w')) as Hdw by done.
  apply is_word_cons in Hdw as Hd. destruct Hd as [Hd _].
  rewrite Hd. by rewrite (IH Hdw).
Qed.

Lemma join_cons2 w w' ws :
  PyStr.join " " (w :: w' :: ws) = w +:+ String " " (PyStr.join " " (w' :: ws)).
Proof. reflexivity. Qed.

Lemma split_join ws :
  Forall is_word ws -> PyStr.split (PyStr.join " " ws) = ws.
Proof.
  induction 1 as [|w ws Hw Hws IH]; [done|].
  destruct ws as [|w' ws]; [by apply split_word|].
  by rewrite join_cons2, split_word_space, IH.
Qed.

Lemma join_nonempty w ws :
  is_word w -> PyStr.join " " (w :: ws) <> EmptyString.
Proof.
  intros [Hw _]. destruct ws as [|w' ws]; [done|].
  rewrite join_cons2. by destruct w.
Qed.

Lemma lstrip_join w ws :
  is_word w -> PyStr.lstrip (PyStr.join " " (w :: ws)) = PyStr.join " " (w :: ws).
Proof.
  destruct w as [|c w]; [by intros [? _]|]. intros [Hc _]%is_word_cons.
  destruct ws as [|w' ws].
  - cbn [PyStr.join String.concat PyStr.lstrip]. by rewrite Hc.
  - rewrite join_cons2.
    change (String c w +:+ ?t) with (String c (w +:+ t)).
    cbn [PyStr.lstrip]. by rewrite Hc.
Qed.

Lemma rstrip_word w : is_word w -> PyStr.rstrip w = w.
Proof.
  induction w as [|c w IH]; [by intros [? _]|].
  intros [Hc Hw]%is_word_cons. cbn [PyStr.rstrip].
  destruct w as [|d w']; [by rewrite Hc|].
  by rewrite IH.
Qed.

Lemma rstrip_app a b :
  b <> EmptyString -> PyStr.rstrip b = b -> PyStr.rstrip (a +:+ b) = a +:+ b.
Proof.
  intros Hb Hr. induction a as [|c a IH]; [done|].
  change (String c a +:+ b) with (String c (a +:+ b)).
  cbn [PyStr.rstrip]. rewrite IH.
  destruct (a +:+ b) eqn:Hab; [|done]. by destruct a, b.
Qed.

Lemma rstrip_join ws :
  Forall is_word ws -> PyStr.rstrip (PyStr.join " " ws) = PyStr.join " " ws.
Proof.
  induction 1 as [|w ws Hw Hws IH]; [done|].
  destruct ws as [|w' ws]; [by apply rstrip_word|].
  rewrite join_cons2. apply rstrip_app; [done|].
  cbn [PyStr.rstrip]. rewrite IH.
  apply Forall_cons in Hws as [Hw' _].
  by destruct (PyStr.join " " (w' :: ws)) eqn:Hj;
    [apply join_nonempty in Hj|].
Qed.

Lemma replace_absent old new s :
  has_char old s = false -> PyStr.replace old new s = s.
Proof.
  induction s as [|c t IH]; [done|]. cbn [has_char PyStr.replace].
  intros [Hc Ht]%orb_false_iff. by rewrite Hc, IH.
Qed.

Lemma has_char_app c a b :
  has_char c (a +:+ b) = has_char c a || has_char c b.
Proof.
  induction a as [|d a IH]; [done|].
  change (String d a +:+ b) with (String d (a +:+ b)).
  cbn [has_char]. by rewrite IH, orb_assoc.
Qed.

Lemma has_char_word old w :
  PyStr.is_space old = true -> no_space w = true -> has_char old w = false.
Proof.
  intros Hold. induction w as [|c w IH]; [done|]. cbn [no_space has_char].
  intros [Hc Hw]%andb_true_iff. rewrite IH, orb_false_r by done.
  apply bool_decide_eq_false. intros ->. by rewrite Hold in Hc.
Qed.

Lemma has_char_join old ws :
  PyStr.is_space old = true -> old <> " "%char -> Forall is_word ws ->
  has_char old (PyStr.join " " ws) = false.
Proof.
  intros Hold Hne. induction 1 as [|w ws [_ Hw] Hws IH]; [done|].
  destruct ws as [|w' ws]; [by apply has_char_word|].
  rewrite join_cons2, has_char_app. cbn [has_char].
  rewrite IH, (has_char_word old w), orb_false_r by done.
  by apply bool_decide_eq_false.
Qed.

(** A string of words separated by single spaces is a fixed point of the
    cleaning, unless it is the string ["null"]. *)
Lemma clean_text_words ws :
  Forall is_word ws -> ws <> [] -> PyStr.join " " ws <> "null" ->
  clean_text (PStr (PyStr.join " " ws)) = Some (PyStr.join " " ws).
Proof.
  intros Hws Hne Hnull. destruct ws as [|w ws]; [done|].
  apply Forall_cons in Hws as Hw. destruct Hw as [Hw _].
  pose proof (join_nonempty w ws Hw) as Hj.
  unfold clean_text, py_eq_str.
  rewrite !bool_decide_eq_false_2 by done. cbn [orb].
  unfold PyStr.strip. rewrite lstrip_join, rstrip_join by done.
  rewrite (replace_absent "010"%char) by (by apply has_char_join).
  rewrite (replace_absent "009"%char) by (by apply has_char_join).
  rewrite split_join by done. by rewrite bool_decide_eq_false_2.
Qed.

Lemma no_space_uint d : no_space (NilEmpty.string_of_uint d) = true.
Proof. induction d; cbn [NilEmpty.string_of_uint no_space]; by rewrite ?IHd. Qed.

Lemma is_word_int z : is_word (NilZero.string_of_int (Z.to_int z)).
Proof.
  unfold NilZero.string_of_int, NilZero.string_of_uint.
  destruct (Z.to_int z) as [d|d]; destruct d; split; try done;
    cbn [no_space NilEmpty.string_of_uint]; by rewrite ?no_space_uint.
Qed.

(** [clean_text] is idempotent on every input whose cleaning is not the
    string ["null"]. *)
Lemma clean_text_idempotent_but_null x :
  clean_text x <> Some "null" -> clean_text_twice x = clean_text x.
Proof.
  unfold clean_text_twice. intros Hnull.
  destruct (clean_text x) as [s|] eqn:Hx; [|done]. cbn [py_of_option].
  assert (exists ws, Forall is_word ws /\ ws <> [] /\ s = PyStr.join " " ws)
    as (ws & Hws & Hne & ->).
  { destruct x as [|[|]|z|t]; try done.
    - vm_compute in Hx. injection Hx as <-. exists ["True"].
      split; [|done]. constructor; [by split|constructor].
    - vm_compute in Hx. injection Hx as <-. exists ["False"].
      split; [|done]. constructor; [by split|constructor].
    - unfold clean_text in Hx. cbn [py_eq_str orb py_str] in Hx.
      pose proof (is_word_int z) as Hw.
      unfold PyStr.strip in Hx.
      pose proof (lstrip_join _ [] Hw) as Hl.
      cbn [PyStr.join String.concat] in Hl.
      rewrite Hl, (rstrip_word _ Hw) in Hx.
      case_bool_decide; [done|]. injection Hx as <-.
      exists [NilZero.string_of_int (Z.to_int z)].
      split; [|done]. constructor; [done|constructor].
    - unfold clean_text in Hx. destruct (_ || _); [done|].
      case_bool_decide as Hempty; [done|]. injection Hx as <-.
      eexists. split; [apply split_words|]. split; [|done].
      intros Hnil. by rewrite Hnil in Hempty. }
  apply clean_text_words; [done..|]. intros Heq. by rewrite Heq in Hnull.
Qed.

End CleanText.

(** ** The data sink *)

Section JsonRoundTrip.

Lemma field_of_json_of_field v : field_of_json (json_of_field v) = Ok v.
Proof. by destruct v. Qed.

Lemma UserRecord_of_kwargs_asdict r : UserRecord_of_kwargs (asdict r) = Ok r.
Proof. by destruct r. Qed.

Lemma UserRecord_of_json_asdict r :
  UserRecord_of_json (JDict (prod_map id json_of_field <$> asdict r)) = Ok r.
Proof.
  unfold UserRecord_of_json, asdict.
  cbn [fmap list_fmap prod_map fst snd id mapM mbind mret exc_bind exc_ret].
  rewrite !field_of_json_of_field.
  cbn [fmap list_fmap prod_map fst snd id mapM mbind mret exc_bind exc_ret].
  apply UserRecord_of_kwargs_asdict.
Qed.

Lemma mapM_UserRecord_of_json users :
  mapM UserRecord_of_json
    ((fun d => JDict (prod_map id json_of_field <$> d)) <$> (asdict <$> users))
  = Ok users.
Proof.
  induction users as [|r users IH]; [done|].
  cbn [fmap list_fmap mapM]. rewrite UserRecord_of_json_asdict.
  cbn [mbind exc_bind]. cbn [fmap] in IH. rewrite IH. done.
Qed.

Lemma path_join_endswith output_dir filename suffix :
  PyStr.endswith filename suffix = true ->
  PyStr.endswith (path_join output_dir filename) suffix = true.
Proof.
  intros H. unfold path_join.
  destruct (PyStr.startswith _ _); [done|].
  destruct (_ || _); repeat apply endswith_app; done.
Qed.

End JsonRoundTrip.

(** C5, as stated, fails: the loader picks the format from the file name.
    Records saved under a name that does not end in [.json] are written,
    and loading the file that was written gives the empty list. *)
Lemma save_then_load_other_name :
  let users := [
    {| email := Some "john.doe@example.com"; name := Some "John Doe";
       role := None; last_login := None; status := Some "Active";
       extracted_at := Some "2024-01-15T10:00:00";
       source_saas := Some "Demo SaaS" |} ] in
  let saved :=
    save_to_json "./scraped_data/" "20240115_100000" "2024-01-15T10:00:00"
      users (Some "backup.txt") Written ∅ in
  saved.1 = "./scraped_data/backup.txt" /\
  (exists doc, saved.2 !! saved.1 = Some (JsonFile doc)) /\
  load_existing_data saved.2 saved.1 = [] /\
  load_existing_data saved.2 saved.1 <> users.
Proof.
  cbv zeta. split; [reflexivity|]. split.
  - eexists. unfold save_to_json. cbn [fst snd]. apply lookup_insert_eq.
  - split; [reflexivity|]. unfold load_existing_data.
    change (PyStr.endswith _ ".json") with false.
    change (PyStr.endswith _ ".csv") with false. done.
Qed.

(** C5, amended.  When [save_to_json] writes the file, under the default
    name or under a name that ends in [.json], loading the file it names
    with [load_existing_data] gives the same list, field for field: an
    absent field is stored as the JSON null and read back as absent. *)
Theorem save_then_load_json
    (output_dir stamp now : string) (users : list UserRecord)
    (filename : option string) (fs : gmap string File) :
  (forall f, filename = Some f -> PyStr.endswith f ".json" = true) ->
  load_existing_data
    (save_to_json output_dir stamp now users filename Written fs).2
    (save_to_json output_dir stamp now users filename Written fs).1
  = users.
Proof.
  intros Hname. unfold save_to_json. cbn [fst snd].
  set (file := match filename with
               | Some f => f
               | None => "users_data_" +:+ stamp +:+ ".json"
               end).
  assert (PyStr.endswith (path_join output_dir file) ".json" = true) as Hjson.
  { apply path_join_endswith. subst file. destruct filename as [f|]; [auto|].
    repeat apply endswith_app. reflexivity. }
  unfold load_existing_data. rewrite Hjson.
  unfold load_json. rewrite lookup_insert_eq.
  unfold dict_get_default. cbn [dict_get].
  rewrite bool_decide_eq_false_2, bool_decide_eq_true_2 by done.
  cbn [py_iter mbind exc_bind].
  by rewrite mapM_UserRecord_of_json.
Qed.

Lemma save_then_load_json_witness :
  let users := [
    {| email := Some "john.doe@example.com"; name := Some "John Doe";
       role := None; last_login := None; status := Some "Active";
       extracted_at := Some "2024-01-15T10:00:00";
       source_saas := Some "Demo SaaS" |} ] in
  load_existing_data
    (save_to_json "./scraped_data/" "20240115_100000" "2024-01-15T10:00:00"
       users (Some "dropbox_users.json") Written ∅).2
    "./scraped_data/dropbox_users.json"
  = users.
Proof.
  intros users.
  apply (save_then_load_json "./scraped_data/" "20240115_100000"
           "2024-01-15T10:00:00" users (Some "dropbox_users.json") ∅).
  intros f [= <-]. reflexivity.
Defined.

(** When the write fails, [save_to_json] answers the empty string and
    there is nothing to load. *)
Example save_to_json_refused :
  let users := [
    {| email := Some "john.doe@example.com"; name := Some "John Doe";
       role := None; last_login := None; status := Some "Active";
       extracted_at := Some "2024-01-15T10:00:00";
       source_saas := Some "Demo SaaS" |} ] in
  let saved :=
    save_to_json "./scraped_data/" "20240115_100000" "2024-01-15T10:00:00"
      users None Refused ∅ in
  saved.1 = EmptyString /\
  saved.2 = ∅ /\
  load_existing_data saved.2 "./scraped_data/users_data_20240115_100000.json"
  = [].
Proof. done. Qed.

Section Compare.

Lemma elem_of_email_set (dataset : list UserRecord) (e : option string) :
  e ∈ email_set dataset <-> e ∈ email <$> dataset.
Proof. unfold email_set. by rewrite elem_of_list_to_set. Qed.

Lemma email_set_ext (d d' : list UserRecord) :
  (forall e : option string, e ∈ email <$> d <-> e ∈ email <$> d') ->
  email_set d = email_set d'.
Proof.
  intros H. apply set_eq. intros e. by rewrite !elem_of_email_set.
Qed.

End Compare.

(** C8.  For datasets whose email sets are {a@x.com, b@x.com} and
    {b@x.com, c@x.com}, [compare_datasets] reports c@x.com as added,
    a@x.com as removed and one common user.  In general the added users
    are the emails of the second dataset that are not in the first, the
    removed users the emails of the first that are not in the second, each
    listed once, in whatever order the sets come out as lists; and the
    comparison depends only on the sets of emails: a repeated email counts
    once. *)
Theorem compare_datasets_by_email (added_order removed_order : SetOrder)
    (now : string) :
  let compare := compare_datasets added_order removed_order now in
  (forall A B : list UserRecord,
     email_set A = {[ Some "a@x.com"; Some "b@x.com" ]} ->
     email_set B = {[ Some "b@x.com"; Some "c@x.com" ]} ->
     added_users (compare A B) = [Some "c@x.com"] /\
     removed_users (compare A B) = [Some "a@x.com"] /\
     common_users_count (compare A B) = 1) /\
  (forall (d1 d2 : list UserRecord) (e : option string),
     (e ∈ added_users (compare d1 d2)
        <-> e ∈ email <$> d2 /\ e ∉ email <$> d1) /\
     (e ∈ removed_users (compare d1 d2)
        <-> e ∈ email <$> d1 /\ e ∉ email <$> d2)) /\
  (forall d1 d2 : list UserRecord,
     NoDup (added_users (compare d1 d2)) /\
     NoDup (removed_users (compare d1 d2)) /\
     added_users (compare d1 d2) ≡ₚ removed_users (compare d2 d1)) /\
  (forall d1 d1' d2 d2' : list UserRecord,
     (forall e : option string, e ∈ email <$> d1 <-> e ∈ email <$> d1') ->
     (forall e : option string, e ∈ email <$> d2 <-> e ∈ email <$> d2') ->
     (forall e, e ∈ added_users (compare d1 d2)
                <-> e ∈ added_users (compare d1' d2')) /\
     (forall e, e ∈ removed_users (compare d1 d2)
                <-> e ∈ removed_users (compare d1' d2')) /\
     length (added_users (compare d1 d2))
       = length (added_users (compare d1' d2')) /\
     length (removed_users (compare d1 d2))
       = length (removed_users (compare d1' d2')) /\
     common_users_count (compare d1 d2)
       = common_users_count (compare d1' d2')).
Proof.
  intros compare. subst compare. split_and!.
  - intros A B HA HB. unfold compare_datasets.
    cbn [added_users removed_users common_users_count]. rewrite HA, HB.
    split_and!.
    + apply Permutation_singleton_r. rewrite listing_elements.
      vm_compute. reflexivity.
    + apply Permutation_singleton_r. rewrite listing_elements.
      vm_compute. reflexivity.
    + vm_compute. reflexivity.
  - intros d1 d2 e. unfold compare_datasets. cbn [added_users removed_users].
    rewrite !listing_elements.
    rewrite !elem_of_elements, !elem_of_difference, !elem_of_email_set. done.
  - intros d1 d2. unfold compare_datasets. cbn [added_users removed_users].
    rewrite !listing_elements. split_and!; [apply NoDup_elements..|done].
  - intros d1 d1' d2 d2' H1 H2. unfold compare_datasets.
    cbn [added_users removed_users common_users_count].
    by rewrite (email_set_ext _ _ H1), (email_set_ext _ _ H2).
Qed.

Lemma compare_datasets_by_email_witness :
  let A := [user_with_email "a@x.com"; user_with_email "b@x.com";
            user_with_email "a@x.com"] in
  let B := [user_with_email "b@x.com"; user_with_email "c@x.com"] in
  let c := compare_datasets reverse_order sorted_order "2024-01-15" A B in
  added_users c = [Some "c@x.com"] /\
  removed_users c = [Some "a@x.com"] /\
  common_users_count c = 1.
Proof.
  intros A B.
  apply (proj1 (compare_datasets_by_email reverse_order sorted_order
                  "2024-01-15") A B).
  - vm_compute. reflexivity.
  - vm_compute. reflexivity.
Defined.

Section DictFacts.
Context {K V : Type} `{EqDecision K}.

Lemma dict_set_fresh (k : K) (v : V) (d : dict K V) :
  k ∉ d.*1 -> dict_set k v d = (d ++ [(k, v)])%list.
Proof.
  induction d as [|[k' v'] d IH]; [done|].
  cbn [fmap list_fmap fst dict_set]. intros [Hne Hnin]%not_elem_of_cons.
  rewrite bool_decide_eq_false_2 by congruence. cbn [app]. f_equal. auto.
Qed.

Lemma fold_dict_set_fresh (items acc : dict K V) :
  NoDup (acc.*1 ++ items.*1)%list ->
  fold_left (fun d kv => dict_set kv.1 kv.2 d) items acc = (acc ++ items)%list.
Proof.
  revert acc. induction items as [|[k v] items IH]; intros acc Hnd.
  - by rewrite app_nil_r.
  - cbn [fold_left fst snd]. cbn [fmap list_fmap fst] in Hnd.
    rewrite dict_set_fresh.
    + rewrite IH.
      * by rewrite <- app_assoc.
      * rewrite fmap_app. cbn [fmap list_fmap fst].
        by rewrite <- app_assoc.
    + apply NoDup_app in Hnd as (_ & Hdisj & _). intros Hin.
      apply (Hdisj k Hin). left.
Qed.

Lemma dict_of_items_NoDup (items : dict K V) :
  NoDup items.*1 -> dict_of_items items = items.
Proof. intros H. unfold dict_of_items. by rewrite fold_dict_set_fresh. Qed.

Lemma dict_get_zip (ks : list K) (vs : list V) (i : nat) (k : K) (v : V) :
  NoDup ks -> ks !! i = Some k -> vs !! i = Some v ->
  dict_get k (zip ks vs) = Some v.
Proof.
  revert vs i. induction ks as [|k' ks IH]; intros vs i Hnd Hk Hv; [done|].
  destruct vs as [|v' vs]; [by destruct i|].
  apply NoDup_cons in Hnd as [Hnin Hnd]. cbn [zip zip_with dict_get].
  destruct i as [|i]; cbn in Hk, Hv.
  - injection Hk as ->. injection Hv as ->.
    by rewrite bool_decide_eq_true_2.
  - rewrite bool_decide_eq_false_2.
    + by apply (IH vs i).
    + intros ->. apply Hnin. by eapply list_elem_of_lookup_2.
Qed.

End DictFacts.

Section DictLookups.
Context {K V : Type} `{EqDecision K}.

Lemma dict_get_set_same (k : K) (v : V) (d : dict K V) :
  dict_get k (dict_set k v d) = Some v.
Proof.
  induction d as [|[k0 v0] d IH]; cbn [dict_set dict_get].
  - by rewrite bool_decide_eq_true_2.
  - destruct (bool_decide (k0 = k)) eqn:Hk; cbn [dict_get].
    + by rewrite bool_decide_eq_true_2.
    + by rewrite Hk.
Qed.

Lemma dict_get_set_other (k k' : K) (v : V) (d : dict K V) :
  k' <> k -> dict_get k (dict_set k' v d) = dict_get k d.
Proof.
  intros Hne. induction d as [|[k0 v0] d IH]; cbn [dict_set dict_get].
  - by rewrite bool_decide_eq_false_2.
  - destruct (bool_decide (k0 = k')) eqn:Hk0; cbn [dict_get].
    + apply bool_decide_eq_true in Hk0 as ->.
      by rewrite !bool_decide_eq_false_2.
    + by rewrite IH.
Qed.

Lemma dict_get_fold_other (k : K) (items acc : dict K V) :
  (forall kv, kv ∈ items -> kv.1 <> k) ->
  dict_get k (fold_left (fun d kv => dict_set kv.1 kv.2 d) items acc)
  = dict_get k acc.
Proof.
  revert acc. induction items as [|kv items IH]; intros acc Hne; [done|].
  cbn [fold_left]. rewrite IH.
  - apply dict_get_set_other, Hne. left.
  - intros kv' Hin. apply Hne. by right.
Qed.

(** [dict(items)] holds, under a key, the value of the last item with that
    key. *)
Lemma dict_get_of_items_last (items acc : dict K V) (i : nat) (k : K) (v : V) :
  items !! i = Some (k, v) ->
  (forall j kv, i < j -> items !! j = Some kv -> kv.1 <> k) ->
  dict_get k (fold_left (fun d kv => dict_set kv.1 kv.2 d) items acc) = Some v.
Proof.
  revert acc i. induction items as [|kv items IH]; intros acc i Hi Hlast;
    [done|].
  cbn [fold_left]. destruct i as [|i].
  - injection Hi as ->. cbn [fst snd]. rewrite dict_get_fold_other.
    + apply dict_get_set_same.
    + intros kv' [j Hj]%list_elem_of_lookup. apply (Hlast (S j) kv'); [lia|done].
  - apply (IH _ i); [done|]. intros j kv' Hij Hj.
    apply (Hlast (S j) kv'); [lia|done].
Qed.

Lemma dict_get_elem_of (k : K) (v : V) (d : dict K V) :
  dict_get k d = Some v -> (k, v) ∈ d.
Proof.
  induction d as [|[k0 v0] d IH]; [done|]. cbn [dict_get].
  destruct (bool_decide (k0 = k)) eqn:Hk.
  - apply bool_decide_eq_true in Hk as ->. intros [= ->]. left.
  - intros Hd. right. auto.
Qed.

End DictLookups.

Section CsvLoader.

Lemma UserRecord_of_row_unfold row :
  UserRecord_of_row row = (kwargs ← mapM keyword_of row; UserRecord_of_kwargs kwargs).
Proof. reflexivity. Qed.

(** A cell of the row, in the last column of its name, is in the row
    dictionary under that name. *)
Lemma dict_reader_row_cell (header row : list string) (i : nat)
    (k cell : string) :
  header !! i = Some k ->
  (forall j, i < j -> header !! j <> Some k) ->
  row !! i = Some cell ->
  dict_get (Some k) (dict_reader_row header row) = Some (CCell cell).
Proof.
  intros Hk Hlast Hcell. unfold dict_reader_row.
  assert (dict_get (Some k)
            (dict_of_items (zip (Some <$> header) (CCell <$> row)))
          = Some (CCell cell)) as Hd.
  { unfold dict_of_items. apply (dict_get_of_items_last _ _ i).
    - apply lookup_zip_with_Some. exists (Some k), (CCell cell).
      by rewrite !list_lookup_fmap, Hk, Hcell.
    - intros j [k' v'] Hij Hj. cbn [fst].
      apply lookup_zip_with_Some in Hj as (k1 & v1 & [= <- <-] & Hk1 & _).
      rewrite list_lookup_fmap in Hk1. intros ->.
      destruct (header !! j) as [kj|] eqn:Hj; [|done].
      injection Hk1 as ->. by apply (Hlast j). }
  destruct (length header <? length row)%nat.
  { by rewrite dict_get_set_other. }
  destruct (length row <? length header)%nat eqn:Hshort; [|done].
  assert (forall (l : list string) (d : dict (option string) CsvVal),
            k ∉ l ->
            dict_get (Some k)
              (fold_left (fun d k0 => dict_set (Some k0) CNone d) l d)
            = dict_get (Some k) d) as Hfold.
  { induction l as [|k0 l IH]; intros d Hnin; [done|].
    cbn [fold_left]. rewrite IH.
    - apply dict_get_set_other. intros [= ->]. apply Hnin. left.
    - intros Hin. apply Hnin. by right. }
  rewrite Hfold; [done|].
  intros [j Hj]%list_elem_of_lookup. rewrite lookup_drop in Hj.
  apply (Hlast (length row + j)); [|done].
  apply lookup_lt_Some in Hcell. lia.
Qed.

Lemma dict_get_none_strings (k : option string)
    (row : dict (option string) CsvVal) :
  dict_get k (none_strings row)
  = (fun v => match v with
              | CCell s => csv_val_of_cell s
              | _ => v
              end) <$> dict_get k row.
Proof.
  unfold none_strings. induction row as [|[k0 v0] row IH]; [done|].
  rewrite fmap_cons. cbn [fst snd dict_get]. rewrite IH.
  destruct v0 as [s| |cells]; cbn [dict_get].
  - unfold csv_val_of_cell at 2.
    destruct (bool_decide (s = "") || bool_decide (s = "None")) eqn:Hs;
      destruct (bool_decide (k0 = k)); cbn [fmap option_fmap option_map];
      try done; unfold csv_val_of_cell; by rewrite Hs.
  - by destruct (bool_decide (k0 = k)).
  - by destruct (bool_decide (k0 = k)).
Qed.

(** The keywords of a row that the constructor takes: the value under a
    name is the value of the row under it. *)
Lemma dict_get_keywords (row : dict (option string) CsvVal)
    (kwargs : dict string (option string)) (k : string) :
  mapM keyword_of row = Ok kwargs ->
  dict_get k kwargs
  = match dict_get (Some k) row with
    | Some (CCell s) => Some (Some s)
    | Some CNone => Some None
    | _ => None
    end.
Proof.
  unfold keyword_of. revert kwargs.
  induction row as [|[k0 v0] row IH]; intros kwargs.
  - cbn. by intros [= <-].
  - cbn [mapM fst snd].
    destruct k0 as [k0|]; [|by cbn [mbind exc_bind]].
    destruct v0 as [s| |cells]; cbn [mbind exc_bind]; [| |done].
    + destruct (mapM _ row) as [rest|e] eqn:Hrest;
        cbn [mbind exc_bind mret exc_ret]; [|done].
      specialize (IH rest eq_refl). intros [= <-]. cbn [dict_get].
      destruct (decide (k0 = k)) as [->|Hne].
      * by rewrite !bool_decide_eq_true_2.
      * rewrite !bool_decide_eq_false_2 by congruence. exact IH.
    + destruct (mapM _ row) as [rest|e] eqn:Hrest;
        cbn [mbind exc_bind mret exc_ret]; [|done].
      specialize (IH rest eq_refl). intros [= <-]. cbn [dict_get].
      destruct (decide (k0 = k)) as [->|Hne].
      * by rewrite !bool_decide_eq_true_2.
      * rewrite !bool_decide_eq_false_2 by congruence. exact IH.
Qed.

Lemma kwargs_keys (kwargs : dict string (option string)) r k v :
  UserRecord_of_kwargs kwargs = Ok r -> dict_get k kwargs = Some v ->
  k ∈ fieldnames.
Proof.
  unfold UserRecord_of_kwargs.
  destruct (forallb _ kwargs) eqn:Hall; [|done]. intros _ Hk.
  apply dict_get_elem_of in Hk.
  rewrite forallb_forall in Hall. apply list_elem_of_In in Hk.
  specialize (Hall _ Hk). by apply bool_decide_eq_true in Hall.
Qed.

Lemma asdict_of_kwargs kwargs r k :
  UserRecord_of_kwargs kwargs = Ok r -> k ∈ fieldnames ->
  dict_get k (asdict r) = Some (dict_get_default k None kwargs).
Proof.
  unfold UserRecord_of_kwargs. destruct (_ && _); [|done].
  intros [= <-] Hk. unfold fieldnames in Hk.
  repeat (apply elem_of_cons in Hk as [->|Hk]; [reflexivity|]).
  by apply elem_of_nil in Hk.
Qed.

(** A row that becomes a record: the field of a column is what
    [absent_if_marker] makes of the cell in the last column of that
    name. *)
Lemma UserRecord_of_row_cells (header row : list string) (r : UserRecord) :
  UserRecord_of_row (none_strings (dict_reader_row header row)) = Ok r ->
  forall i k cell,
    header !! i = Some k -> (forall j, i < j -> header !! j <> Some k) ->
    row !! i = Some cell ->
    dict_get k (asdict r) = Some (absent_if_marker cell).
Proof.
  rewrite UserRecord_of_row_unfold.
  destruct (mapM keyword_of _) as [kwargs|e] eqn:Hkw; [|done].
  cbn [mbind exc_bind]. intros Hr i k cell Hk Hlast Hcell.
  pose proof (dict_get_keywords _ _ k Hkw) as Hget.
  rewrite dict_get_none_strings,
    (dict_reader_row_cell header row i k cell Hk Hlast Hcell) in Hget.
  cbn [fmap option_fmap option_map] in Hget.
  assert (dict_get k kwargs = Some (absent_if_marker cell)) as Hget'.
  { rewrite Hget. unfold csv_val_of_cell, absent_if_marker.
    by destruct (_ || _). }
  rewrite (asdict_of_kwargs kwargs r k Hr).
  - unfold dict_get_default. by rewrite Hget'.
  - by eapply kwargs_keys.
Qed.

Lemma asdict_key r k v :
  dict_get k (asdict r) = Some v -> k ∈ fieldnames.
Proof.
  unfold asdict. cbn [dict_get].
  repeat (case_bool_decide as Hk;
          [intros _; rewrite <- Hk; apply (bool_decide_unpack _);
           vm_compute; exact I|clear Hk]).
  done.
Qed.

(** No record made from a row holds the empty string or ["None"]. *)
Lemma UserRecord_of_row_no_marker (row : dict (option string) CsvVal)
    (r : UserRecord) (k v : string) :
  UserRecord_of_row (none_strings row) = Ok r ->
  dict_get k (asdict r) = Some (Some v) ->
  v <> EmptyString /\ v <> "None".
Proof.
  rewrite UserRecord_of_row_unfold.
  destruct (mapM keyword_of _) as [kwargs|e] eqn:Hkw; [|done].
  cbn [mbind exc_bind]. intros Hr Hv.
  rewrite (asdict_of_kwargs kwargs r k Hr) in Hv by (by eapply asdict_key).
  injection Hv as Hv. unfold dict_get_default in Hv.
  rewrite (dict_get_keywords _ _ k Hkw), dict_get_none_strings in Hv.
  destruct (dict_get (Some k) row) as [[s| |cells]|];
    cbn [fmap option_fmap option_map] in Hv; try done.
  unfold csv_val_of_cell in Hv.
  destruct (bool_decide (s = "")) eqn:H1; [done|].
  destruct (bool_decide (s = "None")) eqn:H2; [done|].
  cbn [orb] in Hv. injection Hv as ->.
  by apply bool_decide_eq_false in H1, H2.
Qed.


Lemma dict_reader_row_full (header row : list string) :
  NoDup header -> length row = length header ->
  dict_reader_row header row = zip (Some <$> header) (CCell <$> row).
Proof.
  intros Hnd Hlen. unfold dict_reader_row.
  rewrite Hlen, Nat.ltb_irrefl.
  apply dict_of_items_NoDup.
  rewrite fst_zip by (rewrite !length_fmap; lia).
  apply (NoDup_fmap_2 _), Hnd.
Qed.

Lemma none_strings_zip (ks : list (option string)) (row : list string) :
  none_strings (zip ks (CCell <$> row)) = zip ks (csv_val_of_cell <$> row).
Proof.
  revert row. induction ks as [|k ks IH]; intros [|cell row]; try done.
  unfold none_strings in *. cbn [fmap list_fmap zip zip_with fst snd].
  cbn [fmap] in IH. rewrite IH. f_equal.
  unfold csv_val_of_cell. by destruct (_ || _).
Qed.

Lemma mapM_row_kwargs (header row : list string) :
  length row = length header ->
  mapM keyword_of (zip (Some <$> header) (csv_val_of_cell <$> row))
  = Ok (zip header (absent_if_marker <$> row)).
Proof.
  revert row. induction header as [|k header IH]; intros [|cell row] Hlen;
    try done.
  cbn [fmap list_fmap zip zip_with mapM fst snd].
  cbn [fmap zip] in IH. rewrite IH by (cbn in Hlen; lia).
  unfold csv_val_of_cell, absent_if_marker. by destruct (_ || _).
Qed.

Lemma forallb_fieldnames {V} (header : list string) (vals : list V) :
  header ⊆ fieldnames ->
  forallb (fun kv : string * V => bool_decide (kv.1 ∈ fieldnames))
          (zip header vals) = true.
Proof.
  revert vals. induction header as [|k header IH]; intros vals Hsub; [done|].
  destruct vals as [|v vals]; [done|]. cbn [zip zip_with forallb fst].
  rewrite bool_decide_eq_true_2 by (apply Hsub; left).
  apply IH. intros x Hx. apply Hsub. by right.
Qed.

(** One full row under a header of distinct field names with [email]
    among them becomes a record that holds, for each column, what
    [absent_if_marker] makes of the cell. *)
Lemma UserRecord_of_full_row (header row : list string) :
  NoDup header -> header ⊆ fieldnames -> "email" ∈ header ->
  length row = length header ->
  exists r,
    UserRecord_of_row (none_strings (dict_reader_row header row)) = Ok r /\
    forall i k cell,
      header !! i = Some k -> row !! i = Some cell ->
      dict_get k (asdict r) = Some (absent_if_marker cell).
Proof.
  intros Hnd Hsub Hemail Hlen.
  rewrite dict_reader_row_full, none_strings_zip by done.
  unfold UserRecord_of_row. rewrite mapM_row_kwargs by done.
  cbn [mbind exc_bind].
  set (kwargs := zip header (absent_if_marker <$> row)).
  assert (forall i k cell, header !! i = Some k -> row !! i = Some cell ->
            dict_get k kwargs = Some (absent_if_marker cell)) as Hget.
  { intros i k cell Hk Hcell. apply (dict_get_zip _ _ i); [done..|].
    by rewrite list_lookup_fmap, Hcell. }
  assert (exists r, UserRecord_of_kwargs kwargs = Ok r) as [r Hr].
  { unfold UserRecord_of_kwargs, kwargs.
    rewrite forallb_fieldnames by done. fold kwargs.
    apply list_elem_of_lookup in Hemail as [i Hi].
    destruct (lookup_lt_is_Some_2 row i) as [cell Hcell].
    { rewrite Hlen. by eapply lookup_lt_Some. }
    unfold dict_has. rewrite (Hget i "email" cell Hi Hcell). eauto. }
  exists r. split; [done|]. intros i k cell Hk Hcell.
  rewrite (asdict_of_kwargs kwargs r k Hr).
  - unfold dict_get_default. by rewrite (Hget i k cell Hk Hcell).
  - apply Hsub. by eapply list_elem_of_lookup_2.
Qed.

End CsvLoader.

Section CsvFiles.

Lemma endswith_cons c t suffix :
  PyStr.endswith (String c t) suffix
  = bool_decide (String c t = suffix) || PyStr.endswith t suffix.
Proof. reflexivity. Qed.

Lemma endswith_csv_not_json s :
  PyStr.endswith s ".csv" = true -> PyStr.endswith s ".json" = false.
Proof.
  induction s as [|c t IH]; [done|].
  rewrite !endswith_cons.
  intros [Hs%bool_decide_eq_true | Ht]%orb_true_iff.
  - by injection Hs as -> ->.
  - rewrite (IH Ht), orb_false_r. apply bool_decide_eq_false. intros [= -> ->].
    vm_compute in Ht. discriminate.
Qed.

Lemma filter_nonblank (rows : list (list string)) :
  Forall (fun row => row <> []) rows ->
  filter (fun row => row <> []) rows = rows.
Proof.
  induction 1 as [|row rows Hrow _ IH]; [done|].
  by rewrite filter_cons_True, IH.
Qed.



(** The rows of a file that loads become records one by one. *)
Lemma mapM_rows_cells (header : list string) (rows : list (list string))
    (users : list UserRecord) :
  mapM (fun row => UserRecord_of_row (none_strings row))
       (dict_reader_row header <$> rows) = Ok users ->
  Forall2 (fun row user =>
             UserRecord_of_row (none_strings (dict_reader_row header row))
             = Ok user) rows users.
Proof.
  revert users. induction rows as [|row rows IH]; intros users.
  - cbn. intros [= <-]. constructor.
  - rewrite fmap_cons. cbn [mapM].
    destruct (UserRecord_of_row _) as [r|e] eqn:Hr; cbn [mbind exc_bind];
      [|done].
    destruct (mapM _ _) as [rest|e] eqn:Hrest;
      cbn [mbind exc_bind mret exc_ret]; [|done].
    intros [= <-]. constructor; [done|]. by apply IH.
Qed.

(** What [load_existing_data] does with a path that ends in [.csv]. *)
Lemma load_existing_data_csv (fs : gmap string File) (filepath : string) :
  PyStr.endswith filepath ".csv" = true ->
  load_existing_data fs filepath
  = match load_csv fs filepath with
    | Ok users => users
    | Raise _ => []
    end.
Proof.
  intros Hcsv. unfold load_existing_data.
  by rewrite (endswith_csv_not_json _ Hcsv), Hcsv.
Qed.

(** A CSV file that loads into at least one record has a header, and
    one record for each row that is not blank. *)
Lemma load_csv_rows (fs : gmap string File) (filepath : string) :
  PyStr.endswith filepath ".csv" = true ->
  load_existing_data fs filepath <> [] ->
  exists file_rows header rows,
    fs !! filepath = Some (CsvFile file_rows) /\
    csv_reader file_rows = Ok (header :: rows) /\
    Forall2 (fun row user =>
               UserRecord_of_row (none_strings (dict_reader_row header row))
               = Ok user)
            (filter (fun row => row <> []) rows)
            (load_existing_data fs filepath).
Proof.
  intros Hcsv. rewrite (load_existing_data_csv _ _ Hcsv). unfold load_csv.
  destruct (fs !! filepath) as [[doc|file_rows]|]; [done| |done].
  destruct (csv_reader file_rows) as [[|header rows]|e] eqn:Hread;
    cbn [mbind exc_bind dict_reader]; [done| |done].
  destruct (mapM _ _) as [users|e] eqn:Hm; [|done]. intros _.
  exists file_rows, header, rows. split; [done|]. split; [done|].
  by apply mapM_rows_cells.
Qed.

Lemma mapM_full_rows (header : list string) (rows : list (list string)) :
  NoDup header -> header ⊆ fieldnames -> "email" ∈ header ->
  Forall (fun row => length row = length header) rows ->
  exists users,
    mapM (fun row => UserRecord_of_row (none_strings row))
         (dict_reader_row header <$> rows) = Ok users /\
    Forall2 (fun row user =>
               forall i k cell,
                 header !! i = Some k -> row !! i = Some cell ->
                 dict_get k (asdict user) = Some (absent_if_marker cell))
            rows users.
Proof.
  intros Hnd Hsub Hemail. induction 1 as [|row rows Hrow _ (users & Hm & HR)].
  - exists []. by split; [|constructor].
  - destruct (UserRecord_of_full_row header row) as (r & Hr & Hcells);
      [done..|].
    exists (r :: users). split; [|by constructor].
    cbn [fmap list_fmap mapM]. cbn [fmap] in Hm. by rewrite Hr, Hm.
Qed.

(** A CSV file that the reader accepts, whose header lists distinct field
    names with [email] among them, and whose rows are full, loads into one
    record per row. *)
Lemma load_csv_full_rows (fs : gmap string File) (filepath : string)
    (file_rows : list (list string)) (header : list string)
    (rows : list (list string)) :
  PyStr.endswith filepath ".csv" = true ->
  fs !! filepath = Some (CsvFile file_rows) ->
  csv_reader file_rows = Ok (header :: rows) ->
  NoDup header -> header ⊆ fieldnames -> "email" ∈ header ->
  Forall (fun row => length row = length header) rows ->
  Forall2 (fun row user =>
             forall i k cell,
               header !! i = Some k -> row !! i = Some cell ->
               dict_get k (asdict user) = Some (absent_if_marker cell))
          rows (load_existing_data fs filepath).
Proof.
  intros Hcsv Hfile Hread Hnd Hsub Hemail Hrows.
  rewrite (load_existing_data_csv _ _ Hcsv).
  unfold load_csv. rewrite Hfile, Hread. cbn [mbind exc_bind dict_reader].
  rewrite filter_nonblank.
  - destruct (mapM_full_rows header rows) as (users & -> & HR); done.
  - eapply Forall_impl; [exact Hrows|]. intros row Hlen ->.
    apply list_elem_of_lookup in Hemail as [i Hi].
    apply lookup_lt_Some in Hi. cbn in Hlen. lia.
Qed.

Lemma fieldnames_NoDup : NoDup fieldnames.
Proof. compute_done. Qed.

(** The cells [save_to_csv] writes for a record. *)
Lemma saved_row_lookup (r : UserRecord) (j : nat) (k : string)
    (x : option string) :
  fieldnames !! j = Some k -> dict_get k (asdict r) = Some x ->
  ((fun k => csv_cell (dict_get_default k None (asdict r))) <$> fieldnames)
    !! j = Some (csv_cell x).
Proof.
  intros Hj Hk. rewrite list_lookup_fmap, Hj. cbn [fmap option_fmap option_map].
  unfold dict_get_default. by rewrite Hk.
Qed.

Lemma within_field_limit_cell (r : UserRecord) (k : string) :
  fits_csv r ->
  within_field_limit
    (universal_newlines (csv_cell (dict_get_default k None (asdict r))))
  = true.
Proof.
  intros Hfits. unfold dict_get_default.
  destruct (dict_get k (asdict r)) as [[v|]|] eqn:Hk; [by apply (Hfits k)|done..].
Qed.

(** The reader accepts the file [save_to_csv] writes for records that fit. *)
Lemma csv_reader_saved (users : list UserRecord) :
  Forall fits_csv users ->
  csv_reader
    (fieldnames
     :: ((fun user =>
            (fun k => csv_cell (dict_get_default k None (asdict user)))
              <$> fieldnames) <$> users))
  = Ok (fieldnames
        :: ((fun user =>
               (fun k => universal_newlines
                           (csv_cell (dict_get_default k None (asdict user))))
                 <$> fieldnames) <$> users)).
Proof.
  intros Hfits. unfold csv_reader.
  rewrite fmap_cons, <- list_fmap_compose.
  assert (forallb (forallb within_field_limit)
            ((universal_newlines <$> fieldnames)
             :: ((fun row : list string => universal_newlines <$> row)
                 ∘ (fun user =>
                      (fun k => csv_cell (dict_get_default k None (asdict user)))
                        <$> fieldnames) <$> users)) = true) as ->.
  { cbn [forallb]. apply andb_true_iff. split; [by vm_compute|].
    apply forallb_forall. intros row [user [<- Huser]]%in_map_iff.
    cbn [compose]. apply forallb_forall.
    intros cell [c [<- [k [<- _]]%in_map_iff]]%in_map_iff.
    apply within_field_limit_cell.
    rewrite Forall_forall in Hfits. by apply Hfits, list_elem_of_In. }
  reflexivity.
Qed.

End CsvFiles.

(** C10.  No record that [load_existing_data] reads from a CSV file holds
    the empty string or the text ["None"] in a field.  In a file that
    loads, each row that is not blank is one record, and the cell of a
    column (of columns with the same name, the last) becomes the field of
    that name: absent when the cell is empty or ["None"], the text of the
    cell otherwise.  So a list with a record that holds the string
    ["None"] or the empty string in a field does not survive
    [save_to_csv] followed by [load_existing_data], whatever the write
    comes to; when the file is written and read, the record loaded at its
    position has that field absent. *)
Theorem csv_markers_load_as_absent :
  (forall (fs : gmap string File) (filepath : string),
     PyStr.endswith filepath ".csv" = true ->
     (forall r k v,
        r ∈ load_existing_data fs filepath ->
        dict_get k (asdict r) = Some (Some v) ->
        v <> EmptyString /\ v <> "None") /\
     (load_existing_data fs filepath <> [] ->
      exists file_rows header rows,
        fs !! filepath = Some (CsvFile file_rows) /\
        csv_reader file_rows = Ok (header :: rows) /\
        Forall2 (fun row user =>
                   forall i k cell,
                     header !! i = Some k ->
                     (forall j, i < j -> header !! j <> Some k) ->
                     row !! i = Some cell ->
                     (cell = EmptyString \/ cell = "None" ->
                      dict_get k (asdict user) = Some None) /\
                     (cell <> EmptyString -> cell <> "None" ->
                      dict_get k (asdict user) = Some (Some cell)))
                (filter (fun row => row <> []) rows)
                (load_existing_data fs filepath))) /\
  (forall (output_dir stamp : string) (users : list UserRecord)
          (filename : option string) (outcome : WriteOutcome)
          (fs : gmap string File)
          (i : nat) (r : UserRecord) (k v : string),
     (forall f, filename = Some f -> PyStr.endswith f ".csv" = true) ->
     users !! i = Some r ->
     dict_get k (asdict r) = Some (Some v) ->
     v = EmptyString \/ v = "None" ->
     let filepath :=
       path_join output_dir
         match filename with
         | Some f => f
         | None => "users_data_" +:+ stamp +:+ ".csv"
         end in
     let saved := save_to_csv output_dir stamp users filename outcome fs in
     load_existing_data saved.2 filepath <> users /\
     (outcome = Written -> Forall fits_csv users ->
      saved.1 = filepath /\
      exists r',
        load_existing_data saved.2 filepath !! i = Some r' /\
        dict_get k (asdict r') = Some None /\
        r' <> r)).
Proof.
  assert (forall (fs : gmap string File) (filepath : string),
            PyStr.endswith filepath ".csv" = true ->
            forall r k v,
              r ∈ load_existing_data fs filepath ->
              dict_get k (asdict r) = Some (Some v) ->
              v <> EmptyString /\ v <> "None") as Hmarker.
  { intros fs filepath Hcsv r k v Hr Hk.
    destruct (load_csv_rows fs filepath Hcsv)
      as (file_rows & header & rows & _ & _ & HR).
    { intros Hnil. rewrite Hnil in Hr. by apply elem_of_nil in Hr. }
    apply list_elem_of_lookup in Hr as [n Hn].
    destruct (Forall2_lookup_r _ _ _ _ _ HR Hn) as (row & _ & Hrow).
    by eapply UserRecord_of_row_no_marker. }
  split.
  - intros fs filepath Hcsv. split; [by apply Hmarker|].
    intros Hload.
    destruct (load_csv_rows fs filepath Hcsv Hload)
      as (file_rows & header & rows & Hfile & Hread & HR).
    exists file_rows, header, rows. split; [done|]. split; [done|].
    eapply Forall2_impl; [exact HR|].
    intros row user Hrow i k cell Hk Hlast Hcell.
    rewrite (UserRecord_of_row_cells header row user Hrow i k cell Hk Hlast Hcell).
    unfold absent_if_marker. split.
    + intros [-> | ->]; reflexivity.
    + intros H1 H2. by rewrite !bool_decide_eq_false_2.
  - intros output_dir stamp users filename outcome fs i r k v Hname Hi Hk Hv.
    set (file := match filename with
                 | Some f => f
                 | None => "users_data_" +:+ stamp +:+ ".csv"
                 end).
    intros filepath saved.
    assert (PyStr.endswith filepath ".csv" = true) as Hcsv.
    { apply path_join_endswith. subst file. destruct filename as [f|]; [auto|].
      repeat apply endswith_app. reflexivity. }
    split.
    { intros Hload.
      destruct (Hmarker saved.2 filepath Hcsv r k v) as [H1 H2]; [|done|].
      - rewrite Hload. by eapply list_elem_of_lookup_2.
      - by destruct Hv. }
    intros -> Hfits. subst saved. unfold save_to_csv. fold file. fold filepath.
    destruct users as [|u users']; [done|].
    set (users := u :: users') in *. cbn [fst snd]. split; [done|].
    pose proof (load_csv_full_rows
                  (<[filepath := CsvFile (fieldnames
                       :: ((fun user =>
                              (fun k => csv_cell
                                          (dict_get_default k None (asdict user)))
                                <$> fieldnames) <$> users))]> fs)
                  filepath _ _ _ Hcsv (lookup_insert_eq _ _ _)
                  (csv_reader_saved users Hfits) fieldnames_NoDup
                  (fun x H => H) ltac:(by left)) as HR.
    assert (((fun user =>
                (fun k => universal_newlines
                            (csv_cell (dict_get_default k None (asdict user))))
                  <$> fieldnames) <$> users) !! i
            = Some ((fun k => universal_newlines
                                (csv_cell (dict_get_default k None (asdict r))))
                      <$> fieldnames)) as Hrow.
    { by rewrite list_lookup_fmap, Hi. }
    destruct (Forall2_lookup_l _ _ _ _ _
                (HR ltac:(apply Forall_fmap, Forall_forall; intros user _;
                          cbn [compose]; by rewrite length_fmap)) Hrow)
      as (r' & Hr' & Hcells).
    exists r'. split; [exact Hr'|].
    pose proof (asdict_key r k _ Hk) as [j Hj]%list_elem_of_lookup.
    assert (dict_get k (asdict r') = Some None) as Hnone.
    { rewrite (Hcells j k (universal_newlines v) Hj).
      - unfold absent_if_marker. by destruct Hv as [-> | ->].
      - rewrite list_lookup_fmap, Hj. cbn [fmap option_fmap option_map].
        unfold dict_get_default. by rewrite Hk. }
    split; [exact Hnone|]. intros ->. congruence.
Qed.

Lemma csv_markers_load_as_absent_witness :
  let r := {| email := Some "jane.smith@example.com"; name := Some "None";
              role := Some "User"; last_login := None; status := None;
              extracted_at := None; source_saas := Some "Demo SaaS" |} in
  let saved :=
    save_to_csv "./demo_output/" "20240115_100000" [r]
      (Some "demo_users.csv") Written ∅ in
  saved.1 = "./demo_output/demo_users.csv" /\
  exists r',
    load_existing_data saved.2 "./demo_output/demo_users.csv" !! 0 = Some r' /\
    dict_get "name" (asdict r') = Some None /\
    r' <> r.
Proof.
  intros r.
  apply (proj2 (proj2 csv_markers_load_as_absent "./demo_output/"
                  "20240115_100000" [r] (Some "demo_users.csv") Written ∅
                  0 r "name" "None"
                  ltac:(by intros f [= <-]) eq_refl eq_refl
                  ltac:(by right)) eq_refl).
  constructor; [|constructor]. intros k v Hk.
  unfold asdict in Hk. cbn [dict_get] in Hk.
  repeat (case_bool_decide;
          [first [discriminate Hk | injection Hk as <-; by vm_compute]|]).
  done.
Defined.

(** Short rows load, and a field whose cell is missing is absent; a row
    with a cell too many makes the whole file load as empty. *)
Example load_csv_short_and_long_rows :
  let file rows : gmap string File :=
    {[ "users.csv" := CsvFile (["email"; "name"; "role"] :: rows) ]} in
  load_existing_data (file [["a@x.com"; "None"]; []; ["b@x.com"]]) "users.csv"
  = [ user_with_email "a@x.com"; user_with_email "b@x.com" ] /\
  load_existing_data
    (file [["a@x.com"; "Ann"; "admin"; "extra"]; ["b@x.com"]]) "users.csv"
  = [].
Proof. vm_compute. by split. Qed.

(** ** The action validator *)

Section Validator.
Context {W : Type} (h : Handler W).

(** [validate_action_success] sends one chat request and never raises. *)
Lemma run_validate_action_success (w : W) (before after action : string) :
  run h (validate_action_success before after action) w
  = let request := validate_action_success_request before after action in
    let answer := h (ChatCompletion request) w in
    (Ok match validate_action_success_result answer.1 with
        | Ok verdict => verdict
        | Raise _ => false
        end,
     [Ev (ChatCompletion request) answer.1], answer.2).
Proof.
  unfold run, validate_action_success. run_step h.
  by destruct (validate_action_success_result answer).
Qed.

End Validator.

(** C3, as stated, fails: the answer ["Unsuccessful"], upper-cased, is not
    the token ["SUCCESS"], and [validate_action_success] returns [True]
    on it, since it looks for the token anywhere in the answer. *)
Lemma validate_action_success_unsuccessful :
  PyStr.upper (PyStr.strip "Unsuccessful") <> "SUCCESS" /\
  result_of (scripted [] true [Ok [text_message "Unsuccessful"]])
    (validate_action_success "<html>before</html>" "<html>after</html>"
       "Adding user a@x.com") (0, 0)
  = Ok true.
Proof. split; [vm_compute; discriminate|vm_compute; reflexivity]. Qed.

(** C3, amended.  [validate_action_success] answers [True] exactly when
    the text of the oracle's answer, stripped and upper-cased, contains
    the token ["SUCCESS"]; in every other case, a failed oracle call, an
    answer without choices or without text included, it answers [False],
    and it never raises.  The answer ["FAILED -- no new row appeared"]
    (with an em dash) gives [False]. *)
Theorem validate_action_success_outcome {W : Type} (h : Handler W) (w : W)
    (before after action : string) :
  let request := validate_action_success_request before after action in
  let response := (h (ChatCompletion request) w).1 in
  (exists verdict : bool,
     result_of h (validate_action_success before after action) w = Ok verdict /\
     (verdict = true <->
      exists message rest text,
        response = Ok (message :: rest) /\
        content message = Some text /\
        PyStr.contains "SUCCESS" (PyStr.upper (PyStr.strip text)) = true)) /\
  (forall e, response = Raise e ->
     result_of h (validate_action_success before after action) w = Ok false) /\
  (forall rest,
     response
     = Ok (text_message ("FAILED " +:+ em_dash +:+ " no new row appeared") :: rest) ->
     result_of h (validate_action_success before after action) w = Ok false).
Proof.
  intros request response. unfold result_of.
  rewrite run_validate_action_success. cbn [fst snd].
  fold request. fold response. split_and!.
  - eexists. split; [reflexivity|].
    unfold validate_action_success_result.
    destruct response as [[|message rest]|e]; cbn [mbind exc_bind first_choice].
    + split; [done|]. by intros (? & ? & ? & ? & _).
    + destruct (content message) as [text|] eqn:Htext; cbn [mbind exc_bind mret exc_ret].
      * split.
        -- intros Hv. by exists message, rest, text.
        -- intros (m & r & t & [= <- <-] & Ht & Hc). congruence.
      * split; [done|]. intros (m & r & t & [= <- <-] & Ht & Hc). congruence.
    + split; [done|]. by intros (? & ? & ? & ? & _).
  - by intros e ->.
  - intros rest ->. vm_compute. reflexivity.
Qed.

Lemma validate_action_success_outcome_witness :
  result_of
    (scripted [] true
       [Ok [text_message ("FAILED " +:+ em_dash +:+ " no new row appeared")]])
    (validate_action_success "<html>before</html>" "<html>after</html>"
       "Adding user a@x.com") (0, 0)
  = Ok false.
Proof.
  apply (proj2 (proj2 (validate_action_success_outcome
           (scripted [] true
              [Ok [text_message ("FAILED " +:+ em_dash +:+ " no new row appeared")]])
           (0, 0) "<html>before</html>" "<html>after</html>"
           "Adding user a@x.com")) []).
  reflexivity.
Defined.

(** The answer is upper-cased as [str.upper] does it, over all of
    Unicode: a sharp s becomes SS and a long s becomes S, so answers
    spelled with them hold the token and give [True]. *)
Example validate_action_success_other_letters :
  let verdict text :=
    result_of (scripted [] true [Ok [text_message text]])
      (validate_action_success "<html>before</html>" "<html>after</html>"
         "Adding user a@x.com") (0, 0) in
  PyStr.upper ("succe" +:+ sharp_s) = "SUCCESS" /\
  PyStr.upper (long_s +:+ "uccess") = "SUCCESS" /\
  verdict ("succe" +:+ sharp_s) = Ok true /\
  verdict (long_s +:+ "uccess") = Ok true /\
  verdict "succes" = Ok false.
Proof. vm_compute. split_and!; reflexivity. Qed.

(** ** The workflows *)

Section Candidates.

Lemma dict_get_set_ne {V} (k k' : string) (v : V) (d : dict string V) :
  k <> k' -> dict_get k (dict_set k' v d) = dict_get k d.
Proof.
  intros Hne. induction d as [|[k0 v0] d IH]; cbn [dict_set dict_get].
  - by rewrite bool_decide_eq_false_2.
  - case_bool_decide as H0; cbn [dict_get].
    + subst k0. by rewrite !bool_decide_eq_false_2.
    + by rewrite IH.
Qed.

(** Whether an answer of the oracle is used, and the selector taken from
    it, do not depend on its [confidence] entry. *)
Lemma candidate_ignores_confidence (elements : dict string Json)
    (confidence : Json) :
  has_primary_selector (JDict (dict_set "confidence" confidence elements))
  = has_primary_selector (JDict elements) /\
  py_getitem (JDict (dict_set "confidence" confidence elements))
    "primary_selector"
  = py_getitem (JDict elements) "primary_selector".
Proof.
  unfold has_primary_selector, py_contains, py_getitem, dict_has.
  rewrite dict_get_set_ne by done. split; [|done].
  destruct elements as [|[k v] d]; [done|].
  cbn [dict_set py_truthy]. by case_bool_decide.
Qed.

(** The selector an answer proposes is the one the workflows take from
    what [find_ui_elements] returns for it: the test
    [v and "primary_selector" in v] followed by [v["primary_selector"]]. *)
Lemma proposed_selector_spec (response : Exc ChatResponse) :
  proposed_selector response
  = match find_ui_elements_result response with
    | Ok elements =>
        match has_primary_selector elements with
        | Ok true =>
            match py_getitem elements "primary_selector" with
            | Ok selector => Some selector
            | Raise _ => None
            end
        | _ => None
        end
    | Raise _ => None
    end.
Proof.
  unfold proposed_selector, find_ui_elements_result.
  destruct response as [[|message rest]|e]; [done| |done].
  cbn [mbind exc_bind first_choice].
  destruct (function_call message) as [fc|]; [|done].
  destruct (arguments fc) as [[v|l|result]|e]; cbn [mbind exc_bind py_get];
    [done..| |done].
  unfold dict_get_default.
  destruct (dict_get "elements" result) as [[v|l|elements]|]; [| | |done].
  - unfold has_primary_selector. destruct (py_truthy _); [|done].
    by destruct (py_contains _ _) as [[|]|].
  - unfold has_primary_selector. destruct (py_truthy _); [|done].
    by destruct (py_contains _ _) as [[|]|].
  - unfold has_primary_selector, py_contains, py_getitem, dict_has.
    destruct (dict_get "primary_selector" elements) eqn:Hsel.
    + destruct elements; [done|]. done.
    + by destruct (py_truthy _).
Qed.

Lemma prefix_app (x b : string) : String.prefix x (x +:+ b) = true.
Proof.
  induction x as [|c x IH]; [by destruct b|].
  change (String c x +:+ b) with (String c (x +:+ b)).
  cbn [String.prefix]. by destruct (ascii_dec c c).
Qed.

Lemma contains_app_r (x a b : string) :
  PyStr.contains x b = true -> PyStr.contains x (a +:+ b) = true.
Proof.
  intros Hb. induction a as [|c a IH]; [done|].
  change (String c a +:+ b) with (String c (a +:+ b)).
  cbn [PyStr.contains]. rewrite IH. apply orb_true_r.
Qed.

Lemma contains_prefix (x b : string) : PyStr.contains x (x +:+ b) = true.
Proof.
  destruct (x +:+ b) eqn:E; cbn [PyStr.contains]; rewrite <- E, prefix_app; done.
Qed.

End Candidates.

(** C6, as stated, fails: the resolution of the add-user button returns
    no locator and no confidence.  Its value is the Boolean answer of the
    click: on two portals with different static locators, both found on
    the page, the value is the same [True], so nothing read off the value
    gives the locator back. *)
Lemma static_resolution_returns_no_locator :
  let h := scripted [true] true [] in
  let resolve saas_config := result_of h (click_add_user_button saas_config) (0, 0) in
  resolve Config.dropbox = Ok true /\
  resolve Config.notion = Ok true /\
  Config.add_user_button Config.dropbox <> Config.add_user_button Config.notion /\
  ~ exists locator_of : Exc bool -> string,
      locator_of (resolve Config.dropbox) = Config.add_user_button Config.dropbox /\
      locator_of (resolve Config.notion) = Config.add_user_button Config.notion.
Proof.
  intros h resolve.
  assert (resolve Config.dropbox = Ok true) as Hd by (vm_compute; reflexivity).
  assert (resolve Config.notion = Ok true) as Hn by (vm_compute; reflexivity).
  assert (Config.add_user_button Config.dropbox
          <> Config.add_user_button Config.notion) as Hne
    by (vm_compute; discriminate).
  split_and!; [done..|].
  intros (locator_of & H1 & H2). rewrite Hd in H1. rewrite Hn in H2. congruence.
Qed.

(** C6, amended.  In [provision_user] the add-user button is resolved from
    the static selector of the configuration first.  When the click on it
    succeeds, that click is the whole step: the value is [True] and the
    oracle is not consulted.  When it fails, the page is read and the
    oracle is asked once, by a [find_ui_elements] request that holds the
    task for the portal and the first 10000 characters of the page; the
    selector the answer proposes is clicked once and the value is the
    answer of that click, and without a proposed selector there is no
    further call and the step does not succeed. *)
Theorem add_user_button_static_first {W : Type} (h : Handler W) (w : W)
    (saas_config : Config.SaaSConfig) :
  let static := JVal (PStr (Config.add_user_button saas_config)) in
  let step := click_add_user_button saas_config in
  (forall w1, h (ClickElement static) w = (true, w1) ->
     run h step w = (Ok true, [Ev (ClickElement static) true], w1)) /\
  (forall w1 page w2,
     h (ClickElement static) w = (false, w1) ->
     h ExtractPageContent w1 = (page, w2) ->
     let request := find_ui_elements_request page (add_user_task saas_config) in
     let response := (h (ChatCompletion request) w2).1 in
     let w3 := (h (ChatCompletion request) w2).2 in
     let asked := [Ev (ClickElement static) false; Ev ExtractPageContent page;
                   Ev (ChatCompletion request) response] in
     forced_function request = Some "find_ui_elements" /\
     PyStr.contains (add_user_task saas_config) (prompt request) = true /\
     PyStr.contains (PyStr.take 10000 page) (prompt request) = true /\
     match proposed_selector response with
     | Some selector =>
         run h step w
         = (Ok (h (ClickElement selector) w3).1,
            (asked ++ [Ev (ClickElement selector)
                          (h (ClickElement selector) w3).1])%list,
            (h (ClickElement selector) w3).2)
     | None =>
         exists res,
           run h step w = (res, asked, w3) /\
           (res = Ok false \/ exists e, res = Raise e)
     end).
Proof.
  intros static step. subst static step.
  unfold run, click_add_user_button, find_ui_elements. split.
  - intros w1 Hstatic. by run_step h.
  - intros w1 page w2 Hstatic Hpage. split_and!.
    + reflexivity.
    + cbn [prompt find_ui_elements_request]. unfold find_ui_elements_prompt.
      do 3 apply contains_app_r. apply contains_prefix.
    + cbn [prompt find_ui_elements_request]. unfold find_ui_elements_prompt.
      do 10 apply contains_app_r. apply contains_prefix.
    + do 2 run_step h. run_cbn.
      destruct (h (ChatCompletion _) w2) as [response w3]. cbn [fst snd].
      run_cbn. rewrite proposed_selector_spec.
      destruct (find_ui_elements_result response) as [elements|e]; run_cbn.
      * destruct (has_primary_selector elements) as [[|]|e]; run_cbn.
        -- destruct (py_getitem elements "primary_selector") as [selector|e];
             run_cbn.
           ++ by destruct (h (ClickElement selector) w3).
           ++ eauto.
        -- eauto.
        -- eauto.
      * cbn. eauto.
Qed.

Lemma add_user_button_static_first_witness :
  let static := JVal (PStr (Config.add_user_button Config.dropbox)) in
  let found := scripted [true] true [] in
  let answer :=
    elements_answer (JDict [("primary_selector", JVal (PStr "#invite"))]) in
  let missed := scripted [false; true] true [answer] in
  let request :=
    find_ui_elements_request "<html></html>" (add_user_task Config.dropbox) in
  run found (click_add_user_button Config.dropbox) (0, 0)
  = (Ok true, [Ev (ClickElement static) true], (1, 0)) /\
  run missed (click_add_user_button Config.dropbox) (0, 0)
  = (Ok true,
     [Ev (ClickElement static) false; Ev ExtractPageContent "<html></html>";
      Ev (ChatCompletion request) answer;
      Ev (ClickElement (JVal (PStr "#invite"))) true],
     (2, 1)).
Proof.
  intros static found answer missed request. split.
  - apply (proj1 (add_user_button_static_first found (0, 0) Config.dropbox)
             (1, 0)).
    reflexivity.
  - exact (proj2 (proj2 (proj2
             (proj2 (add_user_button_static_first missed (0, 0) Config.dropbox)
                (1, 0) "<html></html>" (1, 0) eq_refl eq_refl)))).
Defined.

(** C2, as stated, fails: the code has no acceptance threshold.  When the
    static add-user selector fails and the oracle proposes a selector with
    confidence 0, [provision_user] clicks that selector and goes on to fill
    the form. *)
Lemma low_confidence_candidate_is_clicked :
  let candidate :=
    JDict [("primary_selector", JVal (PStr "#invite"));
           ("confidence", JVal (PInt 0))] in
  let h := scripted [false; true; false] true [elements_answer candidate] in
  py_getitem candidate "confidence" = Ok (JVal (PInt 0)) /\
  last (trace_of h (click_add_user_button Config.notion) (0, 0))
  = Some (Ev (ClickElement (JVal (PStr "#invite"))) true) /\
  result_of h (click_add_user_button Config.notion) (0, 0) = Ok true /\
  count_events is_fill
    (trace_of h (provision_user "notion" [] [("email", PStr "a@x.com")]) (0, 0))
  = 1.
Proof. vm_compute. split_and!; reflexivity. Qed.

Section Steps.
Context {W : Type} (h : Handler W).

(** The resolution steps of every run of [provision_user]. *)
Lemma provision_user_steps (w : W) (saas_id : string)
    (credentials : dict string string) (user_details : dict string PyVal) :
  let '(res, tr, _) :=
    run h (provision_user saas_id credentials user_details) w in
  resolution_steps provision_steps 0 res tr.
Proof.
  unfold run, provision_user.
  destruct (dict_get saas_id Config.SAAS_CONFIGS) as [saas_config|]; [|done].
  unfold fill_submit_validate, click_add_user_button, find_ui_elements,
    validate_action_success.
  run_paths h.
  all: cbn [resolution_steps is_resolution_request forced_function
            find_ui_elements_request validate_action_success_request
            String.eqb Ascii.eqb Bool.eqb provision_steps].
  all: unfold step_followed.
  all: use_answers proposed_selector_spec.
  all: cbn.
  all: close_steps.
Qed.

(** The resolution steps of every run of [deprovision_user]. *)
Lemma deprovision_user_steps (w : W) (saas_id : string)
    (credentials : dict string string) (user_email : string) :
  let '(res, tr, _) :=
    run h (deprovision_user saas_id credentials user_email) w in
  resolution_steps deprovision_steps 0 res tr.
Proof.
  unfold run, deprovision_user.
  destruct (dict_get saas_id Config.SAAS_CONFIGS) as [saas_config|]; [|done].
  unfold find_delete_validate, find_ui_elements, validate_action_success.
  run_paths h.
  all: cbn [resolution_steps is_resolution_request forced_function
            find_ui_elements_request validate_action_success_request
            String.eqb Ascii.eqb Bool.eqb deprovision_steps].
  all: unfold step_followed.
  all: use_answers proposed_selector_spec.
  all: cbn.
  all: close_steps.
Qed.


End Steps.

(** C2, amended.  At every resolution step that consults the oracle the
    candidate is judged by its [primary_selector] alone, whatever its
    confidence.  In every run of [provision_user] (the add-user button
    after a failed static click, the submit button) and of
    [deprovision_user] (the row of the user, the delete button, the
    confirmation button), an answer that proposes a selector is followed
    by the click on that selector; a failed click on the add-user, submit
    or delete button ends the run in [False], while the answer of the
    click on the row or on the confirmation button is not looked at.  An
    answer that proposes no selector ends the run in [False] with no
    further call, except at the confirmation step, where the click is
    left out and the run goes on (or ends in [False] when the lookup in
    the answer raises).  The selector an answer proposes does not depend
    on its [confidence] entry. *)
Theorem oracle_candidate_used_by_selector {W : Type} (h : Handler W) (w : W)
    (saas_id : string) (credentials : dict string string)
    (user_details : dict string PyVal) (user_email : string) :
  let add := provision_user saas_id credentials user_details in
  let remove := deprovision_user saas_id credentials user_email in
  resolution_steps provision_steps 0 (result_of h add w) (trace_of h add w) /\
  resolution_steps deprovision_steps 0
    (result_of h remove w) (trace_of h remove w) /\
  (forall (elements : dict string Json) (confidence : Json),
     proposed_selector
       (elements_answer (JDict (dict_set "confidence" confidence elements)))
     = proposed_selector (elements_answer (JDict elements))).
Proof.
  intros add remove. unfold result_of, trace_of. split_and!.
  - pose proof (provision_user_steps h w saas_id credentials user_details) as H.
    fold add in H. by destruct (run h add w) as [[res tr] w'].
  - pose proof (deprovision_user_steps h w saas_id credentials user_email) as H.
    fold remove in H. by destruct (run h remove w) as [[res tr] w'].
  - intros elements confidence. unfold elements_answer, proposed_selector.
    cbn [function_call arguments dict_get].
    rewrite !bool_decide_eq_true_2 by done. by rewrite dict_get_set_ne.
Qed.

(** A run of [deprovision_user] with its three resolution steps: the
    failed click on the row and the failed click on the confirmation
    button do not stop it. *)
Example resolution_steps_example :
  let selector s := elements_answer (JDict [("primary_selector", JVal (PStr s))]) in
  let h := scripted [false; true; false] true
             [selector "#row"; selector "#delete"; selector "#ok";
              Ok [text_message "SUCCESS"]] in
  let remove := deprovision_user "dropbox" [] "a@x.com" in
  count_events is_oracle_call (trace_of h remove (0, 0)) = 4 /\
  click_answers (trace_of h remove (0, 0)) = [false; true; false] /\
  result_of h remove (0, 0) = Ok true.
Proof. vm_compute. split_and!; reflexivity. Qed.

Section Runs.
Context {W : Type} (h : Handler W).

(** An answer that is a dictionary never makes the selector lookup raise. *)
Lemma dict_candidate_total (d : dict string Json) :
  (exists found, has_primary_selector (JDict d) = Ok found) /\
  (has_primary_selector (JDict d) = Ok true ->
   exists selector, py_getitem (JDict d) "primary_selector" = Ok selector).
Proof.
  unfold has_primary_selector, py_contains, py_getitem, dict_has.
  destruct (py_truthy (JDict d)); [|split; [eauto|done]].
  destruct (dict_get "primary_selector" d); split; eauto. done.
Qed.

(** The runs of [provision_user]: it never raises; when a click succeeds
    after the form fill, every mutating action of the run is followed by
    the after-snapshot and the validation, whose verdict is the result;
    otherwise the run ends in [False] without a validation. *)
Lemma provision_user_runs (w : W) (saas_id : string)
    (credentials : dict string string) (user_details : dict string PyVal) :
  let '(res, tr, _) :=
    run h (provision_user saas_id credentials user_details) w in
  (exists verdict, res = Ok verdict) /\
  (click_succeeded_after_fill tr = true ->
     validated_after_mutation tr = true /\ res = Ok (last_verdict tr)) /\
  (click_succeeded_after_fill tr = false ->
     existsb is_validation tr = false /\ res = Ok false).
Proof.
  unfold run, provision_user.
  destruct (dict_get saas_id Config.SAAS_CONFIGS) as [saas_config|].
  2: { cbn. split_and!; [eauto|done|done]. }
  unfold fill_submit_validate, click_add_user_button, find_ui_elements,
    validate_action_success.
  run_paths h.
  all: cbn.
  all: try (split_and!; [eauto|done|done]).
  all: match goal with
       | H : validate_action_success_result _ = _ |- _ => rewrite H
       end; split_and!; [eauto|done|done].
Qed.

(** The runs of [deprovision_user], in the same way, with the second click
    of the run, the delete click, in place of the submit click. *)
Lemma deprovision_user_runs (w : W) (saas_id : string)
    (credentials : dict string string) (user_email : string) :
  let '(res, tr, _) :=
    run h (deprovision_user saas_id credentials user_email) w in
  (exists verdict, res = Ok verdict) /\
  (second_click_succeeded tr = true -> answers_are_dicts tr = true ->
     validated_after_mutation tr = true /\ res = Ok (last_verdict tr)) /\
  (second_click_succeeded tr = false ->
     existsb is_validation tr = false /\ res = Ok false).
Proof.
  unfold run, deprovision_user.
  destruct (dict_get saas_id Config.SAAS_CONFIGS) as [saas_config|].
  2: { cbn. split_and!; [eauto|done|done]. }
  unfold find_delete_validate, find_ui_elements, validate_action_success.
  run_paths h.
  all: cbn.
  all: try (split_and!; [eauto|done|done]).
  all: try match goal with
           | H : validate_action_success_result _ = _ |- _ => rewrite H
           end.
  all: split_and!; [eauto| |done].
  all: try (intros _ _; done).
  all: intros _ Hdicts; exfalso.
  all: repeat match goal with
              | H : find_ui_elements_result _ = _ |- _ =>
                  rewrite H in Hdicts; clear H
              end.
  all: match goal with
       | H : has_primary_selector ?e = Raise _ |- _ =>
           destruct e as [?|?|d];
           [| |destruct (dict_candidate_total d) as [[? ?] _]; congruence]
       | H1 : has_primary_selector ?e = Ok true,
         H : py_getitem ?e _ = Raise _ |- _ =>
           destruct e as [?|?|d];
           [| |destruct (dict_candidate_total d) as [_ Hs];
               destruct (Hs H1); congruence]
       end.
  all: repeat match type of Hdicts with
              | (_ && _) = true => apply andb_true_iff in Hdicts as [? Hdicts]
              end; done.
Qed.

End Runs.

(** C7, as stated, fails: the add workflow returns early after a mutating
    action.  Here the click on the add-user button succeeds and the form
    fill fails: the run ends in [False] after the fill, with no snapshot
    and no validation after the click. *)
Lemma provision_user_returns_after_click :
  let h := scripted [true] false [] in
  let tr := trace_of h
              (provision_user "dropbox" [] [("email", PStr "a@x.com")]) (0, 0) in
  count_events is_mutating tr = 2 /\
  validated_after_mutation tr = false /\
  existsb is_validation tr = false /\
  last tr = Some (Ev (FillForm [("input[name='memberEmail']", PStr "a@x.com")])
                     false) /\
  result_of h (provision_user "dropbox" [] [("email", PStr "a@x.com")]) (0, 0)
  = Ok false.
Proof. vm_compute. split_and!; reflexivity. Qed.

(** C7, amended.  The add and the remove workflows never raise, and they
    go on to the after-snapshot and the validation once their last guarded
    mutating action has succeeded: the submit click in the add workflow
    (the successful click after the form fill), the delete click in the
    remove workflow (the second click of the run), whatever the row click
    and the confirmation click answered, for answers of the oracle that
    are dictionaries.  The result is then the verdict of the validation.
    When that action did not succeed the workflow has returned [False]
    and no validation was run. *)
Theorem workflows_validate_after_last_action {W : Type} (h : Handler W)
    (w : W) (saas_id : string) (credentials : dict string string)
    (user_details : dict string PyVal) (user_email : string) :
  let add := provision_user saas_id credentials user_details in
  let remove := deprovision_user saas_id credentials user_email in
  ((exists verdict, result_of h add w = Ok verdict) /\
   (click_succeeded_after_fill (trace_of h add w) = true ->
      validated_after_mutation (trace_of h add w) = true /\
      result_of h add w = Ok (last_verdict (trace_of h add w))) /\
   (click_succeeded_after_fill (trace_of h add w) = false ->
      existsb is_validation (trace_of h add w) = false /\
      result_of h add w = Ok false)) /\
  ((exists verdict, result_of h remove w = Ok verdict) /\
   (second_click_succeeded (trace_of h remove w) = true ->
    answers_are_dicts (trace_of h remove w) = true ->
      validated_after_mutation (trace_of h remove w) = true /\
      result_of h remove w = Ok (last_verdict (trace_of h remove w))) /\
   (second_click_succeeded (trace_of h remove w) = false ->
      existsb is_validation (trace_of h remove w) = false /\
      result_of h remove w = Ok false)).
Proof.
  intros add remove. unfold result_of, trace_of. split.
  - pose proof (provision_user_runs h w saas_id credentials user_details) as H.
    fold add in H. by destruct (run h add w) as [[res tr] w'].
  - pose proof (deprovision_user_runs h w saas_id credentials user_email) as H.
    fold remove in H. by destruct (run h remove w) as [[res tr] w'].
Qed.

Lemma workflows_validate_after_last_action_witness :
  let selector s := elements_answer (JDict [("primary_selector", JVal (PStr s))]) in
  let add := provision_user "dropbox" [] [("email", PStr "a@x.com")] in
  let remove := deprovision_user "dropbox" [] "a@x.com" in
  let h_add := scripted [true; true] true
                 [selector "#save"; Ok [text_message "SUCCESS"]] in
  let h_remove := scripted [false; true; false] true
                    [selector "#row"; selector "#delete"; selector "#ok";
                     Ok [text_message "FAILED"]] in
  (validated_after_mutation (trace_of h_add add (0, 0)) = true /\
   result_of h_add add (0, 0) = Ok (last_verdict (trace_of h_add add (0, 0)))) /\
  (validated_after_mutation (trace_of h_remove remove (0, 0)) = true /\
   result_of h_remove remove (0, 0)
   = Ok (last_verdict (trace_of h_remove remove (0, 0)))).
Proof.
  intros selector add remove h_add h_remove. split.
  - apply (proj1 (proj2 (proj1 (workflows_validate_after_last_action h_add
             (0, 0) "dropbox" [] [("email", PStr "a@x.com")] "a@x.com")))).
    vm_compute. reflexivity.
  - apply (proj1 (proj2 (proj2 (workflows_validate_after_last_action h_remove
             (0, 0) "dropbox" [] [("email", PStr "a@x.com")] "a@x.com")))).
    + vm_compute. reflexivity.
    + vm_compute. reflexivity.
Defined.

(** ** More on the extraction pipeline *)

Section CleanTextForm.







End CleanTextForm.




(** An entry with padding around its email and no status. *)
Example process_raw_user_data_provenance_example :
  process_raw_user_data "2024-01-01T00:00:00" 
    [[("email", PStr "  a@x.com "); ("name", PStr " Ann   Lee ")];
     [("name", PStr "Bob")]] "Demo"
  = [ {| email := Some "a@x.com"; name := Some "Ann Lee"; role := None;
         last_login := None; status := Some "Unknown";
         extracted_at := Some "2024-01-01T00:00:00";
         source_saas := Some "Demo" |} ].
Proof. vm_compute. reflexivity. Qed.

(** X3.  [process_raw_user_data] treats the entries one by one and keeps
    their order: the output on a concatenation is the concatenation of the
    outputs, so it has at most one record per entry and a repeated entry
    is not merged.  An entry whose email is not a string (a null, a number,
    a boolean) raises inside the loop and is skipped, without effect on the
    entries around it. *)
Theorem process_raw_user_data_batch
    (current_time saas_name : string) :
  (forall l1 l2 : list (dict string PyVal),
     process_raw_user_data current_time (l1 ++ l2)%list saas_name
     = (process_raw_user_data current_time l1 saas_name
        ++ process_raw_user_data current_time l2 saas_name)%list) /\
  (forall l : list (dict string PyVal),
     length (process_raw_user_data current_time l saas_name) <= length l) /\
  (forall (before after : list (dict string PyVal)) (u : dict string PyVal) v,
     dict_get "email" u = Some v ->
     (forall s, v <> PStr s) ->
     process_raw_user_data current_time (before ++ u :: after)%list saas_name
     = (process_raw_user_data current_time before saas_name
        ++ process_raw_user_data current_time after saas_name)%list).
Proof.
  assert (forall l1 l2 : list (dict string PyVal),
     process_raw_user_data current_time (l1 ++ l2)%list saas_name
     = (process_raw_user_data current_time l1 saas_name
        ++ process_raw_user_data current_time l2 saas_name)%list) as Happ.
  { intros l1 l2. induction l1 as [|u l1 IH]; [done|].
    cbn [app process_raw_user_data].
    destruct (process_user current_time saas_name u) as [[r|]|e];
      cbn [app]; by rewrite IH. }
  split_and!; [exact Happ| |].
  - induction l as [|u l IH]; [done|]. cbn [process_raw_user_data].
    destruct (process_user current_time saas_name u) as [[r|]|e];
      cbn [length]; lia.
  - intros before after u v Hv Hns. rewrite Happ. f_equal.
    cbn [process_raw_user_data]. unfold process_user, dict_get_default.
    rewrite Hv. destruct v as [| | |s]; try done. by destruct (Hns s).
Qed.

Lemma process_raw_user_data_batch_witness :
  process_raw_user_data "2024-01-15T10:00:00"
    [ [("email", PStr "a@x.com")]; [("email", PNone); ("name", PStr "Ghost")];
      [("email", PStr "b@x.com")] ] "Demo SaaS"
  = (process_raw_user_data "2024-01-15T10:00:00" [[("email", PStr "a@x.com")]]
       "Demo SaaS"
     ++ process_raw_user_data "2024-01-15T10:00:00"
          [[("email", PStr "b@x.com")]] "Demo SaaS")%list.
Proof.
  apply (proj2 (proj2 (process_raw_user_data_batch "2024-01-15T10:00:00"
                         "Demo SaaS"))
           [[("email", PStr "a@x.com")]] [[("email", PStr "b@x.com")]]
           [("email", PNone); ("name", PStr "Ghost")] PNone).
  - reflexivity.
  - intros s. discriminate.
Defined.

(** ** More on the data sink *)

Section LoaderFacts.


Lemma asdict_inj r r' :
  (forall k, k ∈ fieldnames -> dict_get k (asdict r) = dict_get k (asdict r')) ->
  r = r'.
Proof.
  intros H. destruct r, r'.
  pose proof (H "email" ltac:(compute_done)) as H1.
  pose proof (H "name" ltac:(compute_done)) as H2.
  pose proof (H "role" ltac:(compute_done)) as H3.
  pose proof (H "last_login" ltac:(compute_done)) as H4.
  pose proof (H "status" ltac:(compute_done)) as H5.
  pose proof (H "extracted_at" ltac:(compute_done)) as H6.
  pose proof (H "source_saas" ltac:(compute_done)) as H7.
  vm_compute in H1, H2, H3, H4, H5, H6, H7. congruence.
Qed.

End LoaderFacts.



(** The entry with an unexpected key makes the whole file load as empty. *)
Example load_existing_data_one_bad_entry :
  let good := JDict [("email", JVal (PStr "a@x.com"))] in
  let bad := JDict [("email", JVal (PStr "b@x.com")); ("phone", JVal (PStr "555"))] in
  load_existing_data
    {[ "users.json" := JsonFile (JDict [("users", JList [good; bad])]) ]}
    "users.json" = [] /\
  length (load_existing_data
    {[ "users.json" := JsonFile (JDict [("users", JList [good])]) ]}
    "users.json") = 1.
Proof. vm_compute. split; reflexivity. Qed.


Section CsvRoundTrip.

Lemma asdict_total r k :
  k ∈ fieldnames -> exists x, dict_get k (asdict r) = Some x.
Proof.
  intros Hk. unfold fieldnames in Hk.
  repeat (apply elem_of_cons in Hk as [->|Hk]; [by eexists|]).
  by apply elem_of_nil in Hk.
Qed.

(** A text without carriage return passes the newline translation as it
    is. *)
Lemma universal_newlines_id v :
  has_char "013"%char v = false -> universal_newlines v = v.
Proof.
  induction v as [|c t IH]; [done|]. cbn [has_char universal_newlines].
  intros [Hc Ht]%orb_false_iff. rewrite Hc. by rewrite IH.
Qed.

Lemma csv_safe_fits r : csv_safe r -> fits_csv r.
Proof.
  intros Hsafe k v Hk. destruct (Hsafe k v Hk) as (_ & _ & Hcr & _ & Hlimit).
  by rewrite universal_newlines_id.
Qed.

Lemma absent_if_marker_csv_cell r k x :
  csv_safe r -> dict_get k (asdict r) = Some x ->
  absent_if_marker (universal_newlines (csv_cell x)) = x.
Proof.
  intros Hsafe Hk. destruct x as [v|]; [|done].
  destruct (Hsafe k v Hk) as (H1 & H2 & Hcr & _ & _).
  cbn [csv_cell]. rewrite universal_newlines_id by done.
  unfold absent_if_marker. by rewrite !bool_decide_eq_false_2.
Qed.

Lemma csv_safe_rows_load_back (users loaded : list UserRecord) :
  Forall csv_safe users ->
  Forall2 (fun user r' =>
             forall i k cell,
               fieldnames !! i = Some k ->
               ((fun k => universal_newlines
                            (csv_cell (dict_get_default k None (asdict user))))
                  <$> fieldnames) !! i = Some cell ->
               dict_get k (asdict r') = Some (absent_if_marker cell))
          users loaded ->
  loaded = users.
Proof.
  intros Hsafe HR. induction HR as [|user r' users loaded HR _ IH]; [done|].
  apply Forall_cons in Hsafe as [Huser Hsafe]. f_equal; [|by apply IH].
  apply asdict_inj. intros k Hk.
  destruct (asdict_total user k Hk) as [x Hx].
  apply list_elem_of_lookup in Hk as [j Hj].
  rewrite (HR j k (universal_newlines (csv_cell x))); [|done|].
  - by rewrite Hx, (absent_if_marker_csv_cell user k x).
  - rewrite list_lookup_fmap, Hj. cbn. unfold dict_get_default. by rewrite Hx.
Qed.

End CsvRoundTrip.

(** X5.  When [save_to_csv] writes the file, loading it with
    [load_existing_data] gives the same records, provided each text of a
    record is not empty, not the text ["None"], holds no carriage return
    and no NUL, and is within the field limit of the CSV reader; absent
    fields come back absent, and the empty list, for which no file is
    written, comes back empty. *)
Theorem save_then_load_csv
    (output_dir stamp : string) (users : list UserRecord)
    (filename : option string) (fs : gmap string File) :
  (forall f, filename = Some f -> PyStr.endswith f ".csv" = true) ->
  Forall csv_safe users ->
  load_existing_data
    (save_to_csv output_dir stamp users filename Written fs).2
    (save_to_csv output_dir stamp users filename Written fs).1
  = users.
Proof.
  intros Hname Hsafe. unfold save_to_csv.
  set (file := match filename with
               | Some f => f
               | None => "users_data_" +:+ stamp +:+ ".csv"
               end).
  assert (PyStr.endswith (path_join output_dir file) ".csv" = true) as Hcsv.
  { apply path_join_endswith. subst file. destruct filename as [f|]; [auto|].
    repeat apply endswith_app. reflexivity. }
  destruct users as [|u users']; [done|].
  set (users := u :: users') in *. cbn [fst snd].
  assert (Forall fits_csv users) as Hfits.
  { eapply Forall_impl; [exact Hsafe|]. apply csv_safe_fits. }
  pose proof (load_csv_full_rows _ (path_join output_dir file) _ _ _ Hcsv
                (lookup_insert_eq fs _ _)
                (csv_reader_saved users Hfits) fieldnames_NoDup
                (fun x H => H) ltac:(by left)) as HR.
  assert (Forall (fun row : list string => length row = length fieldnames)
            ((fun user =>
                (fun k => universal_newlines
                            (csv_cell (dict_get_default k None (asdict user))))
                  <$> fieldnames) <$> users)) as Hfull.
  { apply Forall_fmap, Forall_forall. intros user _.
    cbn [compose]. by rewrite length_fmap. }
  specialize (HR Hfull). apply Forall2_fmap_l in HR.
  by apply csv_safe_rows_load_back.
Qed.

Lemma save_then_load_csv_witness :
  let users := [
    {| email := Some "jane.smith@example.com"; name := Some "Jane Smith";
       role := None; last_login := None; status := Some "Active";
       extracted_at := Some "2024-01-15T10:00:00";
       source_saas := Some "Demo SaaS" |} ] in
  load_existing_data
    (save_to_csv "./demo_output/" "20240115_100000" users
       (Some "demo_users.csv") Written ∅).2
    "./demo_output/demo_users.csv"
  = users.
Proof.
  intros users.
  apply (save_then_load_csv "./demo_output/" "20240115_100000" users
           (Some "demo_users.csv") ∅).
  - intros f [= <-]. reflexivity.
  - constructor; [|constructor]. intros k v Hk.
    unfold asdict in Hk. cbn [dict_get] in Hk.
    repeat (case_bool_decide;
            [first [discriminate Hk
                   |injection Hk as <-;
                    split_and!;
                    [discriminate|discriminate|reflexivity|reflexivity
                    |reflexivity]]|]).
    done.
Defined.

(** A carriage return in a field comes back as a line feed. *)
Example save_then_load_csv_carriage_return :
  let cr := String "013"%char EmptyString in
  let lf := String "010"%char EmptyString in
  let user n := {| email := Some "a@x.com"; name := Some n; role := None;
                   last_login := None; status := None; extracted_at := None;
                   source_saas := None |} in
  load_existing_data
    (save_to_csv "./demo_output/" "20240115_100000"
       [user ("Ann" +:+ cr +:+ lf +:+ "Lee" +:+ cr)]
       (Some "demo_users.csv") Written ∅).2
    "./demo_output/demo_users.csv"
  = [user ("Ann" +:+ lf +:+ "Lee" +:+ lf)].
Proof. vm_compute. reflexivity. Qed.


Section CompareCounts.

Lemma size_email_set (d : list UserRecord) :
  size (email_set d) = length (remove_dups (email <$> d)).
Proof.
  unfold email_set.
  rewrite <- (size_list_to_set (C:=gset (option string)) (remove_dups (email <$> d)))
    by apply NoDup_remove_dups.
  f_equal. apply set_eq. intros e.
  by rewrite !elem_of_list_to_set, elem_of_remove_dups.
Qed.

Lemma size_split (X Y : gset (option string)) :
  size (X ∩ Y) + size (X ∖ Y) = size X.
Proof.
  rewrite <- size_union.
  - f_equal. apply set_eq. intros e.
    rewrite elem_of_union, elem_of_intersection, elem_of_difference.
    destruct (decide (e ∈ Y)); tauto.
  - intros e [_ Hin]%elem_of_intersection [_ Hout]%elem_of_difference. done.
Qed.

End CompareCounts.

(** X7.  The counts of [compare_datasets] add up: the common users and the
    removed users together are the distinct emails of the first dataset,
    the common users and the added users those of the second; the two
    dataset counts are the lengths of the lists, repetitions included; the
    common count does not depend on the order of the two datasets; and a
    dataset compared with itself has nothing added or removed. *)
Theorem compare_datasets_counts (added_order removed_order : SetOrder)
    (now : string) (d1 d2 : list UserRecord) :
  let compare := compare_datasets added_order removed_order now in
  let c := compare d1 d2 in
  dataset1_count c = length d1 /\
  dataset2_count c = length d2 /\
  common_users_count c + length (removed_users c)
    = length (remove_dups (email <$> d1)) /\
  common_users_count c + length (added_users c)
    = length (remove_dups (email <$> d2)) /\
  common_users_count c = common_users_count (compare d2 d1) /\
  added_users (compare d1 d1) = [] /\
  removed_users (compare d1 d1) = [] /\
  common_users_count (compare d1 d1)
    = length (remove_dups (email <$> d1)).
Proof.
  intros compare c. subst c compare. unfold compare_datasets.
  cbn [dataset1_count dataset2_count added_users removed_users
       common_users_count].
  split_and!; try done.
  - rewrite <- size_email_set, listing_elements. apply size_split.
  - rewrite <- size_email_set, listing_elements.
    rewrite (comm_L (∩) (email_set d1) (email_set d2)). apply size_split.
  - by rewrite (comm_L (∩) (email_set d1) (email_set d2)).
  - rewrite difference_diag_L. apply Permutation_nil_r.
    rewrite listing_elements. by rewrite elements_empty.
  - rewrite difference_diag_L. apply Permutation_nil_r.
    rewrite listing_elements. by rewrite elements_empty.
  - rewrite <- size_email_set. f_equal. apply (idemp_L (∩)).
Qed.

(** ** The report *)


Section Report.

Lemma dict_get_set_eq {V} (k : string) (v : V) (d : dict string V) :
  dict_get k (dict_set k v d) = Some v.
Proof.
  induction d as [|[k0 v0] d IH]; cbn [dict_set dict_get].
  - by rewrite bool_decide_eq_true_2.
  - case_bool_decide as H0; cbn [dict_get].
    + by rewrite bool_decide_eq_true_2.
    + by rewrite bool_decide_eq_false_2.
Qed.

Lemma dict_set_keys {V} (k : string) (v : V) (d : dict string V) :
  NoDup d.*1 -> NoDup (dict_set k v d).*1.
Proof.
  induction d as [|[k0 v0] d IH]; cbn [dict_set fmap list_fmap fst].
  - intros _. apply NoDup_singleton.
  - intros [Hnin Hnd]%NoDup_cons. case_bool_decide as H0.
    + subst k0. cbn [fmap list_fmap fst]. by apply NoDup_cons.
    + cbn [fmap list_fmap fst]. apply NoDup_cons. split; [|by apply IH].
      intros Hin. apply Hnin. clear -Hin H0.
      induction d as [|[k1 v1] d IH]; cbn [dict_set fmap list_fmap fst] in *.
      * apply list_elem_of_singleton in Hin. congruence.
      * case_bool_decide; cbn [fmap list_fmap fst] in Hin.
        -- subst k1. apply elem_of_cons in Hin as [->|Hin]; [done|].
           by right.
        -- apply elem_of_cons in Hin as [->|Hin]; [by left|].
           right. by apply IH.
Qed.

Lemma sum_count_key k counts :
  sum_list (count_key k counts).*2 = S (sum_list counts.*2).
Proof.
  unfold count_key, dict_get_default.
  induction counts as [|[k0 v0] d IH]; cbn [dict_get dict_set].
  - reflexivity.
  - case_bool_decide; rewrite !fmap_cons; cbn [snd sum_list sum_list_with id].
    + lia.
    + rewrite IH. lia.
Qed.

Lemma get_count_key k k' counts :
  dict_get_default k 0 (count_key k' counts)
  = dict_get_default k 0 counts + (if bool_decide (k' = k) then 1 else 0).
Proof.
  unfold count_key. unfold dict_get_default at 1. case_bool_decide as Hk.
  - subst k'. rewrite dict_get_set_eq. lia.
  - rewrite dict_get_set_ne by done. unfold dict_get_default. lia.
Qed.

Lemma count_by_spec key users counts :
  let result := count_by key users counts in
  sum_list result.*2 = sum_list counts.*2 + length users /\
  (forall k, dict_get_default k 0 result
             = dict_get_default k 0 counts
               + length (filter (fun user => key user = k) users)) /\
  (NoDup counts.*1 -> NoDup result.*1).
Proof.
  revert counts. induction users as [|u users IH]; intros counts.
  - cbn [count_by fold_left length]. split_and!; [lia| |done].
    intros k. rewrite filter_nil. cbn [length]. lia.
  - cbn [count_by fold_left]. destruct (IH (count_key (key u) counts))
      as (Hsum & Hget & Hnd). fold (count_by key users (count_key (key u) counts)).
    split_and!.
    + rewrite Hsum, sum_count_key. cbn [length]. lia.
    + intros k. rewrite Hget, get_count_key.
      rewrite filter_cons. case_bool_decide as Hk.
      * rewrite decide_True by done. cbn [length]. lia.
      * rewrite decide_False by done. lia.
    + intros H. apply Hnd. by apply dict_set_keys.
Qed.

Lemma fold_counts_split (users : list UserRecord)
    (s r st : dict string nat) :
  fold_left
    (fun (counts : dict string nat * dict string nat * dict string nat) user =>
       let '(saas_counts, role_counts, status_counts) := counts in
       (count_key (or_unknown (source_saas user)) saas_counts,
        count_key (or_unknown (role user)) role_counts,
        count_key (or_unknown (status user)) status_counts))
    users (s, r, st)
  = (count_by (fun user => or_unknown (source_saas user)) users s,
     count_by (fun user => or_unknown (role user)) users r,
     count_by (fun user => or_unknown (status user)) users st).
Proof.
  revert s r st. induction users as [|u users IH]; intros s r st; [done|].
  cbn [fold_left count_by]. by rewrite IH.
Qed.

End Report.

(** X8.  [generate_report] answers the error ["No user data available"]
    exactly for the empty list.  Otherwise the total is the number of
    records, the number of unique emails is the number of distinct emails
    and is at most the total, each of the three breakdowns has distinct
    keys and counts that add up to the total, the count under a key is the
    number of records with that value (["Unknown"] standing for an absent
    or empty one), and the sample is the first five records at most. *)
Theorem generate_report_counts (now : string) (users : list UserRecord) :
  (users = [] <-> generate_report now users = ReportError "No user data available") /\
  (users <> [] ->
   exists report,
     generate_report now users = ReportOk report /\
     total_users (summary report) = length users /\
     unique_emails (summary report) = length (remove_dups (email <$> users)) /\
     unique_emails (summary report) <= total_users (summary report) /\
     sum_list (by_saas (breakdown report)).*2 = length users /\
     sum_list (by_role (breakdown report)).*2 = length users /\
     sum_list (by_status (breakdown report)).*2 = length users /\
     NoDup (by_saas (breakdown report)).*1 /\
     NoDup (by_role (breakdown report)).*1 /\
     NoDup (by_status (breakdown report)).*1 /\
     (forall k,
        dict_get_default k 0 (by_saas (breakdown report))
        = length (filter (fun u => or_unknown (source_saas u) = k) users) /\
        dict_get_default k 0 (by_role (breakdown report))
        = length (filter (fun u => or_unknown (role u) = k) users) /\
        dict_get_default k 0 (by_status (breakdown report))
        = length (filter (fun u => or_unknown (status u) = k) users)) /\
     sample_users report = asdict <$> take 5 users /\
     length (sample_users report) <= 5).
Proof.
  split.
  - destruct users; [done|]. split; [done|]. cbn [generate_report]. done.
  - intros Hne. destruct users as [|u users']; [done|].
    set (users := u :: users') in *. eexists. split.
    { unfold generate_report. subst users. cbv beta iota.
      rewrite fold_counts_split. reflexivity. }
    cbn [summary breakdown total_users unique_emails by_saas by_role by_status
         sample_users fst snd].
    destruct (count_by_spec (fun user => or_unknown (source_saas user)) users [])
      as (Hs1 & Hs2 & Hs3).
    destruct (count_by_spec (fun user => or_unknown (role user)) users [])
      as (Hr1 & Hr2 & Hr3).
    destruct (count_by_spec (fun user => or_unknown (status user)) users [])
      as (Ht1 & Ht2 & Ht3).
    cbv zeta in *.
    split_and!; try done.
    + apply size_email_set.
    + rewrite size_email_set.
      apply (Nat.le_trans _ (length (email <$> users))).
      * apply submseteq_length.
        apply NoDup_submseteq; [apply NoDup_remove_dups|].
        intros e. by rewrite elem_of_remove_dups.
      * by rewrite length_fmap.
    + by apply Hs3, NoDup_nil.
    + by apply Hr3, NoDup_nil.
    + by apply Ht3, NoDup_nil.
    + rewrite length_fmap, length_take. lia.
Qed.

Lemma generate_report_counts_witness :
  let users := [
    {| email := Some "a@x.com"; name := None; role := Some "Admin";
       last_login := None; status := None; extracted_at := None;
       source_saas := Some "Demo SaaS" |};
    {| email := Some "a@x.com"; name := None; role := Some "";
       last_login := None; status := Some "Active"; extracted_at := None;
       source_saas := Some "Demo SaaS" |} ] in
  exists report,
    generate_report "2024-01-15" users = ReportOk report /\
    total_users (summary report) = 2 /\
    unique_emails (summary report) = 1 /\
    by_role (breakdown report) = [("Admin", 1); ("Unknown", 1)].
Proof.
  intros users.
  destruct (proj2 (generate_report_counts "2024-01-15" users))
    as (report & Hreport & Htotal & Hunique & _); [discriminate|].
  exists report. split; [exact Hreport|]. split; [exact Htotal|].
  split; [exact Hunique|].
  vm_compute in Hreport. injection Hreport as <-. reflexivity.
Defined.

(** ** More on the AI agent *)

Section AgentRuns.
Context {W : Type} (h : Handler W).

Lemma run_extract_users_from_html (w : W) (html saas : string) :
  run h (extract_users_from_html html saas) w
  = let request := extract_users_request html saas in
    let answer := h (ChatCompletion request) w in
    (Ok match extract_users_result answer.1 with
        | Ok users => users
        | Raise _ => JList []
        end,
     [Ev (ChatCompletion request) answer.1], answer.2).
Proof.
  unfold run, extract_users_from_html. run_step h.
  by destruct (extract_users_result answer).
Qed.

Lemma run_find_ui_elements (w : W) (html task : string) :
  run h (find_ui_elements html task) w
  = let request := find_ui_elements_request html task in
    let answer := h (ChatCompletion request) w in
    (Ok match find_ui_elements_result answer.1 with
        | Ok elements => elements
        | Raise _ => JDict []
        end,
     [Ev (ChatCompletion request) answer.1], answer.2).
Proof.
  unfold run, find_ui_elements. run_step h.
  by destruct (find_ui_elements_result answer).
Qed.

Lemma run_analyze_ui_changes (w : W) (old_html new_html : string) :
  run h (analyze_ui_changes old_html new_html) w
  = let request := analyze_ui_changes_request old_html new_html in
    let answer := h (ChatCompletion request) w in
    (Ok match analyze_ui_changes_result answer.1 with
        | Ok changes => changes
        | Raise _ =>
            {| has_changes := false; analysis := EmptyString;
               confidence :=
                 Decimal.Decimal (Decimal.Pos (Decimal.D0 Decimal.Nil))
                                 (Decimal.D0 Decimal.Nil) |}
        end,
     [Ev (ChatCompletion request) answer.1], answer.2).
Proof.
  unfold run, analyze_ui_changes. run_step h.
  by destruct (analyze_ui_changes_result answer).
Qed.

End AgentRuns.

(** X9.  [extract_users_from_html] sends one chat request and never
    raises.  When the first choice of the answer calls the function
    [extract_user_data] with arguments that decode to an object, it
    returns the [users] entry of that object as it is, provided the entry
    has a length (an object without the entry gives the empty list).  In
    every other case (another function, no function call, no choice,
    arguments that do not decode to an object, an entry without length,
    a failed call) it returns the empty list. *)
Theorem extract_users_from_html_outcome {W : Type} (h : Handler W) (w : W)
    (html_content saas_name : string) :
  let request := extract_users_request html_content saas_name in
  let response := (h (ChatCompletion request) w).1 in
  exists users,
    run h (extract_users_from_html html_content saas_name) w
    = (Ok users, [Ev (ChatCompletion request) response],
       (h (ChatCompletion request) w).2) /\
    (forall message rest fc result,
       response = Ok (message :: rest) ->
       function_call message = Some fc ->
       fc_name fc = "extract_user_data" ->
       arguments fc = Ok (JDict result) ->
       match dict_get "users" result with
       | Some entry =>
           match py_len entry with
           | Ok _ => users = entry
           | Raise _ => users = JList []
           end
       | None => users = JList []
       end) /\
    (users <> JList [] ->
     exists message rest fc result,
       response = Ok (message :: rest) /\
       function_call message = Some fc /\
       fc_name fc = "extract_user_data" /\
       arguments fc = Ok (JDict result) /\
       dict_get "users" result = Some users).
Proof.
  intros request response. rewrite run_extract_users_from_html.
  cbv zeta. fold request. fold response.
  eexists. split; [reflexivity|].
  unfold extract_users_result. split.
  - intros message rest fc result -> Hfc Hname Hargs.
    cbn [mbind exc_bind first_choice]. rewrite Hfc.
    rewrite bool_decide_eq_true_2 by done. rewrite Hargs.
    cbn [mbind exc_bind py_get]. unfold dict_get_default.
    destruct (dict_get "users" result) as [entry|]; [|done].
    by destruct (py_len entry).
  - destruct response as [[|message rest]|e];
      cbn [mbind exc_bind first_choice]; try done.
    destruct (function_call message) as [fc|] eqn:Hfc; [|done].
    case_bool_decide as Hname; [|done].
    destruct (arguments fc) as [[v|l|d]|e] eqn:Hargs;
      cbn [mbind exc_bind py_get]; try done.
    unfold dict_get_default.
    destruct (dict_get "users" d) as [users|] eqn:Husers; [|done].
    destruct (py_len users) as [n|e] eqn:Hlen;
      cbn [mbind exc_bind mret exc_ret]; [|done].
    intros _. by exists message, rest, fc, d.
Qed.

Lemma extract_users_from_html_outcome_witness :
  let entry := JDict [("email", JVal (PStr "a@x.com"))] in
  let answer := Ok [ {| content := None;
      function_call := Some {| fc_name := "extract_user_data";
                               arguments := Ok (JDict [("users", JList [entry])]) |} |} ] in
  result_of (scripted [] true [answer])
    (extract_users_from_html "<table/>" "Demo SaaS") (0, 0)
  = Ok (JList [entry]).
Proof.
  intros entry answer.
  destruct (extract_users_from_html_outcome (scripted [] true [answer]) (0, 0)
              "<table/>" "Demo SaaS") as (users & Hrun & Hgood & _).
  unfold result_of. rewrite Hrun. cbn [fst]. f_equal.
  exact (Hgood _ [] _ [("users", JList [entry])] eq_refl eq_refl eq_refl eq_refl).
Defined.

(** The users of a well-formed answer are returned as they are; a null
    [users] entry, which has no length, gives the empty list. *)
Example extract_users_from_html_example :
  let answer users := Ok [ {| content := None;
      function_call := Some {| fc_name := "extract_user_data";
                               arguments := Ok (JDict [("users", users)]) |} |} ] in
  let entry := JDict [("email", JVal (PStr "a@x.com"))] in
  result_of (scripted [] true [answer (JList [entry])])
    (extract_users_from_html "<table/>" "Demo SaaS") (0, 0) = Ok (JList [entry]) /\
  result_of (scripted [] true [answer (JVal PNone)])
    (extract_users_from_html "<table/>" "Demo SaaS") (0, 0) = Ok (JList []) /\
  result_of (scripted [] true [elements_answer (JList [entry])])
    (extract_users_from_html "<table/>" "Demo SaaS") (0, 0) = Ok (JList []).
Proof. vm_compute. split_and!; reflexivity. Qed.

Section FormData.





End FormData.



Section Prefixes.

Lemma points_from_take (point : N) (n : nat) (s : string) :
  PyStr.points_from point (PyStr.take_points n s)
  = take (S n) (PyStr.points_from point s).
Proof.
  revert point n. induction s as [|c t IH]; intros point n; [by destruct n|].
  cbn [PyStr.take_points PyStr.points_from].
  destruct (PyStr.is_continuation c) eqn:Hc.
  - cbn [PyStr.points_from]. rewrite Hc. apply IH.
  - destruct n as [|n]; [done|].
    cbn [PyStr.points_from]. rewrite Hc. cbn [take]. f_equal. apply IH.
Qed.

(** Cutting a text cuts its code points. *)
Lemma points_take (n : N) (s : string) :
  at_boundary s = true ->
  PyStr.points (PyStr.take n s) = take (N.to_nat n) (PyStr.points s).
Proof.
  unfold PyStr.take. destruct s as [|c t]; [by destruct (N.to_nat n)|].
  cbn [at_boundary]. intros Hc%negb_true_iff.
  cbn [PyStr.take_points]. rewrite Hc.
  destruct (N.to_nat n) as [|k]; [done|].
  cbn [PyStr.points]. apply points_from_take.
Qed.

Lemma take_points_idemp (n : nat) (s : string) :
  PyStr.take_points n (PyStr.take_points n s) = PyStr.take_points n s.
Proof.
  revert n. induction s as [|c t IH]; intros n; [done|].
  cbn [PyStr.take_points]. destruct (PyStr.is_continuation c) eqn:Hc.
  - cbn [PyStr.take_points]. by rewrite Hc, IH.
  - destruct n as [|n]; [done|]. cbn [PyStr.take_points]. by rewrite Hc, IH.
Qed.

Lemma take_take (n : N) (s : string) :
  PyStr.take n (PyStr.take n s) = PyStr.take n s.
Proof. apply take_points_idemp. Qed.

Lemma take_points_prefix (n : nat) (s : string) :
  String.prefix (PyStr.take_points n s) s = true.
Proof.
  revert n. induction s as [|c t IH]; intros n; [done|].
  cbn [PyStr.take_points]. destruct (PyStr.is_continuation c).
  - cbn [String.prefix]. destruct (ascii_dec c c); [apply IH|done].
  - destruct n as [|n]; [done|].
    cbn [String.prefix]. destruct (ascii_dec c c); [apply IH|done].
Qed.

End Prefixes.

(** X11.  The chat requests of the agent hold a bounded part of each
    page, cut by characters and not by bytes: the prefix the agent takes
    has as its code points the first [n] code points of the page, so at
    most [n] characters, and is an initial part of the page.  The request
    of [find_ui_elements] holds the first 10000 characters of the page,
    those of [validate_action_success] and [analyze_ui_changes] the first
    5000 of each of their two pages, that of [extract_users_from_html]
    the first 15000; and nothing else of a page reaches the request: the
    request for a page is the request for that prefix of it. *)
Theorem oracle_requests_bounded (n : N) (html other task action saas : string) :
  at_boundary html = true ->
  (PyStr.points (PyStr.take n html) = take (N.to_nat n) (PyStr.points html) /\
   PyStr.len (PyStr.take n html) <= N.to_nat n /\
   String.prefix (PyStr.take n html) html = true) /\
  (PyStr.contains (PyStr.take 10000 html)
     (prompt (find_ui_elements_request html task)) = true /\
   PyStr.contains (PyStr.take 5000 html)
     (prompt (validate_action_success_request html other action)) = true /\
   PyStr.contains (PyStr.take 5000 other)
     (prompt (validate_action_success_request html other action)) = true /\
   PyStr.contains (PyStr.take 5000 html)
     (prompt (analyze_ui_changes_request html other)) = true /\
   PyStr.contains (PyStr.take 5000 other)
     (prompt (analyze_ui_changes_request html other)) = true /\
   PyStr.contains (PyStr.take 15000 html)
     (prompt (extract_users_request html saas)) = true) /\
  (find_ui_elements_request (PyStr.take 10000 html) task
   = find_ui_elements_request html task /\
   validate_action_success_request
     (PyStr.take 5000 html) (PyStr.take 5000 other) action
   = validate_action_success_request html other action /\
   analyze_ui_changes_request (PyStr.take 5000 html) (PyStr.take 5000 other)
   = analyze_ui_changes_request html other /\
   extract_users_request (PyStr.take 15000 html) saas
   = extract_users_request html saas).
Proof.
  intros Hhtml. split_and!.
  1: by apply points_take.
  1: unfold PyStr.len; rewrite points_take by done; rewrite length_take; lia.
  1: apply take_points_prefix.
  1-6: cbn [prompt find_ui_elements_request validate_action_success_request
            analyze_ui_changes_request extract_users_request];
       unfold find_ui_elements_prompt, validate_action_success_prompt,
         analyze_ui_changes_prompt, extract_users_prompt;
       repeat first [ apply contains_prefix | apply contains_app_r ].
  all: unfold find_ui_elements_request, find_ui_elements_prompt,
         validate_action_success_request, validate_action_success_prompt,
         analyze_ui_changes_request, analyze_ui_changes_prompt,
         extract_users_request, extract_users_prompt;
       by rewrite !take_take.
Qed.

Lemma oracle_requests_bounded_witness :
  let page := "caf" +:+ sharp_s +:+ "!" in
  PyStr.take 4 page = "caf" +:+ sharp_s /\
  PyStr.len (PyStr.take 4 page) <= 4.
Proof.
  intros page.
  destruct (oracle_requests_bounded 4 page "" "" "" "" eq_refl)
    as ((Hpoints & Hlen & _) & _).
  split; [reflexivity|exact Hlen].
Defined.

Section LetterCase.

Lemma lower_upper_char c :
  PyStr.lower_char (PyStr.ascii_upper_char c) = PyStr.lower_char c.
Proof. by destruct c as [[] [] [] [] [] [] [] []]; vm_compute. Qed.

Lemma lower_upper s : PyStr.lower (PyStr.ascii_upper s) = PyStr.lower s.
Proof.
  induction s as [|c s IH]; [done|]. cbn [PyStr.ascii_upper PyStr.lower].
  by rewrite lower_upper_char, IH.
Qed.

End LetterCase.

(** X12.  [analyze_ui_changes] sends one chat request and never raises.
    When the call fails, or the answer has no choice or no text, it
    reports no change, an empty analysis and the confidence 0.0.
    Otherwise the analysis is the text of the answer, the confidence is
    0.8 whatever the text says, and a change is reported exactly when the
    text holds the phrase ["changes detected"], in any letter case. *)
Theorem analyze_ui_changes_outcome {W : Type} (h : Handler W) (w : W)
    (old_html new_html : string) :
  let request := analyze_ui_changes_request old_html new_html in
  let response := (h (ChatCompletion request) w).1 in
  let no_change :=
    {| has_changes := false; analysis := EmptyString;
       confidence := Decimal.Decimal (Decimal.Pos (Decimal.D0 Decimal.Nil))
                                     (Decimal.D0 Decimal.Nil) |} in
  exists changes,
    run h (analyze_ui_changes old_html new_html) w
    = (Ok changes, [Ev (ChatCompletion request) response],
       (h (ChatCompletion request) w).2) /\
    (forall message rest text,
       response = Ok (message :: rest) -> content message = Some text ->
       analysis changes = text /\
       confidence changes
       = Decimal.Decimal (Decimal.Pos (Decimal.D0 Decimal.Nil))
                         (Decimal.D8 Decimal.Nil) /\
       has_changes changes = PyStr.contains "changes detected" (PyStr.lower text) /\
       PyStr.contains "changes detected" (PyStr.lower (PyStr.ascii_upper text))
       = has_changes changes) /\
    ((forall message rest text,
        response = Ok (message :: rest) -> content message <> Some text) ->
     changes = no_change).
Proof.
  intros request response no_change. rewrite run_analyze_ui_changes.
  cbv zeta. fold request. fold response.
  eexists. split; [reflexivity|].
  unfold analyze_ui_changes_result.
  destruct response as [[|message rest]|e]; cbn [mbind exc_bind first_choice].
  - split; [by intros ? ? ? [=]|done].
  - destruct (content message) as [text|] eqn:Htext;
      cbn [mbind exc_bind mret exc_ret].
    + split.
      * intros m r t [= <- <-] Ht. rewrite Htext in Ht. injection Ht as <-.
        cbn [analysis confidence has_changes]. by rewrite lower_upper.
      * intros Hno. by destruct (Hno message rest text).
    + split; [|done]. intros m r t [= <- <-] Ht. congruence.
  - split; [by intros ? ? ? [=]|done].
Qed.

Lemma analyze_ui_changes_outcome_witness :
  result_of (scripted [] true [Ok [text_message "Changes Detected: new row"]])
    (analyze_ui_changes "<a/>" "<b/>") (0, 0)
  = Ok {| has_changes := true; analysis := "Changes Detected: new row";
          confidence := Decimal.Decimal (Decimal.Pos (Decimal.D0 Decimal.Nil))
                                        (Decimal.D8 Decimal.Nil) |}.
Proof.
  destruct (analyze_ui_changes_outcome
              (scripted [] true [Ok [text_message "Changes Detected: new row"]])
              (0, 0) "<a/>" "<b/>") as (changes & Hrun & Htext & _).
  unfold result_of. rewrite Hrun. cbn [fst].
  destruct (Htext (text_message "Changes Detected: new row") []
              "Changes Detected: new row" eq_refl eq_refl)
    as (Ha & Hc & Hh & _).
  destruct changes as [hc a c]. cbn in Ha, Hc, Hh. by subst.
Defined.

(** X13.  [find_ui_elements] sends one chat request and never raises.
    When the first choice of the answer holds a function call whose
    arguments decode to an object, it returns the [elements] entry of
    that object, of whatever kind (the name of the function is not
    looked at), and the empty dictionary when the object has no such
    entry.  In every other case (no function call, no choice, arguments
    that do not decode to an object, a failed call) it returns the empty
    dictionary. *)
Theorem find_ui_elements_outcome {W : Type} (h : Handler W) (w : W)
    (html_content task_description : string) :
  let request := find_ui_elements_request html_content task_description in
  let response := (h (ChatCompletion request) w).1 in
  exists elements,
    run h (find_ui_elements html_content task_description) w
    = (Ok elements, [Ev (ChatCompletion request) response],
       (h (ChatCompletion request) w).2) /\
    (forall message rest fc result,
       response = Ok (message :: rest) ->
       function_call message = Some fc ->
       arguments fc = Ok (JDict result) ->
       elements
       = match dict_get "elements" result with
         | Some entry => entry
         | None => JDict []
         end) /\
    (elements <> JDict [] ->
     exists message rest fc result,
       response = Ok (message :: rest) /\
       function_call message = Some fc /\
       arguments fc = Ok (JDict result) /\
       dict_get "elements" result = Some elements).
Proof.
  intros request response. rewrite run_find_ui_elements.
  cbv zeta. fold request. fold response.
  eexists. split; [reflexivity|].
  unfold find_ui_elements_result. split.
  - intros message rest fc result -> Hfc Hargs.
    cbn [mbind exc_bind first_choice]. rewrite Hfc, Hargs.
    cbn [mbind exc_bind py_get]. unfold dict_get_default.
    by destruct (dict_get "elements" result).
  - destruct response as [[|message rest]|e];
      cbn [mbind exc_bind first_choice]; try done.
    destruct (function_call message) as [fc|] eqn:Hfc; [|done].
    destruct (arguments fc) as [[v|l|d]|e] eqn:Hargs;
      cbn [mbind exc_bind py_get]; try done.
    unfold dict_get_default.
    destruct (dict_get "elements" d) as [elements|] eqn:Hel; [|done].
    intros _. by exists message, rest, fc, d.
Qed.

Lemma find_ui_elements_outcome_witness :
  let entry := JDict [("primary_selector", JVal (PStr "#invite"))] in
  result_of (scripted [] true [elements_answer entry])
    (find_ui_elements "<html></html>" "Find the invite button") (0, 0)
  = Ok entry.
Proof.
  intros entry.
  destruct (find_ui_elements_outcome (scripted [] true [elements_answer entry])
              (0, 0) "<html></html>" "Find the invite button")
    as (elements & Hrun & Hgood & _).
  unfold result_of. rewrite Hrun. cbn [fst]. f_equal.
  exact (Hgood _ [] _ [("elements", entry)] eq_refl eq_refl eq_refl).
Defined.

(** ** More on the workflows *)

Section Shapes.
Context {W : Type} (h : Handler W).

(** What every run of [provision_user] looks like. *)
Lemma provision_user_shape (w : W) (saas_id : string)
    (credentials : dict string string) (user_details : dict string PyVal) :
  let '(res, tr, _) :=
    run h (provision_user saas_id credentials user_details) w in
  (res = Ok true ->
     last_verdict tr = true /\ existsb is_validation tr = true /\
     validated_after_mutation tr = true) /\
  (count_events is_oracle_call tr <= 3 /\ count_events is_click tr <= 3 /\
   count_events is_fill tr <= 1 /\ count_events is_validation tr <= 1) /\
  (count_events touches_page tr = 0 \/ starts_on_users_page tr = true) /\
  (existsb is_validation tr = true ->
     exists before after,
       first_snapshot tr = Some before /\ last_snapshot tr = Some after /\
       validation_request tr
       = Some (validate_action_success_request before after
                 ("Adding user "
                    +:+ py_str (dict_get_default "email" (PStr "unknown")
                                  user_details)))).
Proof.
  unfold run, provision_user.
  destruct (dict_get saas_id Config.SAAS_CONFIGS) as [saas_config|].
  2: { cbn. split_and!; try done; try lia; by left. }
  unfold fill_submit_validate, click_add_user_button, find_ui_elements,
    validate_action_success.
  run_paths h.
  all: cbn.
  all: try match goal with
           | H : validate_action_success_result _ = _ |- _ => rewrite H
           end.
  all: split_and!; try done; try lia; try (by left); try (by right).
  all: try (by intros [= ->]).
  all: try (intros _; eauto).
Qed.

(** What every run of [deprovision_user] looks like. *)
Lemma deprovision_user_shape (w : W) (saas_id : string)
    (credentials : dict string string) (user_email : string) :
  let '(res, tr, _) :=
    run h (deprovision_user saas_id credentials user_email) w in
  (res = Ok true ->
     last_verdict tr = true /\ existsb is_validation tr = true /\
     validated_after_mutation tr = true) /\
  (count_events is_oracle_call tr <= 4 /\ count_events is_click tr <= 3 /\
   count_events is_fill tr = 0 /\ count_events is_validation tr <= 1) /\
  (count_events touches_page tr = 0 \/ starts_on_users_page tr = true) /\
  (existsb is_validation tr = true ->
     exists before after,
       first_snapshot tr = Some before /\ last_snapshot tr = Some after /\
       validation_request tr
       = Some (validate_action_success_request before after
                 ("Removing user " +:+ user_email))).
Proof.
  unfold run, deprovision_user.
  destruct (dict_get saas_id Config.SAAS_CONFIGS) as [saas_config|].
  2: { cbn. split_and!; try done; try lia; by left. }
  unfold find_delete_validate, find_ui_elements, validate_action_success.
  run_paths h.
  all: cbn.
  all: try match goal with
           | H : validate_action_success_result _ = _ |- _ => rewrite H
           end.
  all: split_and!; try done; try lia; try (by left); try (by right).
  all: try (by intros [= ->]).
  all: try (intros _; eauto).
Qed.

End Shapes.

(** X14.  A workflow that reports success has run the validation: when
    [provision_user] or [deprovision_user] returns [True], the run ends
    with the validation request, its verdict is [True], and every click
    and form fill of the run is followed by the after-snapshot and that
    validation.  Partial progress is never reported as success. *)
Theorem success_means_validated {W : Type} (h : Handler W) (w : W)
    (saas_id : string) (credentials : dict string string)
    (user_details : dict string PyVal) (user_email : string) :
  let add := provision_user saas_id credentials user_details in
  let remove := deprovision_user saas_id credentials user_email in
  (result_of h add w = Ok true ->
     last_verdict (trace_of h add w) = true /\
     existsb is_validation (trace_of h add w) = true /\
     validated_after_mutation (trace_of h add w) = true) /\
  (result_of h remove w = Ok true ->
     last_verdict (trace_of h remove w) = true /\
     existsb is_validation (trace_of h remove w) = true /\
     validated_after_mutation (trace_of h remove w) = true).
Proof.
  intros add remove. unfold result_of, trace_of. split.
  - pose proof (provision_user_shape h w saas_id credentials user_details) as H.
    fold add in H. destruct (run h add w) as [[res tr] w']. apply H.
  - pose proof (deprovision_user_shape h w saas_id credentials user_email) as H.
    fold remove in H. destruct (run h remove w) as [[res tr] w']. apply H.
Qed.

Lemma success_means_validated_witness :
  let selector s := elements_answer (JDict [("primary_selector", JVal (PStr s))]) in
  let add := provision_user "dropbox" [] [("email", PStr "a@x.com")] in
  let h := scripted [true; true] true
             [selector "#save"; Ok [text_message "SUCCESS"]] in
  last_verdict (trace_of h add (0, 0)) = true /\
  existsb is_validation (trace_of h add (0, 0)) = true /\
  validated_after_mutation (trace_of h add (0, 0)) = true.
Proof.
  intros selector add h.
  apply (proj1 (success_means_validated h (0, 0) "dropbox" []
                  [("email", PStr "a@x.com")] "a@x.com")).
  vm_compute. reflexivity.
Defined.

(** X15.  The workflows consult each collaborator a bounded number of
    times and retry nothing: a run of [provision_user] has at most three
    oracle calls, three clicks and one form fill, a run of
    [deprovision_user] at most four oracle calls and three clicks and no
    form fill, and either has at most one validation. *)
Theorem workflow_call_budget {W : Type} (h : Handler W) (w : W)
    (saas_id : string) (credentials : dict string string)
    (user_details : dict string PyVal) (user_email : string) :
  let add := trace_of h (provision_user saas_id credentials user_details) w in
  let remove := trace_of h (deprovision_user saas_id credentials user_email) w in
  (count_events is_oracle_call add <= 3 /\ count_events is_click add <= 3 /\
   count_events is_fill add <= 1 /\ count_events is_validation add <= 1) /\
  (count_events is_oracle_call remove <= 4 /\ count_events is_click remove <= 3 /\
   count_events is_fill remove = 0 /\ count_events is_validation remove <= 1).
Proof.
  intros add remove. subst add remove. unfold trace_of. split.
  - pose proof (provision_user_shape h w saas_id credentials user_details) as H.
    destruct (run h _ w) as [[res tr] w']. apply H.
  - pose proof (deprovision_user_shape h w saas_id credentials user_email) as H.
    destruct (run h _ w) as [[res tr] w']. apply H.
Qed.

(** X16.  Nothing happens on the page before the workflow is logged in
    and on the users page: a run of [provision_user] or [deprovision_user]
    that takes a snapshot, clicks, fills a form or consults the oracle
    starts with a successful login followed by a successful navigation.
    For a portal that is not configured the run makes no call at all and
    returns [False]. *)
Theorem workflow_guards {W : Type} (h : Handler W) (w : W)
    (saas_id : string) (credentials : dict string string)
    (user_details : dict string PyVal) (user_email : string) :
  let add := provision_user saas_id credentials user_details in
  let remove := deprovision_user saas_id credentials user_email in
  (count_events touches_page (trace_of h add w) = 0 \/
   starts_on_users_page (trace_of h add w) = true) /\
  (count_events touches_page (trace_of h remove w) = 0 \/
   starts_on_users_page (trace_of h remove w) = true) /\
  (dict_get saas_id Config.SAAS_CONFIGS = None ->
   run h add w = (Ok false, [], w) /\ run h remove w = (Ok false, [], w)).
Proof.
  intros add remove. unfold trace_of. split_and!.
  - pose proof (provision_user_shape h w saas_id credentials user_details) as H.
    fold add in H. destruct (run h add w) as [[res tr] w']. apply H.
  - pose proof (deprovision_user_shape h w saas_id credentials user_email) as H.
    fold remove in H. destruct (run h remove w) as [[res tr] w']. apply H.
  - intros Hnone. subst add remove. unfold provision_user, deprovision_user.
    by rewrite Hnone.
Qed.

Lemma workflow_guards_witness :
  run (scripted [] true []) (provision_user "slack" [] []) (0, 0)
  = (Ok false, [], (0, 0)) /\
  run (scripted [] true []) (deprovision_user "slack" [] "a@x.com") (0, 0)
  = (Ok false, [], (0, 0)).
Proof.
  apply (proj2 (proj2 (workflow_guards (scripted [] true []) (0, 0) "slack" []
                         [] "a@x.com"))).
  reflexivity.
Defined.

(** X17.  The validation compares the page as it was before any action
    with the page after the last action: in a run of [provision_user] or
    [deprovision_user] that reaches the validation, the request is the one
    of [validate_action_success] for the first snapshot of the run, the
    last snapshot of the run, and the label that names the user. *)
Theorem validation_compares_first_and_last_snapshot {W : Type}
    (h : Handler W) (w : W) (saas_id : string)
    (credentials : dict string string) (user_details : dict string PyVal)
    (user_email : string) :
  let add := trace_of h (provision_user saas_id credentials user_details) w in
  let remove := trace_of h (deprovision_user saas_id credentials user_email) w in
  (existsb is_validation add = true ->
     exists before after,
       first_snapshot add = Some before /\ last_snapshot add = Some after /\
       validation_request add
       = Some (validate_action_success_request before after
                 ("Adding user "
                    +:+ py_str (dict_get_default "email" (PStr "unknown")
                                  user_details)))) /\
  (existsb is_validation remove = true ->
     exists before after,
       first_snapshot remove = Some before /\ last_snapshot remove = Some after /\
       validation_request remove
       = Some (validate_action_success_request before after
                 ("Removing user " +:+ user_email))).
Proof.
  intros add remove. subst add remove. unfold trace_of. split.
  - pose proof (provision_user_shape h w saas_id credentials user_details) as H.
    destruct (run h _ w) as [[res tr] w']. apply H.
  - pose proof (deprovision_user_shape h w saas_id credentials user_email) as H.
    destruct (run h _ w) as [[res tr] w']. apply H.
Qed.

Lemma validation_compares_first_and_last_snapshot_witness :
  let selector s := elements_answer (JDict [("primary_selector", JVal (PStr s))]) in
  let h := scripted [true; true] true
             [selector "#row"; selector "#delete"; Raise OSError;
              Ok [text_message "FAILED"]] in
  let remove := trace_of h (deprovision_user "notion" [] "a@x.com") (0, 0) in
  exists before after,
    first_snapshot remove = Some before /\ last_snapshot remove = Some after /\
    validation_request remove
    = Some (validate_action_success_request before after
              ("Removing user " +:+ "a@x.com")).
Proof.
  intros selector h remove.
  apply (proj2 (validation_compares_first_and_last_snapshot h (0, 0) "notion"
                  [] [] "a@x.com")).
  vm_compute. reflexivity.
Defined.


Section FormSelectors.
Context (details : dict string PyVal).


Lemma dict_get_set {V} (k k' : string) (v : V) (d : dict string V) :
  dict_get k (dict_set k' v d)
  = if bool_decide (k' = k) then Some v else dict_get k d.
Proof.
  case_bool_decide as Hk.
  - subst. apply dict_get_set_eq.
  - by apply dict_get_set_ne.
Qed.

Lemma dict_set_length {V} (k : string) (v : V) (d : dict string V) :
  length (dict_set k v d) <= S (length d).
Proof.
  induction d as [|[k0 v0] d IH]; cbn [dict_set length]; [lia|].
  case_bool_decide; cbn [length]; lia.
Qed.

Lemma fold_step_sound (items : list (string * string))
    (acc : dict string PyVal) (selector : string) (v : PyVal) :
  dict_get selector (fold_left (form_data_step details) items acc) = Some v ->
  dict_get selector acc = Some v \/
  exists field, (field, selector) ∈ items /\ dict_get field details = Some v.
Proof.
  revert acc. induction items as [|[field sel] items IH]; intros acc;
    cbn [fold_left]; [by left|].
  intros [Hacc|(f & Hin & Hf)]%IH.
  - unfold form_data_step in Hacc. cbn [fst snd] in Hacc.
    unfold dict_has, dict_get_default in Hacc.
    destruct (dict_get field details) as [x|] eqn:Hx; [|by left].
    rewrite dict_get_set in Hacc. case_bool_decide as Hsel; [|by left].
    injection Hacc as <-. subst sel. right. exists field. split; [left|done].
  - right. exists f. split; [by right|done].
Qed.

Lemma fold_step_mono (items : list (string * string))
    (acc : dict string PyVal) (selector : string) :
  dict_has selector acc = true ->
  dict_has selector (fold_left (form_data_step details) items acc) = true.
Proof.
  revert acc. induction items as [|[field sel] items IH]; intros acc;
    cbn [fold_left]; [done|].
  intros Hacc. apply IH. unfold form_data_step. cbn [fst snd].
  destruct (dict_has field details); [|done].
  unfold dict_has in *. rewrite dict_get_set. by case_bool_decide.
Qed.

Lemma fold_step_complete (items : list (string * string))
    (acc : dict string PyVal) (field selector : string) :
  (field, selector) ∈ items -> dict_has field details = true ->
  dict_has selector (fold_left (form_data_step details) items acc) = true.
Proof.
  revert acc. induction items as [|[f s] items IH]; intros acc Hin Hf.
  - by apply elem_of_nil in Hin.
  - cbn [fold_left]. apply elem_of_cons in Hin as [[= <- <-]|Hin].
    + apply fold_step_mono. unfold form_data_step. cbn [fst snd]. rewrite Hf.
      unfold dict_has. by rewrite dict_get_set_eq.
    + by apply IH.
Qed.

Lemma fold_step_length (items : list (string * string))
    (acc : dict string PyVal) :
  length (fold_left (form_data_step details) items acc) <= length acc + length items.
Proof.
  revert acc. induction items as [|item items IH]; intros acc;
    cbn [fold_left length]; [lia|].
  etrans; [apply IH|]. unfold form_data_step.
  destruct (dict_has item.1 details); [|lia].
  pose proof (dict_set_length item.2 (dict_get_default item.1 PNone details) acc).
  lia.
Qed.

End FormSelectors.

(** X18.  The form data [provision_user] fills in holds only what the
    caller gave for a field of the portal's form: each entry is keyed by a
    selector of the configuration and holds the value of the user details
    for a field mapped to that selector; every such field that the user
    details hold has its selector in the form data; and a detail for which
    the portal has no form field is not sent. *)
Theorem build_form_data_entries (saas_config : Config.SaaSConfig)
    (user_details : dict string PyVal) :
  let form_data := build_form_data saas_config user_details in
  (forall selector v,
     dict_get selector form_data = Some v ->
     exists field,
       (field, selector) ∈ Config.user_form_selectors saas_config /\
       dict_get field user_details = Some v) /\
  (forall field selector,
     (field, selector) ∈ Config.user_form_selectors saas_config ->
     dict_has field user_details = true ->
     dict_has selector form_data = true) /\
  length form_data <= length (Config.user_form_selectors saas_config).
Proof.
  intros form_data. subst form_data. unfold build_form_data. split_and!.
  - intros selector v [Hacc|H]%fold_step_sound; [done|exact H].
  - intros field selector. apply fold_step_complete.
  - apply (fold_step_length user_details
             (Config.user_form_selectors saas_config) []).
Qed.

Lemma build_form_data_entries_witness :
  let details := [("email", PStr "a@x.com"); ("name", PStr "Ann");
                  ("phone", PStr "555")] in
  build_form_data Config.notion details
  = [("input[placeholder='Enter email address']", PStr "a@x.com")] /\
  dict_has "input[placeholder='Enter email address']"
    (build_form_data Config.notion details) = true.
Proof.
  intros details. split; [reflexivity|].
  apply (proj1 (proj2 (build_form_data_entries Config.notion details)) "email").
  - left.
  - reflexivity.
Defined.

(** ** Call trees *)

Section FreeFacts.
Context {C : Type} {R : C -> Type} {W : Type} (h : forall c : C, W -> R c * W).

Lemma free_run_from_bind {A B} (p : Free C R A) (k : A -> Free C R B) w past :
  free_run_from h (free_bind k p) w past
  = let '(r, tr, w') := free_run_from h p w past in
    match r with
    | Ok a => free_run_from h (k a) w' tr
    | Raise e => (Raise e, tr, w')
    end.
Proof.
  revert w past. induction p as [a|e|c k' IH]; intros w past; cbn; [done..|].
  destruct (h c w) as [r w1]. apply IH.
Qed.

Lemma free_run_from_try {A} (p handler : Free C R A) w past :
  free_run_from h (free_try p handler) w past
  = let '(r, tr, w') := free_run_from h p w past in
    match r with
    | Ok a => (Ok a, tr, w')
    | Raise e => free_run_from h handler w' tr
    end.
Proof.
  revert w past. induction p as [a|e|c k' IH]; intros w past; cbn; [done| |].
  - done.
  - destruct (h c w) as [r w1]. apply IH.
Qed.

Lemma free_run_from_past {A} (p : Free C R A) w past :
  free_run_from h p w past
  = let '(r, tr, w') := free_run_from h p w [] in (r, (past ++ tr)%list, w').
Proof.
  revert w past. induction p as [a|e|c k' IH]; intros w past; cbn.
  - by rewrite app_nil_r.
  - by rewrite app_nil_r.
  - destruct (h c w) as [r w1]. rewrite (IH r w1 (past ++ [FEv c r])%list).
    rewrite (IH r w1 [FEv c r]).
    destruct (free_run_from h (k' r) w1 []) as [[res tr] w2].
    by rewrite <- app_assoc.
Qed.

End FreeFacts.

(** ** The browser handler *)

Section BrowserFacts.
Import BrowserAutomationHandler.

Section FillForm.
Context {W : Type} (h : BHandler W) (self : Self) (Hpage : page self = true).

Lemma fill_all_run (items : list (string * PyVal)) (w : W) :
  let '(r, tr, _) := free_run_from h (fill_all self items) w [] in
  (fev_call <$> tr) `prefix_of` fills items /\
  match r with
  | Ok _ => fev_call <$> tr = fills items /\ existsb raised tr = false
  | Raise _ =>
      exists tr0 e, tr = (tr0 ++ [e])%list /\
                    existsb raised tr0 = false /\ raised e = true
  end.
Proof.
  revert w. induction items as [|[selector value] items IH]; intros w.
  - cbn. split; [done|]. by split.
  - cbn [fill_all]. unfold fill, on_page. rewrite Hpage.
    cbn [mbind free_mbind free_bind free_run_from].
    destruct (h (Fill selector value) w) as [r w1] eqn:Hh.
    destruct r as [[]|e]; cbn [attempt free_bind free_run_from app].
    + rewrite free_run_from_past. specialize (IH w1).
      destruct (free_run_from h (fill_all self items) w1 []) as [[res tr] w2].
      destruct IH as [Hpre IH]. cbn [fills fmap list_fmap app fst snd fev_call].
      split; [by apply prefix_cons|].
      destruct res as [?|e].
      * destruct IH as [-> Hno]. split; [done|]. cbn [existsb raised orb]. done.
      * destruct IH as (tr0 & e0 & -> & Hno & He).
        exists (FEv (Fill selector value) (Ok ()) :: tr0), e0.
        split; [done|]. split; [|done]. cbn [existsb raised orb]. done.
    + cbn [fills fmap list_fmap app fst snd fev_call]. split.
      * apply prefix_cons, prefix_nil.
      * exists [], (FEv (Fill selector value) (Raise e)). by split.
Qed.

End FillForm.

(** X19 (browser_automation.py, fill_form).  With a page at hand,
    [fill_form] fills the fields in the order of the form data and stops at
    the first field the page refuses: it answers [True] when every field
    was filled, and [False] right after the first failing [fill], the later
    fields untouched.  It never raises. *)
Theorem fill_form_outcome {W} (h : BHandler W) (w : W) (self : Self)
    (form_data : dict string PyVal) :
  page self = true ->
  let '(res, tr, _) := free_run h (fill_form self form_data) w in
  (fev_call <$> tr) `prefix_of` fills form_data /\
  ((res = Ok true /\ fev_call <$> tr = fills form_data /\
    existsb raised tr = false) \/
   (res = Ok false /\
    exists tr0 e, tr = (tr0 ++ [e])%list /\
                  existsb raised tr0 = false /\ raised e = true)).
Proof.
  intros Hpage. unfold free_run, fill_form.
  rewrite free_run_from_try. unfold mbind, free_mbind.
  rewrite free_run_from_bind.
  pose proof (fill_all_run h self Hpage form_data w) as H.
  destruct (free_run_from h (fill_all self form_data) w []) as [[r tr] w1].
  destruct H as [Hpre H]. destruct r as [[]|e]; cbn [free_run_from mret free_ret].
  - split; [done|]. left. by destruct H.
  - split; [done|]. by right.
Qed.

Lemma fill_form_outcome_witness :
  let form_data := [("#email", PStr "a@x.com"); ("#role", PStr "admin")] in
  let '(res, tr, _) :=
    free_run (obliging "https://portal/home") (fill_form ready form_data) tt in
  (fev_call <$> tr) `prefix_of` fills form_data /\
  ((res = Ok true /\ fev_call <$> tr = fills form_data /\
    existsb raised tr = false) \/
   (res = Ok false /\
    exists tr0 e, tr = (tr0 ++ [e])%list /\
                  existsb raised tr0 = false /\ raised e = true)).
Proof.
  exact (fill_form_outcome (obliging "https://portal/home") tt ready
           [("#email", PStr "a@x.com"); ("#role", PStr "admin")] eq_refl).
Defined.

(** X20 (browser_automation.py, login_to_saas).  With a page at hand, a
    login answers [True] only after the seven steps of the login went
    through in order and the page shows an address without "login" in any
    letter case; otherwise it answers [False], and the last thing it does
    is to ask for a screenshot, named after the reason: [login_failed] when
    the address still shows "login", [login_error] when a step raised.  The
    steps before the screenshot are an initial part of the seven, and the
    password goes into the password field only. *)
Theorem login_to_saas_outcome {W} (h : BHandler W) (w : W) (self : Self)
    (config : Config.SaaSConfig) (username password : string) :
  page self = true ->
  let '(res, tr, _) :=
    free_run h (login_to_saas self config username password) w in
  (res = Ok true /\
   fev_call <$> tr = login_calls config username password /\
   existsb raised tr = false /\
   exists current_url,
     last tr = Some (FEv Url current_url) /\
     PyStr.contains "login" (PyStr.lower current_url) = false) \/
  (res = Ok false /\
   exists n name,
     fev_call <$> tr
     = (take n (login_calls config username password)
        ++ [Screenshot ("./logs//" +:+ name +:+ ".png") true])%list /\
     ((name = "login_failed" /\ n = 7 /\
       exists current_url,
         tr !! 6 = Some (FEv Url current_url) /\
         PyStr.contains "login" (PyStr.lower current_url) = true) \/
      (name = "login_error" /\ n < 7 /\
       exists e, tr !! (n - 1) = Some e /\ raised e = true))).
Proof.
  intros Hpage. destruct self as [pw br cx pg]. cbn in Hpage. subst pg.
  brun_paths h.
  all: cbn [fmap list_fmap fev_call login_calls take].
  all: first
    [ left; split; [done|]; split; [reflexivity|]; split; [reflexivity|];
      eexists; split; [reflexivity|]; done
    | right; split; [done|]; exists 7, "login_failed"; split; [reflexivity|];
      left; split; [done|]; split; [done|];
      eexists; split; [reflexivity|]; done
    | right; split; [done|];
      let go n :=
        (exists n, "login_error"; split; [reflexivity|];
         right; split; [done|]; split; [lia|];
         eexists; split; [reflexivity|]; reflexivity) in
      first [ go 0 | go 1 | go 2 | go 3 | go 4 | go 5 | go 6 ] ].
Qed.

Lemma login_to_saas_outcome_witness :
  let '(res, tr, _) :=
    free_run (obliging "https://portal/home")
      (login_to_saas ready Config.dropbox "admin" "secret") tt in
  (res = Ok true /\
   fev_call <$> tr = login_calls Config.dropbox "admin" "secret" /\
   existsb raised tr = false /\
   exists current_url,
     last tr = Some (FEv Url current_url) /\
     PyStr.contains "login" (PyStr.lower current_url) = false) \/
  (res = Ok false /\
   exists n name,
     fev_call <$> tr
     = (take n (login_calls Config.dropbox "admin" "secret")
        ++ [Screenshot ("./logs//" +:+ name +:+ ".png") true])%list /\
     ((name = "login_failed" /\ n = 7 /\
       exists current_url,
         tr !! 6 = Some (FEv Url current_url) /\
         PyStr.contains "login" (PyStr.lower current_url) = true) \/
      (name = "login_error" /\ n < 7 /\
       exists e, tr !! (n - 1) = Some e /\ raised e = true))).
Proof.
  exact (login_to_saas_outcome (obliging "https://portal/home") tt ready
           Config.dropbox "admin" "secret" eq_refl).
Defined.

Example login_to_saas_stays_on_login_page :
  let '(res, tr, _) :=
    free_run (obliging "https://portal/Login?next=home")
      (login_to_saas ready Config.dropbox "admin" "wrong") tt in
  res = Ok false /\
  last (fev_call <$> tr) = Some (Screenshot "./logs//login_failed.png" true).
Proof. by split. Qed.
Lemma free_try_total {C : Type} {R : C -> Type} {W A : Type}
    (h : forall c : C, W -> R c * W) (p handler : Free C R A) :
  (forall w past, exists a, (free_run_from h handler w past).1.1 = Ok a) ->
  forall w past, exists a, (free_run_from h (free_try p handler) w past).1.1 = Ok a.
Proof.
  intros Hh w past. rewrite free_run_from_try.
  destruct (free_run_from h p w past) as [[[a|e] tr] w1]; [by exists a|].
  apply Hh.
Qed.

Lemma free_ret_total {C : Type} {R : C -> Type} {W A : Type}
    (h : forall c : C, W -> R c * W) (a : A) (w : W) past :
  exists a', (free_run_from h (mret a : Free C R A) w past).1.1 = Ok a'.
Proof. by exists a. Qed.

Lemma take_screenshot_total {W} (h : BHandler W) self name w past :
  exists path, (free_run_from h (take_screenshot self name) w past).1.1 = Ok path.
Proof. apply free_try_total. intros. apply free_ret_total. Qed.

(** X21 (browser_automation.py, every method).  No method of the browser
    handler lets an exception out, whatever Playwright does and whether or
    not the browser was initialised: each one returns a value. *)
Theorem browser_methods_never_raise {W} (h : BHandler W) (w : W) (self : Self) :
  (exists r, (free_run h (initialize_browser self) w).1.1 = Ok r) /\
  (forall config username password, exists r,
     (free_run h (login_to_saas self config username password) w).1.1 = Ok r) /\
  (forall config, exists r,
     (free_run h (navigate_to_users_page self config) w).1.1 = Ok r) /\
  (exists r, (free_run h (extract_page_content self) w).1.1 = Ok r) /\
  (forall selector, exists r,
     (free_run h (find_elements self selector) w).1.1 = Ok r) /\
  (forall selector, exists r,
     (free_run h (click_element self selector) w).1.1 = Ok r) /\
  (forall form_data, exists r,
     (free_run h (fill_form self form_data) w).1.1 = Ok r) /\
  (forall name, exists r,
     (free_run h (take_screenshot self name) w).1.1 = Ok r) /\
  (forall selector timeout, exists r,
     (free_run h (wait_for_element self selector timeout) w).1.1 = Ok r) /\
  (exists r, (free_run h (cleanup self) w).1.1 = Ok r).
Proof.
  split_and!; intros; unfold free_run.
  - brun_paths h; by eexists.
  - apply free_try_total. intros w' past. unfold mbind, free_mbind.
    rewrite free_run_from_bind.
    destruct (take_screenshot_total h self (Some "login_error") w' past)
      as [path Hpath].
    destruct (free_run_from h (take_screenshot _ _) w' past) as [[r tr] w1].
    cbn in Hpath. subst r. by eexists.
  - apply free_try_total. intros. apply free_ret_total.
  - apply free_try_total. intros. apply free_ret_total.
  - apply free_try_total. intros. apply free_ret_total.
  - apply free_try_total. intros. apply free_ret_total.
  - apply free_try_total. intros. apply free_ret_total.
  - apply take_screenshot_total.
  - apply free_try_total. intros. apply free_ret_total.
  - apply free_try_total. intros. apply free_ret_total.
Qed.

(** X22 (browser_automation.py, the methods that use the page).  On a
    handler without a page (before [initialize_browser], or after it failed
    early) the methods fail safely: each returns its failure value without a
    single call to Playwright.  [fill_form] with an empty form is the
    exception: it has nothing to fill and answers [True]. *)
Theorem methods_without_page {W} (h : BHandler W) (w : W) (self : Self) :
  page self = false ->
  (forall config username password,
     free_run h (login_to_saas self config username password) w
     = (Ok false, [], w)) /\
  (forall config,
     free_run h (navigate_to_users_page self config) w = (Ok false, [], w)) /\
  free_run h (extract_page_content self) w = (Ok "", [], w) /\
  (forall selector,
     free_run h (find_elements self selector) w = (Ok [], [], w)) /\
  (forall selector,
     free_run h (click_element self selector) w = (Ok false, [], w)) /\
  (forall form_data,
     free_run h (fill_form self form_data) w
     = (Ok (bool_decide (form_data = [])), [], w)) /\
  (forall name,
     free_run h (take_screenshot self (Some name)) w = (Ok "", [], w)) /\
  (forall selector timeout,
     free_run h (wait_for_element self selector timeout) w
     = (Ok false, [], w)).
Proof.
  intros Hpage. destruct self as [pw br cx pg]. cbn in Hpage. subst pg.
  split_and!; intros; try reflexivity.
  destruct form_data as [|[selector value] form_data]; reflexivity.
Qed.

Lemma methods_without_page_witness :
  free_run (obliging "https://portal/login") (click_element init (JVal (PStr "#add"))) tt
  = (Ok false, [], tt).
Proof.
  apply (proj1 (proj2 (proj2 (proj2 (proj2
           (methods_without_page (obliging "https://portal/login") tt init
              eq_refl)))))).
Defined.

(** X23 (browser_automation.py, cleanup).  [cleanup] closes the resources
    that are set, in the order page, context, browser, Playwright, and
    gives up at the first close that fails: what is behind it stays open.
    It never raises. *)
Theorem cleanup_outcome {W} (h : BHandler W) (w : W) (self : Self) :
  let '(res, tr, _) := free_run h (cleanup self) w in
  res = Ok tt /\
  (fev_call <$> tr) `prefix_of` closes self /\
  (existsb raised tr = false -> fev_call <$> tr = closes self) /\
  (forall tr0 e tr1, tr = (tr0 ++ e :: tr1)%list -> raised e = true -> tr1 = []).
Proof.
  destruct self as [[|] [|] [|] [|]]; brun_paths h;
    (split; [done|]); cbn [fmap list_fmap fev_call closes app
                           playwright browser context page].
  all: split;
    [ first [ done | by eexists | by apply prefix_cons
            | by repeat apply prefix_cons; apply prefix_nil ] |].
  all: split; [ cbn [existsb raised orb]; intros; first [done|discriminate] |].
  all: intros trace0 ev trace1 Htr Hev.
  all: repeat (destruct trace0 as [|? trace0];
               [ cbn in Htr; first [ discriminate Htr
                                   | by injection Htr as <- <-
                                   | injection Htr as <- <-; cbn in Hev;
                                     discriminate Hev ]
               | cbn in Htr; first [ discriminate Htr
                                   | injection Htr as <- Htr ] ]).
Qed.

(** X24 (browser_automation.py, initialize_browser).  On a new handler,
    [initialize_browser] makes the five startup calls in order and stops at
    the first that fails.  It answers [True] exactly when none failed, and
    the handler is then fully set.  When a call fails it answers [False]
    and the resources created before stay set in the handler: what
    [cleanup] will close afterwards is exactly one resource for each of the
    first four calls that succeeded, the latest first. *)
Theorem initialize_browser_outcome {W} (h : BHandler W) (w : W) :
  let '(res, tr, _) := free_run h (initialize_browser init) w in
  exists ok self,
    res = Ok (ok, self) /\
    fev_call <$> tr = take (length tr) startup_calls /\
    ok = negb (existsb raised tr) /\
    (ok = true -> length tr = 5 /\ self = ready) /\
    (forall tr0 e tr1,
       tr = (tr0 ++ e :: tr1)%list -> raised e = true -> tr1 = []) /\
    closes self
    = drop (4 - length (filter (fun e => negb (raised e)) tr))
        [ClosePage; CloseContext; CloseBrowser; Stop].
Proof.
  brun_paths h; eexists _, _; (split; [reflexivity|]);
    (split; [reflexivity|]); (split; [reflexivity|]);
    (split; [intros; first [discriminate | by split]|]);
    (split; [|reflexivity]).
  all: intros trace0 ev trace1 Htr Hev.
  all: repeat (destruct trace0 as [|? trace0];
               [ cbn in Htr; first [ discriminate Htr
                                   | by injection Htr as <- <-
                                   | injection Htr as <- <-; cbn in Hev;
                                     discriminate Hev ]
               | cbn in Htr; first [ discriminate Htr
                                   | injection Htr as <- Htr ] ]).
Qed.

Section FindElements.
Context {W : Type} (h : BHandler W).

(** The loop over the attributes asks for each of them in order and adds
    the kept ones after those it started with. *)
Lemma element_attributes_run element attrs acc w :
  NoDup (acc.*1 ++ attrs) ->
  let '(r, tr, _) :=
    free_run_from h (element_attributes element attrs acc) w [] in
  match r with
  | Ok d =>
      exists values,
        length values = length attrs /\
        tr = zip_with (fun attr value =>
                         FEv (GetAttribute element attr) (Ok value))
               attrs values /\
        d = (acc ++ kept_attributes attrs values)%list /\
        existsb raised tr = false
  | Raise _ => existsb raised tr = true
  end.
Proof.
  revert acc w. induction attrs as [|attr attrs IH]; intros acc w Hnd.
  - cbn. exists []. by rewrite app_nil_r.
  - cbn [element_attributes]. unfold get_attribute.
    cbn [mbind free_mbind free_bind free_run_from].
    destruct (h (GetAttribute element attr) w) as [r w1].
    destruct r as [value|e]; cbn [attempt free_bind free_run_from app].
    2: { reflexivity. }
    rewrite free_run_from_past.
    assert (attr ∉ acc.*1) as Hfresh.
    { apply NoDup_app in Hnd as (_ & Hdisj & _). intros Hin.
      apply (Hdisj attr Hin). left. }
    assert (NoDup (acc.*1 ++ attrs)) as Hacc.
    { apply NoDup_app in Hnd as (Ha & Hdisj & [_ Hb]%NoDup_cons).
      apply NoDup_app. split; [done|]. split; [|done].
      intros x Hx Hin. apply (Hdisj x Hx). by right. }
    assert (forall v : string,
              NoDup ((acc ++ [(attr, v)])%list.*1 ++ attrs)) as Hset.
    { intros v. rewrite fmap_app. cbn [fmap list_fmap fst].
      by rewrite <- app_assoc. }
    match goal with
    | |- context [element_attributes element attrs ?acc'] =>
        set (acc1 := acc')
    end.
    assert (NoDup (acc1.*1 ++ attrs) /\
            forall values,
              (acc1 ++ kept_attributes attrs values
               = acc ++ kept_attributes (attr :: attrs) (value :: values))%list)
      as [Hnd1 Hkept].
    { subst acc1. unfold kept_attributes.
      cbn [zip zip_with omap list_omap snd fst].
      destruct value as [v|]; [|done].
      destruct (bool_decide (v = "")); [done|].
      rewrite dict_set_fresh by done. split; [apply Hset|].
      intros values. by rewrite <- app_assoc. }
    specialize (IH acc1 w1 Hnd1).
    destruct (free_run_from h (element_attributes element attrs acc1) w1 [])
      as [[res tr] w2].
    destruct res as [d|e]; [|exact IH].
    destruct IH as (values & Hlen & -> & -> & Hno).
    exists (value :: values). split; [cbn [length]; by rewrite Hlen|].
    split; [done|]. split; [by rewrite <- Hkept|exact Hno].
Qed.

Lemma common_attributes_NoDup : NoDup common_attributes.
Proof. compute_done. Qed.

(** The six calls on an element and the entry made of their answers. *)
Lemma element_data_run element w :
  let '(r, tr, _) := free_run_from h (element_data element) w [] in
  match r with
  | Ok d =>
      exists reading,
        length (read_values reading) = 4 /\
        tr = reading_calls element reading /\
        d = reading_data reading /\
        existsb raised tr = false
  | Raise _ => existsb raised tr = true
  end.
Proof.
  unfold element_data, text_content, inner_html, mbind, free_mbind.
  cbn [free_bind free_run_from].
  destruct (h (TextContent element) w) as [[t|e] w1];
    cbn [attempt free_bind free_run_from app]; [|reflexivity].
  destruct (h (InnerHtml element) w1) as [[i|e] w2];
    cbn [attempt free_bind free_run_from app]; [|reflexivity].
  rewrite free_run_from_bind, free_run_from_past.
  pose proof (element_attributes_run element common_attributes [] w2) as H.
  destruct (free_run_from h (element_attributes _ _ _) w2 []) as [[res tr] w3].
  destruct res as [d|e]; cbn [free_run_from mret free_ret app existsb raised orb].
  - destruct H as (values & Hlen & -> & -> & Hno).
    { exact common_attributes_NoDup. }
    exists {| read_text := t; read_html := i; read_values := values |}.
    split_and!; done.
  - apply H. exact common_attributes_NoDup.
Qed.

(** The same for the elements of the page, one after the other. *)
Lemma mapM_element_data_run elements w :
  let '(r, tr, _) := free_run_from h (mapM element_data elements) w [] in
  match r with
  | Ok data =>
      exists readings,
        length readings = length elements /\
        Forall (fun reading => length (read_values reading) = 4) readings /\
        tr = concat (zip_with reading_calls elements readings) /\
        data = reading_data <$> readings /\
        existsb raised tr = false
  | Raise _ => existsb raised tr = true
  end.
Proof.
  revert w. induction elements as [|element elements IH]; intros w.
  - cbn. by exists [].
  - cbn [mapM]. unfold mbind, free_mbind. rewrite free_run_from_bind.
    pose proof (element_data_run element w) as H.
    destruct (free_run_from h (element_data element) w []) as [[r tr] w1].
    destruct r as [d|e]; [|exact H].
    destruct H as (reading & Hfour & -> & -> & Hno).
    rewrite free_run_from_bind, free_run_from_past. specialize (IH w1).
    destruct (free_run_from h (mapM element_data elements) w1 [])
      as [[r' tr'] w2].
    destruct r' as [data|e]; cbn [free_run_from mret free_ret].
    + destruct IH as (readings & Hlen & Hfours & -> & -> & Hno').
      exists (reading :: readings).
      split; [cbn [length]; by rewrite Hlen|].
      split; [by constructor|]. split; [done|]. split; [done|].
      by rewrite existsb_app, Hno, Hno'.
    + by rewrite existsb_app, IH, orb_true_r.
Qed.

End FindElements.

(** X25 (browser_automation.py, find_elements).  With a page at hand,
    [find_elements] asks for the elements and then makes six calls on
    each of them in order: the text, the inner HTML and the four common
    attributes.  When no call raises, its result has one entry for each
    element, in order, with the text and the inner HTML the element
    answered and exactly those of the four attributes whose value is
    neither [None] nor empty, each with that value.  One raising call
    voids the whole result: the answer is the empty list, the entries
    read so far are dropped. *)
Theorem find_elements_outcome {W} (h : BHandler W) (w : W) (self : Self)
    (selector : string) :
  page self = true ->
  let '(res, tr, _) := free_run h (find_elements self selector) w in
  exists data,
    res = Ok data /\
    (existsb raised tr = true -> data = []) /\
    (existsb raised tr = false ->
     exists elements readings,
       length readings = length elements /\
       Forall (fun reading => length (read_values reading) = 4) readings /\
       tr = FEv (QuerySelectorAll selector) (Ok elements)
            :: concat (zip_with reading_calls elements readings) /\
       data = reading_data <$> readings).
Proof.
  intros Hpage. unfold free_run, find_elements, query_selector_all, on_page.
  rewrite Hpage, free_run_from_try.
  cbn [mbind free_mbind free_bind free_run_from].
  destruct (h (QuerySelectorAll selector) w) as [[elements|e] w1];
    cbn [attempt free_bind free_run_from app mret free_ret].
  2: { exists []. split; [done|]. split; [done|]. intros [=]. }
  rewrite free_run_from_past.
  pose proof (mapM_element_data_run h elements w1) as H.
  destruct (free_run_from h (mapM element_data elements) w1 [])
    as [[r tr] w2].
  destruct r as [data|e]; cbn [free_run_from mret free_ret].
  - destruct H as (readings & Hlen & Hfours & -> & -> & Hno).
    exists (reading_data <$> readings). split; [done|].
    cbn [app existsb raised orb]. split; [by rewrite Hno|]. intros _.
    by exists elements, readings.
  - exists []. split; [done|]. split; [done|].
    cbn [app existsb raised orb]. by rewrite H.
Qed.

Lemma find_elements_outcome_witness :
  let '(res, tr, _) :=
    free_run (obliging "https://portal/users") (find_elements ready "button") tt in
  exists data,
    res = Ok data /\
    (existsb raised tr = true -> data = []) /\
    (existsb raised tr = false ->
     exists elements readings,
       length readings = length elements /\
       Forall (fun reading => length (read_values reading) = 4) readings /\
       tr = FEv (QuerySelectorAll "button") (Ok elements)
            :: concat (zip_with reading_calls elements readings) /\
       data = reading_data <$> readings).
Proof.
  exact (find_elements_outcome (obliging "https://portal/users") tt ready
           "button" eq_refl).
Defined.

(** Two elements with an id, an empty class and no other attribute: each
    entry keeps the id alone. *)
Example find_elements_example :
  (free_run (obliging "https://portal/users") (find_elements ready "button") tt).1.1
  = Ok [ {| text := Some "Invite"; element_inner_html := "<b>Invite</b>";
            attributes := [("id", "invite")] |};
         {| text := Some "Invite"; element_inner_html := "<b>Invite</b>";
            attributes := [("id", "invite")] |} ].
Proof. reflexivity. Qed.

(** X26 (browser_automation.py, navigate_to_users_page, click_element,
    extract_page_content, take_screenshot, wait_for_element).  With a page
    at hand, each of these methods makes its one or two calls in order,
    skips the second when the first raised, and answers success exactly
    when no call raised.  The failure value of [extract_page_content] is
    the empty string, and a screenshot is stored under the logs directory
    as [<name>.png], named after the clock when no name is given. *)
Theorem page_methods_outcome {W} (h : BHandler W) (w : W) (self : Self) :
  page self = true ->
  (forall config,
     let '(res, tr, _) := free_run h (navigate_to_users_page self config) w in
     res = Ok (negb (existsb raised tr)) /\
     exists n, 0 < n /\
       fev_call <$> tr
       = take n [Goto (Config.users_page_url config);
                 WaitForLoadState "networkidle"] /\
       (n < 2 -> existsb raised tr = true)) /\
  (forall selector,
     let '(res, tr, _) := free_run h (click_element self selector) w in
     res = Ok (negb (existsb raised tr)) /\
     exists n, 0 < n /\
       fev_call <$> tr
       = take n [Click selector; WaitForLoadState "networkidle"] /\
       (n < 2 -> existsb raised tr = true)) /\
  (let '(res, tr, _) := free_run h (extract_page_content self) w in
   exists r, tr = [FEv Content r] /\
             res = Ok (match r with Ok html => html | Raise _ => "" end)) /\
  (forall name,
     let '(res, tr, _) := free_run h (take_screenshot self (Some name)) w in
     let path := "./logs//" +:+ name +:+ ".png" in
     exists r, tr = [FEv (Screenshot path true) r] /\
               res = Ok (match r with Ok _ => path | Raise _ => "" end)) /\
  (let '(res, tr, _) := free_run h (take_screenshot self None) w in
   exists stamp r,
     let path := "./logs//screenshot_" +:+ stamp +:+ ".png" in
     tr = [FEv (Strftime "%Y%m%d_%H%M%S") stamp;
           FEv (Screenshot path true) r] /\
     res = Ok (match r with Ok _ => path | Raise _ => "" end)) /\
  (forall selector timeout,
     let '(res, tr, _) :=
       free_run h (wait_for_element self selector timeout) w in
     exists r, tr = [FEv (WaitForSelector selector timeout) r] /\
               res = Ok (match r with Ok _ => true | Raise _ => false end)).
Proof.
  intros Hpage. destruct self as [pw br cx pg]. cbn in Hpage. subst pg.
  split_and!; intros; brun_paths h;
    first
      [ split; [reflexivity|];
        first [ exists 2; split; [lia|]; split; [reflexivity|]; intros; lia
              | exists 1; split; [lia|]; split; [reflexivity|]; reflexivity ]
      | eexists _, _; split; reflexivity
      | eexists; split; reflexivity ].
Qed.

Lemma page_methods_outcome_witness :
  let '(res, tr, _) :=
    free_run (obliging "https://portal/users")
      (take_screenshot ready (Some "dropbox_users_page")) tt in
  exists r,
    tr = [FEv (Screenshot "./logs//dropbox_users_page.png" true) r] /\
    res = Ok (match r with
              | Ok _ => "./logs//dropbox_users_page.png"
              | Raise _ => ""
              end).
Proof.
  exact (proj1 (proj2 (proj2 (proj2
           (page_methods_outcome (obliging "https://portal/users") tt ready
              eq_refl)))) "dropbox_users_page").
Defined.

End BrowserFacts.

(** ** The scraping workflow *)

Section RawJsonFacts.
Context (repr : Json -> string) (current_time saas_name : string).



Lemma dict_get_json_of_raw (k : string) (user_data : dict string PyVal) :
  dict_get k ((fun kv => (kv.1, JVal kv.2)) <$> user_data)
  = JVal <$> dict_get k user_data.
Proof.
  induction user_data as [|[k0 v0] user_data IH]; [done|].
  cbn [fmap list_fmap dict_get fst snd]. by case_bool_decide.
Qed.

Lemma process_json_user_of_raw (user_data : dict string PyVal) :
  process_json_user repr current_time saas_name (json_of_raw_user user_data)
  = process_user current_time saas_name user_data.
Proof.
  unfold process_json_user, process_user, json_of_raw_user, dict_get_default.
  rewrite !dict_get_json_of_raw.
  destruct (dict_get "email" user_data) as [ve|]; cbn [fmap option_fmap option_map json_strip];
    (destruct (py_strip _) as [e|err]; cbn [mbind exc_bind]; [|done]);
    (destruct (_ || _); [done|]);
    destruct (dict_get "name" user_data), (dict_get "role" user_data),
      (dict_get "last_login" user_data), (dict_get "status" user_data);
    reflexivity.
Qed.

(** On a list of dictionaries of scalars, the general processing is
    [process_raw_user_data]. *)
Lemma process_raw_json_of_raw (raw_users : list (dict string PyVal)) :
  process_raw_json repr current_time (JList (json_of_raw_user <$> raw_users))
    saas_name
  = Ok (process_raw_user_data current_time raw_users saas_name).
Proof.
  unfold process_raw_json. cbn [py_iter mbind exc_bind mret exc_ret]. f_equal.
  induction raw_users as [|user_data raw_users IH]; [done|].
  cbn [fmap list_fmap omap list_omap process_raw_user_data].
  rewrite process_json_user_of_raw.
  destruct (process_user _ _ user_data) as [[r|]|e]; [by f_equal|done..].
Qed.

End RawJsonFacts.

Section ScrapeFacts.





End ScrapeFacts.


(** The records are returned although both writes fail. *)
Example scrape_users_failed_writes :
  let entry := JDict [("email", JVal (PStr "a@x.com"))] in
  let '(res, tr, _) :=
    free_run (scrape_scripted "<table/>" (users_answer (JList [entry])))
      (scrape_users (fun _ => "[]") Refused Refused "dropbox"
         [("username", "admin"); ("password", "secret")] ∅) tt in
  match res with
  | Ok (users, fs) => length users = 1 /\ fs = ∅
  | Raise _ => False
  end.
Proof. vm_compute. by split. Qed.

Example scrape_users_example :
  let entry_ok := JDict [("email", JVal (PStr " a@x.com "));
                         ("name", JVal (PStr "Ann  Lee"))] in
  let entry_bad := JDict [("email", JVal (PStr "nobody"))] in
  let answer := users_answer (JList [entry_ok; entry_bad; JVal (PStr "x")]) in
  let '(res, tr, _) :=
    free_run (scrape_scripted "<table/>" answer)
      (scrape_users (fun _ => "[]") Written Written "dropbox"
         [("username", "admin"); ("password", "secret")] ∅) tt in
  length tr = 7 /\
  match res with
  | Ok (users, _) =>
      users
      = [ {| email := Some "a@x.com"; name := Some "Ann Lee"; role := None;
             last_login := None; status := Some "Unknown";
             extracted_at := Some "2024-01-01T00:00:00";
             source_saas := Some "Dropbox Business" |} ]
  | Raise _ => False
  end.
Proof. vm_compute. by split. Qed.

(** X28 (data_processor.py, process_raw_user_data).  What
    [process_raw_user_data] does with an answer that is not a list of
    well-formed dictionaries.  A dictionary is walked by its keys and a
    string by its characters, and each of these is skipped, so the result
    is the empty list; in a list, an entry that is not a dictionary is
    skipped, as is a dictionary whose email is missing or not a string.
    [None], a number or a boolean cannot be walked: the loop header raises
    [TypeError], outside the [try] of the loop body, and the exception
    leaves the function. *)
Theorem process_raw_json_malformed (repr : Json -> string)
    (current_time saas_name : string) :
  (forall d, process_raw_json repr current_time (JDict d) saas_name = Ok []) /\
  (forall s,
     process_raw_json repr current_time (JVal (PStr s)) saas_name = Ok []) /\
  (forall l,
     Forall (fun entry =>
               match entry with
               | JDict d =>
                   match dict_get "email" d with
                   | Some (JVal (PStr _)) => False
                   | _ => True
                   end
               | _ => True
               end) l ->
     process_raw_json repr current_time (JList l) saas_name = Ok []) /\
  (forall v,
     (forall s, v <> PStr s) ->
     process_raw_json repr current_time (JVal v) saas_name = Raise TypeError).
Proof.
  unfold process_raw_json. split_and!.
  - intros d. cbn [py_iter mbind exc_bind mret exc_ret]. f_equal.
    induction d as [|kv d IH]; [done|]. cbn [fmap list_fmap omap list_omap].
    exact IH.
  - intros s. cbn [py_iter mbind exc_bind mret exc_ret]. f_equal.
    induction (PyStr.chars s) as [|c cs IH]; [done|].
    cbn [fmap list_fmap omap list_omap]. exact IH.
  - intros l Hl. cbn [py_iter mbind exc_bind mret exc_ret]. f_equal.
    induction Hl as [|entry l Hentry _ IH]; [done|].
    cbn [omap list_omap]. rewrite IH.
    destruct entry as [v|l'|d]; [done..|].
    unfold process_json_user, dict_get_default.
    destruct (dict_get "email" d) as [[[| | |]|?|?]|]; done.
  - intros v Hv. destruct v as [| | |s]; [done..|]. by destruct (Hv s).
Qed.

Lemma process_raw_json_malformed_witness :
  process_raw_json (fun _ => "[]") "2024-01-01T00:00:00"
    (JList [JVal (PStr "a@x.com"); JDict [("email", JVal (PInt 7))]])
    "Demo SaaS"
  = Ok [] /\
  process_raw_json (fun _ => "[]") "2024-01-01T00:00:00" (JVal (PInt 7))
    "Demo SaaS"
  = Raise TypeError.
Proof.
  split.
  - apply (proj1 (proj2 (proj2 (process_raw_json_malformed (fun _ => "[]")
                                  "2024-01-01T00:00:00" "Demo SaaS")))).
    repeat constructor.
  - apply (proj2 (proj2 (proj2 (process_raw_json_malformed (fun _ => "[]")
                                  "2024-01-01T00:00:00" "Demo SaaS")))).
    done.
Defined.
